(** * File manager backend: a shallow embedding of [backend.c]

    The backend of the file manager is a thin layer of C over POSIX system
    calls, GLib string helpers and libzip.  This development embeds the
    operations of [backend.c] as Rocq functions over an explicit model of
    the world the calls act on:

    - the file system is a tree of [node]s (regular files, directories and
      symbolic links) together with a current directory, the free space of
      the disk and a clock;
    - every system call takes the world and returns the new world and the
      value the C call returns; each call that takes a path name is also
      appended to a [trace] with what its path named at that moment, which
      is how "the code attempted X" is stated ([read], [write], [readdir]
      and [closedir] take no path and are not in the trace);
    - GLib's path helpers are functions on strings;
    - recursion that the C code performs through path names
      ([copy_item], [add_to_zip_recursive]) is bounded by a fuel
      argument, [None] meaning that the fuel ran out.

    Scope of the kernel model: the process owns every file and is not the
    superuser, so the owner's read, write and search bits decide what it
    may do; names are bounded by NAME_MAX and paths by PATH_MAX, and a
    resolution follows at most 40 symbolic links.  The process carries its
    umask and the decimal point of its locale.  There are no hard links
    and no special files; the entries of a directory are held in the order
    in which [readdir] returns them, and a new entry is put last (an
    order no statement below relies on for an entry that a call created).
    The times of a directory are not updated when its entries change, and
    no statement below speaks of them. *)

From Stdlib Require Import ZArith Lia DecimalString Ascii.
From stdpp Require Import base tactics option list strings.

Local Open Scope Z_scope.

#[local] Arguments String.append !_ _ / : simpl nomatch.

(** ** Strings and path names *)

Definition dec (n : Z) : string := NilZero.string_of_int (Z.to_int n).

Definition is_sep (c : ascii) : bool := Ascii.eqb c "/"%char.

Definition flush (cur : string) : list string :=
  if String.eqb cur "" then [] else [cur].

(** The components of a path name, as the kernel reads it: maximal runs of
    characters other than '/'. *)
Fixpoint split_aux (cur : string) (s : string) : list string :=
  match s with
  | EmptyString => flush cur
  | String c s' =>
      if is_sep c then flush cur ++ split_aux "" s'
      else split_aux (cur +:+ String c "") s'
  end.

Definition split_path (s : string) : list string := split_aux "" s.

Definition is_absolute (s : string) : bool :=
  match s with String c _ => is_sep c | EmptyString => false end.

(** [skip_seps s] is [s] without its leading separators, [leading_seps s]
    those separators. *)
Fixpoint skip_seps (s : string) : string :=
  match s with
  | String c s' => if is_sep c then skip_seps s' else s
  | EmptyString => EmptyString
  end.

Fixpoint leading_seps (s : string) : string :=
  match s with
  | String c s' => if is_sep c then String c (leading_seps s') else EmptyString
  | EmptyString => EmptyString
  end.

(** [rstrip s] is [s] without its trailing separators, [trailing_seps s]
    those separators. *)
Fixpoint rstrip (s : string) : string :=
  match s with
  | EmptyString => EmptyString
  | String c s' =>
      let r := rstrip s' in
      if is_sep c && String.eqb r "" then EmptyString else String c r
  end.

Fixpoint trailing_seps (s : string) : string :=
  match s with
  | EmptyString => EmptyString
  | String c s' =>
      if is_sep c && String.eqb (rstrip s') "" then s else trailing_seps s'
  end.

Definition ends_with_sep (s : string) : bool :=
  negb (String.eqb (trailing_seps s) "").

Fixpoint has_sep (s : string) : bool :=
  match s with
  | EmptyString => false
  | String c s' => is_sep c || has_sep s'
  end.

(** A name a directory entry can carry: not empty, no separator, and not
    one of the two pseudo-entries. *)
Definition valid_name (s : string) : bool :=
  negb (String.eqb s "") && negb (has_sep s)
  && negb (String.eqb s ".") && negb (String.eqb s "..").

(** *** GLib: [g_build_filename], [g_path_get_basename],
    [g_path_get_dirname], [g_strconcat]

    [g_build_filename] is GLib's [g_build_path] with separator "/": empty
    elements are ignored, the leading separators of the first non-empty
    element and the trailing separators of the last one are kept, and
    exactly one separator is put between two non-empty bodies.  The state
    below is the state of the loop of [g_build_path_va]. *)

Record build_state := mk_build_state {
  bs_result : string;
  bs_is_first : bool;
  bs_have_leading : bool;
  bs_single_element : option string;
  bs_last_trailing : option string }.

Definition build_step (st : build_state) (element : string) : build_state :=
  if String.eqb element "" then st
  else
    let start := skip_seps element in
    let body := rstrip start in
    let st1 :=
      if bs_have_leading st then
        mk_build_state (bs_result st) (bs_is_first st) true None
                       (Some (trailing_seps element))
      else
        mk_build_state (bs_result st +:+ leading_seps element) (bs_is_first st) true
                       (if String.eqb start "" then Some element else bs_single_element st)
                       (Some (trailing_seps element)) in
    if String.eqb body "" then st1
    else
      mk_build_state
        (bs_result st1 +:+ (if bs_is_first st1 then "" else "/") +:+ body)
        false (bs_have_leading st1) (bs_single_element st1) (bs_last_trailing st1).

Definition g_build_path_va (elements : list string) : string :=
  let st := fold_left build_step elements (mk_build_state "" true false None None) in
  match bs_single_element st with
  | Some e => e
  | None => bs_result st +:+ default "" (bs_last_trailing st)
  end.

Definition g_build_filename (a b : string) : string := g_build_path_va [a; b].

(** The last component, ignoring trailing separators; "." for the empty
    string and "/" for a string of separators only. *)
Definition g_path_get_basename (file_name : string) : string :=
  if String.eqb file_name "" then "."
  else match last (split_path file_name) with
       | Some c => c
       | None => "/"
       end.

(** [before_last_sep s] is what precedes the last separator of [s], if
    there is one ([strrchr]). *)
Fixpoint before_last_sep (s : string) : option string :=
  match s with
  | EmptyString => None
  | String c s' =>
      match before_last_sep s' with
      | Some p => Some (String c p)
      | None => if is_sep c then Some EmptyString else None
      end
  end.

Definition g_path_get_dirname (file_name : string) : string :=
  match before_last_sep file_name with
  | None => "."
  | Some p => if String.eqb (rstrip p) "" then "/" else rstrip p
  end.

Definition g_strconcat (a b : string) : string := a +:+ b.

(** ** [format_size]

    [(gdouble)size] rounds a 64-bit integer to the nearest binary64 value
    (ties to even); it is exact below 2^53.  Dividing by 1024 or 1024*1024
    is exact, and ["%.1f"] prints the tenth nearest to the exact value,
    ties to even. *)

Definition round_half_even (a b : Z) : Z :=
  let q := a / b in
  let r := a mod b in
  if 2 * r <? b then q
  else if b <? 2 * r then q + 1
  else if Z.even q then q else q + 1.

Definition to_double (n : Z) : Z :=
  let a := Z.abs n in
  if a <? 2 ^ 53 then n
  else
    let e := Z.log2 a - 52 in
    Z.sgn n * (round_half_even a (2 ^ e) * 2 ^ e).

(** ["%.1f"] applied to the value [num / den], [den > 0].  [g_snprintf]
    formats in the locale of the process: [point] is its decimal point
    ([localeconv ()->decimal_point]). *)
Definition printf_1f (point : string) (num den : Z) : string :=
  let t := round_half_even (10 * Z.abs num) den in
  (if num <? 0 then "-" else "") +:+ dec (t / 10) +:+ point +:+ dec (t mod 10).

(** [point] is the decimal point of the locale in force when the function
    is called. *)
Definition format_size (point : string) (size : Z) : string :=
  if size <? 1024 then dec size +:+ " B"
  else if size <? 1024 * 1024 then printf_1f point (to_double size) 1024 +:+ " KB"
  else printf_1f point (to_double size) (1024 * 1024) +:+ " MB".

(** ** The file system *)

#[warnings="-register-all"]
Inductive node : Type :=
| File (perm : Z) (mtime : Z) (data : list Byte.byte)
| Dir (perm : Z) (mtime : Z) (ents : list (string * node))
| Symlink (target : string).

Definition is_dir_node (n : node) : bool :=
  match n with Dir _ _ _ => true | _ => false end.

(** The owner's permissions: bits 0400, 0200 and 0100 of the mode. *)
Definition readable (perm : Z) : bool := Z.testbit perm 8.
Definition writable (perm : Z) : bool := Z.testbit perm 7.
Definition searchable (perm : Z) : bool := Z.testbit perm 6.

(** *** Directories: association lists in enumeration order *)

Fixpoint ents_lookup (name : string) (ents : list (string * node)) : option node :=
  match ents with
  | [] => None
  | (k, n) :: rest => if String.eqb k name then Some n else ents_lookup name rest
  end.

(** Replaces the entry in place, or appends a new one. *)
Fixpoint ents_insert (name : string) (n : node) (ents : list (string * node))
  : list (string * node) :=
  match ents with
  | [] => [(name, n)]
  | (k, m) :: rest =>
      if String.eqb k name then (k, n) :: rest else (k, m) :: ents_insert name n rest
  end.

Fixpoint ents_delete (name : string) (ents : list (string * node))
  : list (string * node) :=
  match ents with
  | [] => []
  | (k, m) :: rest =>
      if String.eqb k name then rest else (k, m) :: ents_delete name rest
  end.

Fixpoint ents_alter (name : string) (f : node -> node) (ents : list (string * node))
  : list (string * node) :=
  match ents with
  | [] => []
  | (k, m) :: rest =>
      if String.eqb k name then (k, f m) :: rest else (k, m) :: ents_alter name f rest
  end.

(** *** Canonical paths: lists of names from the root *)

Fixpoint lookup (p : list string) (n : node) : option node :=
  match p with
  | [] => Some n
  | c :: p' =>
      match n with
      | Dir _ _ ents =>
          match ents_lookup c ents with
          | Some m => lookup p' m
          | None => None
          end
      | _ => None
      end
  end.

(** [update_dir p f n] applies [f] to the entries of the directory at [p]. *)
Fixpoint update_dir (p : list string) (f : list (string * node) -> list (string * node))
  (n : node) : node :=
  match n with
  | Dir pm mt ents =>
      match p with
      | [] => Dir pm mt (f ents)
      | c :: p' => Dir pm mt (ents_alter c (update_dir p' f) ents)
      end
  | _ => n
  end.

(** *** Path resolution

    A location is an existing directory (canonical path) and, unless the
    path named that directory itself, the final name under it, which may
    or may not exist. *)

Definition loc : Type := list string * option string.

Definition loc_path (l : loc) : list string :=
  match l with
  | (d, Some c) => d ++ [c]
  | (d, None) => d
  end.

Definition loc_node (r : node) (l : loc) : option node := lookup (loc_path l) r.

Definition dir_of (r : node) (l : loc) : option (list string) :=
  match l with
  | (d, None) => Some d
  | (d, Some c) =>
      match lookup (d ++ [c]) r with
      | Some (Dir _ _ _) => Some (d ++ [c])
      | _ => None
      end
  end.

Definition parent_path (p : list string) : list string := removelast p.

Definition NAME_MAX : Z := 255.
Definition PATH_MAX : Z := 4096.

(** Linux follows at most 40 links in one resolution. *)
Definition MAXSYMLINKS : nat := 40.

(** Looking a name up in the directory [cur] takes search permission on
    it. *)
Definition may_search (r : node) (cur : list string) : bool :=
  match lookup cur r with
  | Some (Dir pm _ _) => searchable pm
  | _ => false
  end.

(** A name of more than NAME_MAX bytes is not found by any lookup, as no
    entry can be given it (ENAMETOOLONG). *)
Definition name_fits (c : string) : bool := Z.of_nat (String.length c) <=? NAME_MAX.

(** One component [c] looked up in the directory [cur]. *)
Definition step (r : node) (cur : list string) (c : string) : option loc :=
  if negb (may_search r cur) then None
  else if String.eqb c "." then Some (cur, None)
  else if String.eqb c ".." then Some (parent_path cur, None)
  else Some (cur, Some c).

Definition link_at (r : node) (l : loc) : option string :=
  match l with
  | (d, Some c) =>
      match lookup (d ++ [c]) r with
      | Some (Symlink t) => Some t
      | _ => None
      end
  | (_, None) => None
  end.

(** The target of the link at [l] when the resolution has to follow it:
    always before the last component, and at the last one when [follow]
    is set. *)
Definition followed (r : node) (follow : bool) (rest : list string) (l : loc)
  : option string :=
  match rest with
  | [] => if follow then link_at r l else None
  | _ :: _ => link_at r l
  end.

(** [walk hops r follow cur comps] resolves the components [comps] from the
    directory [cur].  Following a link puts the components of its target
    in front of those that remain; [hops] is the number of links that may
    still be followed (ELOOP when it is used up). *)
Fixpoint walk (hops : nat) (r : node) (follow : bool) {struct hops}
  : list string -> list string -> option loc :=
  fix go (cur : list string) (comps : list string) {struct comps} : option loc :=
    match comps with
    | [] => Some (cur, None)
    | c :: rest =>
        match step r cur c with
        | None => None
        | Some l =>
            match followed r follow rest l with
            | Some t =>
                match hops with
                | O => None
                | S h =>
                    if String.eqb t "" then None
                    else walk h r follow (if is_absolute t then [] else cur)
                           (split_path t ++ rest)
                end
            | None =>
                match rest with
                | [] => Some l
                | _ :: _ =>
                    match dir_of r l with
                    | Some d => go d rest
                    | None => None
                    end
                end
            end
        end
    end.

Definition namei (r : node) (cwd : list string) (follow : bool) (path : string)
  : option loc :=
  if String.eqb path "" then None
  else if PATH_MAX <=? Z.of_nat (String.length path) then None
  else walk MAXSYMLINKS r follow (if is_absolute path then [] else cwd) (split_path path).

(** Resolution is not unfolded by [simpl]. *)
#[global] Arguments walk : simpl never.
#[global] Arguments namei : simpl never.

(** *** The world *)

Inductive syscall : Type :=
| SysStat | SysLstat | SysOpendir | SysMkdir | SysOpen | SysRemove | SysRename.

(** What a path names when a call is made (a final symbolic link is not
    followed). *)
Inductive target : Type :=
| Absent | IsFile | IsLink | EmptyDir | NonEmptyDir.

Record event := Ev { ev_call : syscall; ev_path : string; ev_target : target; ev_ret : Z }.

(** The file system, and of the process its working directory, its umask
    and the decimal point of its locale. *)
Record world := mk_world {
  root : node;
  cwd : list string;
  umask : Z;
  decimal_point : string;
  disk_free : nat;
  clock : Z;
  trace : list event }.

Definition log (e : event) (w : world) : world :=
  mk_world (root w) (cwd w) (umask w) (decimal_point w) (disk_free w) (clock w)
    (trace w ++ [e]).

Definition set_root (r : node) (w : world) : world :=
  mk_world r (cwd w) (umask w) (decimal_point w) (disk_free w) (clock w) (trace w).

Definition set_disk_free (k : nat) (w : world) : world :=
  mk_world (root w) (cwd w) (umask w) (decimal_point w) k (clock w) (trace w).

(** *** [struct stat] *)

Record stat_buf := mk_stat { st_mode : Z; st_size : Z; st_mtime : Z }.

Definition S_IFMT : Z := 0xF000.   (* 0170000 *)
Definition S_IFDIR : Z := 0x4000.  (* 0040000 *)
Definition S_IFREG : Z := 0x8000.  (* 0100000 *)
Definition S_IFLNK : Z := 0xA000.  (* 0120000 *)

(** The permission bits, 07777; the access bits, 0777; the set-group-ID
    bit, 02000, and the sticky bit, 01000. *)
Definition ALLPERMS : Z := 0xFFF.
Definition ACCESSPERMS : Z := 0x1FF.
Definition S_ISGID : Z := 0x400.
Definition S_ISVTX : Z := 0x200.

Definition S_ISDIR (m : Z) : bool := Z.land m S_IFMT =? S_IFDIR.

Definition stat_of (n : node) : stat_buf :=
  match n with
  | File pm mt data => mk_stat (Z.lor S_IFREG (Z.land pm ALLPERMS)) (Z.of_nat (length data)) mt
  | Dir pm mt _ => mk_stat (Z.lor S_IFDIR (Z.land pm ALLPERMS)) 4096 mt
  | Symlink t => mk_stat (Z.lor S_IFLNK ACCESSPERMS) (Z.of_nat (String.length t)) 0
  end.

(** ** System calls

    Each call returns the world after the call and the value the C call
    returns ([-1], [NULL] or a short count on failure; [errno] is not
    modelled).  Every call that takes a path name is logged. *)

Definition target_of (o : option node) : target :=
  match o with
  | None => Absent
  | Some (File _ _ _) => IsFile
  | Some (Symlink _) => IsLink
  | Some (Dir _ _ []) => EmptyDir
  | Some (Dir _ _ (_ :: _)) => NonEmptyDir
  end.

Definition observe (w : world) (path : string) : target :=
  match namei (root w) (cwd w) false path with
  | Some l => target_of (loc_node (root w) l)
  | None => Absent
  end.

Definition ret_of {A} (o : option A) : Z :=
  match o with Some _ => 0 | None => -1 end.

(** A trailing separator demands a directory. *)
Definition slash_ok (path : string) (n : node) : bool :=
  negb (ends_with_sep path) || is_dir_node n.

Definition stat_at (w : world) (follow : bool) (path : string) : option stat_buf :=
  match namei (root w) (cwd w) (follow || ends_with_sep path) path with
  | Some l =>
      match loc_node (root w) l with
      | Some n => if slash_ok path n then Some (stat_of n) else None
      | None => None
      end
  | None => None
  end.

Definition sys_stat (w : world) (path : string) : world * option stat_buf :=
  let r := stat_at w true path in
  (log (Ev SysStat path (observe w path) (ret_of r)) w, r).

Definition sys_lstat (w : world) (path : string) : world * option stat_buf :=
  let r := stat_at w false path in
  (log (Ev SysLstat path (observe w path) (ret_of r)) w, r).

(** [opendir]: the directory must be readable; the stream holds ".", ".."
    and the names of its entries, in enumeration order, as they are when
    it is opened. *)
Definition sys_opendir (w : world) (path : string) : world * option (list string) :=
  let r :=
    match namei (root w) (cwd w) true path with
    | Some l =>
        match loc_node (root w) l with
        | Some (Dir pm _ ents) =>
            if readable pm then Some ("." :: ".." :: map fst ents) else None
        | _ => None
        end
    | None => None
    end in
  (log (Ev SysOpendir path (observe w path) (ret_of r)) w, r).

(** The mode of a new directory: the access bits and the sticky bit of
    [mode] that the umask leaves, and the set-group-ID bit of the parent. *)
Definition mkdir_mode (w : world) (parent_perm mode : Z) : Z :=
  Z.lor (Z.land (Z.land mode (Z.lor ACCESSPERMS S_ISVTX)) (Z.lnot (umask w)))
        (Z.land parent_perm S_ISGID).

(** The mode of a new file: the permission bits of [mode] that the umask
    leaves. *)
Definition creat_mode (w : world) (mode : Z) : Z :=
  Z.land (Z.land mode ALLPERMS) (Z.lnot (umask w)).

(** [mkdir]: the final name must be new (a symbolic link there is not
    followed) and of at most NAME_MAX bytes, and its directory writable. *)
Definition sys_mkdir (w : world) (path : string) (mode : Z) : world * Z :=
  let '(r', ret) :=
    match namei (root w) (cwd w) false path with
    | Some (d, Some c) =>
        match lookup (d ++ [c]) (root w), lookup d (root w) with
        | None, Some (Dir pm _ _) =>
            if writable pm && name_fits c then
              (update_dir d (ents_insert c (Dir (mkdir_mode w pm mode) (clock w) []))
                 (root w), 0)
            else (root w, -1)
        | _, _ => (root w, -1)
        end
    | _ => (root w, -1)
    end in
  (log (Ev SysMkdir path (observe w path) ret) (set_root r' w), ret).

(** *** Open files

    The descriptor table is not modelled: [open] hands out the open file
    description itself, [close] is the identity and is left out. *)

Definition O_RDONLY : Z := 0.
Definition O_WRONLY : Z := 1.
Definition O_ACCMODE : Z := 3.
Definition O_CREAT : Z := 0x40.   (* 0100 *)
Definition O_EXCL : Z := 0x80.    (* 0200 *)
Definition O_TRUNC : Z := 0x200.  (* 01000 *)

Definition has_flag (flags flag : Z) : bool := negb (Z.land flags flag =? 0).

Record fd := mk_fd { fd_path : list string; fd_off : nat; fd_wr : bool }.

Definition sys_open (w : world) (path : string) (flags mode : Z) : world * option fd :=
  let creat := has_flag flags O_CREAT in
  let excl := creat && has_flag flags O_EXCL in
  let trunc := has_flag flags O_TRUNC in
  let wr := negb (Z.land flags O_ACCMODE =? O_RDONLY) in
  let rd := negb (Z.land flags O_ACCMODE =? O_WRONLY) in
  let '(w', r) :=
    match namei (root w) (cwd w) (negb excl || ends_with_sep path) path with
    | Some l =>
        let p := loc_path l in
        match lookup p (root w) with
        | Some (File pm mt data) =>
            if excl || ends_with_sep path || (wr && negb (writable pm))
               || (rd && negb (readable pm)) then (w, None)
            else if trunc && wr then
              (set_disk_free (disk_free w + length data)
                 (set_root (update_dir (parent_path p)
                              (ents_insert (default "" (last p)) (File pm (clock w) []))
                              (root w)) w),
               Some (mk_fd p 0 wr))
            else (w, Some (mk_fd p 0 wr))
        | Some (Dir pm _ _) =>
            if excl || wr || negb (readable pm) then (w, None)
            else (w, Some (mk_fd p 0 wr))
        | Some (Symlink _) => (w, None)
        | None =>
            match l with
            | (d, Some c) =>
                match lookup d (root w) with
                | Some (Dir pm _ _) =>
                    if creat && negb (ends_with_sep path) && writable pm && name_fits c then
                      (set_root (update_dir d
                                   (ents_insert c (File (creat_mode w mode) (clock w) []))
                                   (root w)) w,
                       Some (mk_fd p 0 wr))
                    else (w, None)
                | _ => (w, None)
                end
            | _ => (w, None)
            end
        end
    | None => (w, None)
    end in
  (log (Ev SysOpen path (observe w path) (ret_of r)) w', r).

(** [read] returns the bytes read, their number, and the description moved
    forward; [-1] when the description is not a regular file. *)
Definition sys_read (w : world) (f : fd) (count : Z) : fd * list Byte.byte * Z :=
  match lookup (fd_path f) (root w) with
  | Some (File _ _ data) =>
      let chunk := take (Z.to_nat count) (drop (fd_off f) data) in
      (mk_fd (fd_path f) (fd_off f + length chunk) (fd_wr f), chunk, Z.of_nat (length chunk))
  | _ => (f, [], -1)
  end.

(** [write] stores as many bytes as the disk has room for and returns their
    number (a short count), [-1] when none could be written. *)
Definition sys_write (w : world) (f : fd) (buf : list Byte.byte) : world * fd * Z :=
  match lookup (fd_path f) (root w) with
  | Some (File pm mt data) =>
      if fd_wr f then
        let room := (length data - fd_off f + disk_free w)%nat in
        let k := Nat.min (length buf) room in
        if (k =? 0)%nat && negb (length buf =? 0)%nat then (w, f, -1)
        else
          let data' :=
            take (fd_off f) data ++ replicate (fd_off f - length data) Byte.x00
            ++ take k buf ++ drop (fd_off f + k) data in
          let p := fd_path f in
          (set_disk_free (disk_free w - (length data' - length data))
             (set_root (update_dir (parent_path p)
                          (ents_insert (default "" (last p)) (File pm (clock w) data'))
                          (root w)) w),
           mk_fd p (fd_off f + k) (fd_wr f), Z.of_nat k)
      else (w, f, -1)
  | _ => (w, f, -1)
  end.

(** [remove] is [unlink] for a file or a symbolic link (never followed) and
    [rmdir] for a directory, which must be empty. *)
Definition sys_remove (w : world) (path : string) : world * Z :=
  let '(r', ret) :=
    match namei (root w) (cwd w) false path with
    | Some (d, Some c) =>
        match lookup (d ++ [c]) (root w), lookup d (root w) with
        | Some n, Some (Dir pm _ _) =>
            if writable pm && slash_ok path n
               && match n with Dir _ _ ents => bool_decide (ents = []) | _ => true end
            then (update_dir d (ents_delete c) (root w), 0)
            else (root w, -1)
        | _, _ => (root w, -1)
        end
    | _ => (root w, -1)
    end in
  (log (Ev SysRemove path (observe w path) ret) (set_root r' w), ret).

Definition is_prefix (p q : list string) : bool := bool_decide (p `prefix_of` q).

Definition perm_of (n : node) : Z :=
  match n with
  | File pm _ _ => pm
  | Dir pm _ _ => pm
  | Symlink _ => ACCESSPERMS
  end.

(** [rename]: one update of the tree.  A directory cannot be moved below
    itself, and moving it to another directory takes write permission on
    it (its ".." changes); an existing target is replaced when it is of
    the same kind (and empty, for a directory). *)
Definition sys_rename (w : world) (oldpath newpath : string) : world * Z :=
  let '(r', ret) :=
    match namei (root w) (cwd w) false oldpath, namei (root w) (cwd w) false newpath with
    | Some (d1, Some c1), Some (d2, Some c2) =>
        match lookup (d1 ++ [c1]) (root w), lookup d1 (root w), lookup d2 (root w) with
        | Some n, Some (Dir pm1 _ _), Some (Dir pm2 _ _) =>
            let target_ok :=
              match lookup (d2 ++ [c2]) (root w), n with
              | None, _ => negb (ends_with_sep newpath) || is_dir_node n
              | Some (Dir _ _ ents), Dir _ _ _ => bool_decide (ents = [])
              | Some (Dir _ _ _), _ => false
              | Some _, Dir _ _ _ => false
              | Some _, _ => negb (ends_with_sep newpath)
              end in
            if bool_decide (d1 ++ [c1] = d2 ++ [c2]) then (root w, 0)
            else if writable pm1 && writable pm2 && slash_ok oldpath n && target_ok
                    && negb (is_dir_node n && is_prefix (d1 ++ [c1]) (d2 ++ [c2]))
                    && (negb (is_dir_node n) || bool_decide (d1 = d2) || writable (perm_of n))
                    && name_fits c2
            then (update_dir d2 (ents_insert c2 n) (update_dir d1 (ents_delete c1) (root w)), 0)
            else (root w, -1)
        | _, _, _ => (root w, -1)
        end
    | _, _ => (root w, -1)
    end in
  (log (Ev SysRename oldpath (observe w oldpath) ret) (set_root r' w), ret).

(** *** [nftw]

    The walk of glibc: the start path loses its trailing separators before
    anything else is done with it, a child is named [dir/name], and the
    walk stops at the first call of [fn] that returns a value other than
    0, which [nftw] then returns.  With [FTW_DEPTH] a directory is
    reported after its entries ([FTW_DP]), without before ([FTW_D]); with
    [FTW_PHYS] a symbolic link is reported as such ([FTW_SL]) and not
    followed, without it the walk continues in what the link points to.
    A directory that cannot be read is reported as [FTW_DNR] and its
    entries are not visited; the entries of a directory that cannot be
    searched are reported as [FTW_NS], with a [struct stat] whose contents
    are unspecified ([None]).  The walk reads the tree as it was when
    [nftw] was called; for a callback that only removes what it is handed,
    that is the tree the walk finds on its way. *)

Definition FTW_PHYS : Z := 1.
Definition FTW_DEPTH : Z := 8.

Definition FTW_F : Z := 0.
Definition FTW_D : Z := 1.
Definition FTW_DNR : Z := 2.
Definition FTW_NS : Z := 3.
Definition FTW_SL : Z := 4.
Definition FTW_DP : Z := 5.
Definition FTW_SLN : Z := 6.

Record FTW := mk_FTW { ftw_base : Z; ftw_level : Z }.

Definition ftw_callback : Type :=
  world -> string -> option stat_buf -> Z -> FTW -> world * Z.

Definition ftw_join (dir name : string) : string :=
  if ends_with_sep dir then dir +:+ name else dir +:+ "/" +:+ name.

Definition ftw_start (path : string) : string :=
  if String.eqb (rstrip path) "" then "/" else rstrip path.

Definition ftw_info (fpath : string) (level : Z) : FTW :=
  mk_FTW (Z.of_nat (String.length fpath)
          - Z.of_nat (String.length (default "" (last (split_path fpath))))) level.

(** The loop over the entries of a directory; [go] walks one entry. *)
Fixpoint ftw_children (go : node -> string -> Z -> world -> world * Z)
  (fpath : string) (level : Z) (es : list (string * node)) (w : world) : world * Z :=
  match es with
  | [] => (w, 0)
  | (name, m) :: es' =>
      let '(w', r) := go m (ftw_join fpath name) (level + 1) w in
      if r =? 0 then ftw_children go fpath level es' w' else (w', r)
  end.

Fixpoint ftw_walk (hops : nat) (fn : ftw_callback) (depth phys : bool)
  : node -> string -> Z -> world -> world * Z :=
  fix go (n : node) (fpath : string) (level : Z) (w : world) {struct n} : world * Z :=
    match n with
    | File _ _ _ => fn w fpath (Some (stat_of n)) FTW_F (ftw_info fpath level)
    | Symlink _ =>
        if phys then fn w fpath (Some (stat_of n)) FTW_SL (ftw_info fpath level)
        else
          match namei (root w) (cwd w) true fpath with
          | Some l =>
              match loc_node (root w) l, hops with
              | Some m, S h => ftw_walk h fn depth phys m fpath level w
              | _, _ => fn w fpath (Some (stat_of n)) FTW_SLN (ftw_info fpath level)
              end
          | None => fn w fpath (Some (stat_of n)) FTW_SLN (ftw_info fpath level)
          end
    | Dir pm _ ents =>
        if negb (readable pm)
        then fn w fpath (Some (stat_of n)) FTW_DNR (ftw_info fpath level)
        else
          let '(w0, r0) :=
            if depth then (w, 0)
            else fn w fpath (Some (stat_of n)) FTW_D (ftw_info fpath level) in
          if negb (r0 =? 0) then (w0, r0)
          else
            let entry :=
              if searchable pm then go
              else fun (_ : node) (p : string) (lv : Z) (w' : world) =>
                     fn w' p None FTW_NS (ftw_info p lv) in
            let '(w1, r1) := ftw_children entry fpath level ents w0 in
            if negb (r1 =? 0) then (w1, r1)
            else if depth then fn w1 fpath (Some (stat_of n)) FTW_DP (ftw_info fpath level)
            else (w1, 0)
    end.

Definition nftw (w : world) (path : string) (fn : ftw_callback) (nopenfd : Z) (flags : Z)
  : world * Z :=
  let phys := has_flag flags FTW_PHYS in
  let depth := has_flag flags FTW_DEPTH in
  if String.eqb path "" then (w, -1)
  else
    let start := ftw_start path in
    match namei (root w) (cwd w) (negb phys) start with
    | Some l =>
        match loc_node (root w) l with
        | Some n => ftw_walk MAXSYMLINKS fn depth phys n start 0 w
        | None => (w, -1)
        end
    | None => (w, -1)
    end.

(** *** libzip

    An archive under construction is the list of its entries; a file entry
    keeps the path its data will be read from when the archive is closed.
    A name can be added once. *)

Inductive zip_entry : Type :=
| ZipDir (name : string)
| ZipFile (name : string) (source : string).

Definition zip_entry_name (e : zip_entry) : string :=
  match e with ZipDir n => n | ZipFile n _ => n end.

Definition zip_t : Type := list zip_entry.

Definition zip_name_locate (zip : zip_t) (name : string) : bool :=
  existsb (fun e => String.eqb (zip_entry_name e) name) zip.

Definition zip_dir_add (zip : zip_t) (name : string) : zip_t * Z :=
  let name' := if ends_with_sep name then name else name +:+ "/" in
  if String.eqb name "" || zip_name_locate zip name' then (zip, -1)
  else (zip ++ [ZipDir name'], Z.of_nat (length zip)).

Definition zip_source_file (fname : string) : option string := Some fname.

Definition zip_file_add (zip : zip_t) (name : string) (source : option string) : zip_t * Z :=
  match source with
  | Some src =>
      if String.eqb name "" || zip_name_locate zip name then (zip, -1)
      else (zip ++ [ZipFile name src], Z.of_nat (length zip))
  | None => (zip, -1)
  end.

(** ** The backend *)

(** [while ((dir = readdir(d)) != NULL) body]: the body runs on each name
    of the stream in turn. *)
Fixpoint readdir_loop {S : Type} (body : S -> string -> option S) (names : list string)
  (s : S) : option S :=
  match names with
  | [] => Some s
  | d_name :: rest =>
      match body s d_name with
      | Some s' => readdir_loop body rest s'
      | None => None
      end
  end.

Definition is_dot_or_dotdot (d_name : string) : bool :=
  String.eqb d_name "." || String.eqb d_name "..".

Module FileInfo.
Record t := mk {
name : string;
path : string;
type : option string;
size_formatted : option string;
modified : option string;
permissions : option string;
is_dir : bool }.
End FileInfo.

Section Backend.

(** What the development does not compute: the local time rendering of
[strftime], the mode string of [strmode], the outcome of opening and
of closing an archive, and the contents of a [struct stat] that a
failed [stat] left unwritten (the code reads it all the same). *)
Variable strftime_localtime : Z -> string.
Variable strmode : Z -> string.
Variable zip_open_ok : world -> string -> bool.
Variable zip_close_ok : world -> zip_t -> string -> bool.
Variable st_garbage : string -> stat_buf.

(** The body of the loop of [get_directory_contents], from the test for
"." and ".." to [g_list_append]. *)
Definition listing_step (path : string) (s : world * list FileInfo.t) (d_name : string)
: world * list FileInfo.t :=
let '(w, list) := s in
if is_dot_or_dotdot d_name then (w, list)
else
let info_name := d_name in
let info_path := g_build_filename path d_name in
let '(w', r) := sys_stat w info_path in
let info :=
  match r with
  | Some st =>
      let is_dir := S_ISDIR (st_mode st) in
      FileInfo.mk info_name info_path
        (Some (if is_dir then "Directory" else "File"))
        (Some (if is_dir then "" else format_size (decimal_point w) (st_size st)))
        (Some (strftime_localtime (st_mtime st)))
        (Some (strmode (st_mode st)))
        is_dir
  | None => FileInfo.mk info_name info_path None None None None false
  end in
(w', list ++ [info]).

(** A [GList *] is a list, [NULL] the empty one. *)
Definition get_directory_contents (w : world) (path : string)
: world * list FileInfo.t :=
let '(w0, d) := sys_opendir w path in
match d with
| None => (w0, [])
| Some names => fold_left (listing_step path) names (w0, [])
end.

Definition create_directory_item (w : world) (parent_dir dir_name : string)
: world * bool :=
let path := g_build_filename parent_dir dir_name in
let '(w', ret) := sys_mkdir w path 0x1ED (* 0755 *) in
(w', ret =? 0).

Definition create_file_item (w : world) (parent_dir file_name : string)
: world * bool :=
let path := g_build_filename parent_dir file_name in
let '(w', fd) :=
sys_open w path (Z.lor (Z.lor O_WRONLY O_CREAT) O_EXCL) 0x1A4 (* 0644 *) in
match fd with
| Some _ => (w', true)
| None => (w', false)
end.

Definition rename_item (w : world) (old_path new_name : string) : world * bool :=
let dir := g_path_get_dirname old_path in
let new_path := g_build_filename dir new_name in
let '(w', ret) := sys_rename w old_path new_path in
(w', ret =? 0).

Definition unlink_cb : ftw_callback :=
fun w fpath sb typeflag ftwbuf => sys_remove w fpath.

Definition delete_item (w : world) (path : string) : world * bool :=
let '(w', ret) := nftw w path unlink_cb 64 (Z.lor FTW_DEPTH FTW_PHYS) in
(w', ret =? 0).

(** The loop of [copy_file_content]; [None] when the fuel runs out. *)
Fixpoint copy_loop (fuel : nat) (w : world) (src_fd dst_fd : fd) : option (world * bool) :=
match fuel with
| O => None
| S fuel' =>
  let '(src_fd', buf, nread) := sys_read w src_fd 8192 in
  if 0 <? nread then
    let '(w', dst_fd', nwritten) := sys_write w dst_fd buf in
    if negb (nwritten =? nread) then Some (w', false)
    else copy_loop fuel' w' src_fd' dst_fd'
  else Some (w, nread =? 0)
end.

Definition copy_file_content (fuel : nat) (w : world) (src dst : string)
: option (world * bool) :=
let '(w1, src_fd) := sys_open w src O_RDONLY 0 in
match src_fd with
| None => Some (w1, false)
| Some src_fd =>
  let '(w2, dst_fd) :=
    sys_open w1 dst (Z.lor (Z.lor O_WRONLY O_CREAT) O_TRUNC) 0x1A4 (* 0644 *) in
  match dst_fd with
  | None => Some (w2, false)
  | Some dst_fd => copy_loop fuel w2 src_fd dst_fd
  end
end.

Definition stat_or_garbage (r : option stat_buf) (path : string) : stat_buf :=
match r with
| Some st => st
| None => st_garbage path
end.

(** The body of the loop of [copy_item]; [copy] is the recursive call. *)
Definition copy_step (copy : world -> string -> string -> option (world * bool))
(src_path dest_path : string) (s : world * bool) (d_name : string)
: option (world * bool) :=
let '(w, result) := s in
if is_dot_or_dotdot d_name then Some (w, result)
else
let new_src := g_build_filename src_path d_name in
match copy w new_src dest_path with
| Some (w', ok) => Some (w', if negb ok then false else result)
| None => None
end.

Fixpoint copy_item (fuel : nat) (w : world) (src_path dest_dir : string)
: option (world * bool) :=
match fuel with
| O => None
| S fuel' =>
  let base := g_path_get_basename src_path in
  let dest_path := g_build_filename dest_dir base in
  let '(w1, r) := sys_stat w src_path in
  let st := stat_or_garbage r src_path in
  if S_ISDIR (st_mode st) then
    let '(w2, _) := sys_mkdir w1 dest_path (st_mode st) in
    let '(w3, d) := sys_opendir w2 src_path in
    match d with
    | Some names =>
        readdir_loop (copy_step (copy_item fuel') src_path dest_path) names (w3, true)
    | None => Some (w3, true)
    end
  else copy_file_content fuel' w1 src_path dest_path
end.

Definition move_item (w : world) (src_path dest_dir : string) : world * bool :=
let base := g_path_get_basename src_path in
let dest_path := g_build_filename dest_dir base in
let '(w', ret) := sys_rename w src_path dest_path in
(w', ret =? 0).

(** The body of the loop of [add_to_zip_recursive]; [add] is the recursive
call. *)
Definition zip_step (add : world -> zip_t -> string -> string -> option (world * zip_t))
(base_path_in_fs parent_path_in_zip : string) (s : world * zip_t) (d_name : string)
: option (world * zip_t) :=
let '(w, zip) := s in
if is_dot_or_dotdot d_name then Some (w, zip)
else
let full_fs_path := g_build_filename base_path_in_fs d_name in
let full_zip_path := g_strconcat parent_path_in_zip d_name in
let '(w1, r) := sys_stat w full_fs_path in
let st := stat_or_garbage r full_fs_path in
if S_ISDIR (st_mode st) then
  let '(zip1, _) := zip_dir_add zip full_zip_path in
  let zip_dir_path := g_strconcat full_zip_path "/" in
  add w1 zip1 full_fs_path zip_dir_path
else
  let source := zip_source_file full_fs_path in
  let '(zip1, _) := zip_file_add zip full_zip_path source in
  Some (w1, zip1).

Fixpoint add_to_zip_recursive (fuel : nat) (w : world) (zip : zip_t)
(base_path_in_fs parent_path_in_zip : string) : option (world * zip_t) :=
match fuel with
| O => None
| S fuel' =>
  let '(w0, d) := sys_opendir w base_path_in_fs in
  match d with
  | None => Some (w0, zip)
  | Some names =>
      readdir_loop
        (zip_step (add_to_zip_recursive fuel') base_path_in_fs parent_path_in_zip)
        names (w0, zip)
  end
end.

(** The result carries the entries the archive holds when it is closed;
the bytes of the container are not modelled. *)
Definition zip_item (fuel : nat) (w : world) (src_path dest_zip_path : string)
: option (world * zip_t * bool) :=
if negb (zip_open_ok w dest_zip_path) then Some (w, [], false)
else
let zip : zip_t := [] in
let '(w1, r) := sys_stat w src_path in
let st := stat_or_garbage r src_path in
if S_ISDIR (st_mode st) then
  let base := g_path_get_basename src_path in
  let base_zip_path := g_strconcat base "/" in
  let '(zip1, _) := zip_dir_add zip base in
  match add_to_zip_recursive fuel w1 zip1 src_path base_zip_path with
  | Some (w2, zip2) => Some (w2, zip2, zip_close_ok w2 zip2 dest_zip_path)
  | None => None
  end
else
  let source := zip_source_file src_path in
  let '(zip1, _) := zip_file_add zip (g_path_get_basename src_path) source in
  Some (w1, zip1, zip_close_ok w1 zip1 dest_zip_path).

End Backend.

(** ** Definitions used to state the properties *)

(** The names of a directory stream other than "." and "..". *)
Definition real_names (names : list string) : list string :=
  List.filter (fun d_name => negb (is_dot_or_dotdot d_name)) names.

(** The record the listing builds for the child [d_name] of [path]. *)
Definition info_of (strftime_localtime strmode : Z -> string) (w : world)
  (path d_name : string) : FileInfo.t :=
  let info_path := g_build_filename path d_name in
  match stat_at w true info_path with
  | Some st =>
      FileInfo.mk d_name info_path
        (Some (if S_ISDIR (st_mode st) then "Directory" else "File"))
        (Some (if S_ISDIR (st_mode st) then ""
               else format_size (decimal_point w) (st_size st)))
        (Some (strftime_localtime (st_mtime st)))
        (Some (strmode (st_mode st)))
        (S_ISDIR (st_mode st))
  | None => FileInfo.mk d_name info_path None None None None false
  end.

(** Two worlds with the same file system (they may differ in their trace). *)
Definition same_fs (w w' : world) : Prop :=
  root w = root w' /\ cwd w = cwd w' /\ disk_free w = disk_free w' /\ clock w = clock w' /\
  umask w = umask w' /\ decimal_point w = decimal_point w'.

(** *** A sample world

    [/home/user] holds the tree [root/{a.txt, sub/b.txt}], an empty
    directory [dst], a dangling link [lnk], a link [out] to [/srv], a
    project [proj] with a read-only directory [ro] before a file [g], a
    directory [tmp] with a link [cache] to [/srv], an empty directory [e],
    and a directory [taken] with a file named [e]. *)

Definition bytes (s : string) : list Byte.byte := String.list_byte_of_string s.

Definition sample_root : node :=
  Dir 0x1ED 0
    [("home", Dir 0x1ED 0
       [("user", Dir 0x1ED 0
          [("root", Dir 0x1ED 0
             [("a.txt", File 0x1A4 0 (bytes "hello"));
              ("sub", Dir 0x1ED 0 [("b.txt", File 0x1A4 0 (bytes "world"))])]);
           ("dst", Dir 0x1ED 0 []);
           ("lnk", Symlink "/nowhere");
           ("out", Symlink "/srv");
           ("proj", Dir 0x1ED 0
             [("ro", Dir 0x16D 0 [("f", File 0x1A4 0 (bytes "x"))]);
              ("g", File 0x1A4 0 (bytes "y"))]);
           ("tmp", Dir 0x1ED 0
             [("cache", Symlink "/srv"); ("x", File 0x1A4 0 (bytes "t"))]);
           ("e", Dir 0x1ED 0 []);
           ("taken", Dir 0x1ED 0 [("e", File 0x1A4 0 (bytes "z"))])])]);
     ("srv", Dir 0x1ED 0 [("data", File 0x1A4 0 (bytes "keep"))])].

(** The umask is 022 and the locale has "." as its decimal point. *)
Definition sample_world : world :=
  mk_world sample_root ["home"; "user"] 0x12 "." 4096 1700000000 [].

(** *** A world with directories the process cannot read or search

    [/t] holds a directory [sealed] that cannot be read (mode 0300) with a
    file in it, and a file [z]; [/listed] can be read but not searched
    (mode 0600) and holds a directory [inner]. *)
Definition guarded_root : node :=
  Dir 0x1ED 0
    [("t", Dir 0x1ED 0
       [("sealed", Dir 0xC0 0 [("f", File 0x1A4 0 (bytes "x"))]);
        ("z", File 0x1A4 0 (bytes "y"))]);
     ("listed", Dir 0x180 0 [("inner", Dir 0x1ED 0 [])])].

Definition guarded_world : world :=
  mk_world guarded_root [] 0x12 "." 4096 1700000000 [].

Definition no_garbage (path : string) : stat_buf := mk_stat 0 0 0.
Definition dir_garbage (path : string) : stat_buf := mk_stat S_IFDIR 0 0.
Definition no_time (t : Z) : string := "".

(** *** Deleting a tree *)

(** The paths [nftw] hands to its callback with [FTW_DEPTH | FTW_PHYS], in
    order: the entries of a directory, each with what is below it, and then
    the directory; a symbolic link is a leaf. *)
Fixpoint postorder (n : node) (fpath : string) : list string :=
  match n with
  | Dir _ _ ents =>
      (fix entries (es : list (string * node)) : list string :=
         match es with
         | [] => []
         | (name, m) :: es' => postorder m (ftw_join fpath name) ++ entries es'
         end) ents ++ [fpath]
  | _ => [fpath]
  end.

Fixpoint postorder_entries (fpath : string) (es : list (string * node)) : list string :=
  match es with
  | [] => []
  | (name, m) :: es' => postorder m (ftw_join fpath name) ++ postorder_entries fpath es'
  end.

(** The same with what the walk cannot read: the entries of a directory
    that cannot be read are not visited, and those of a directory that
    cannot be searched are visited without being entered. *)
Fixpoint visits (n : node) (fpath : string) : list string :=
  match n with
  | Dir pm _ ents =>
      if readable pm then
        (fix entries (es : list (string * node)) : list string :=
           match es with
           | [] => []
           | (name, m) :: es' =>
               (if searchable pm then visits m (ftw_join fpath name)
                else [ftw_join fpath name]) ++ entries es'
           end) ents ++ [fpath]
      else [fpath]
  | _ => [fpath]
  end.

Fixpoint visits_entries (enter : bool) (fpath : string) (es : list (string * node))
  : list string :=
  match es with
  | [] => []
  | (name, m) :: es' =>
      (if enter then visits m (ftw_join fpath name) else [ftw_join fpath name])
      ++ visits_entries enter fpath es'
  end.

(** Every directory of the tree can be read and searched by its owner. *)
Fixpoint dirs_rx (n : node) : bool :=
  match n with
  | Dir pm _ ents =>
      readable pm && searchable pm &&
      (fix entries (es : list (string * node)) : bool :=
         match es with
         | [] => true
         | (_, m) :: es' => dirs_rx m && entries es'
         end) ents
  | _ => true
  end.

Fixpoint dirs_rx_entries (es : list (string * node)) : bool :=
  match es with
  | [] => true
  | (_, m) :: es' => dirs_rx m && dirs_rx_entries es'
  end.

(** The events a call added to the trace. *)
Definition new_events (w w' : world) : list event := drop (length (trace w)) (trace w').

Definition is_removal (e : event) : bool :=
  match ev_call e with SysRemove => true | _ => false end.

(** Every event but the last one returned 0. *)
Fixpoint ok_but_last (evs : list event) : bool :=
  match evs with
  | [] => true
  | e :: rest =>
      match rest with
      | [] => true
      | _ :: _ => (ev_ret e =? 0) && ok_but_last rest
      end
  end.

Definition all_ok (evs : list event) : bool := forallb (fun e => ev_ret e =? 0) evs.

(** Trees the file system can hold: every entry has a valid name. *)
Fixpoint wf_node (n : node) : bool :=
  match n with
  | Dir _ _ ents =>
      (fix entries (es : list (string * node)) : bool :=
         match es with
         | [] => true
         | (name, m) :: es' => valid_name name && wf_node m && entries es'
         end) ents
  | _ => true
  end.

Fixpoint wf_entries (es : list (string * node)) : bool :=
  match es with
  | [] => true
  | (name, m) :: es' => valid_name name && wf_node m && wf_entries es'
  end.

(** [direct r cur comps]: the components are names, and each but the last
    names a directory of [r], starting at [cur]: the path is resolved
    without a link, "." or "..". *)
Fixpoint direct (r : node) (cur : list string) (comps : list string) : bool :=
  match comps with
  | [] => false
  | c :: rest =>
      valid_name c &&
      match rest with
      | [] => true
      | _ :: _ =>
          match lookup (cur ++ [c]) r with
          | Some (Dir _ _ _) => direct r (cur ++ [c]) rest
          | _ => false
          end
      end
  end.

Definition start_dir (w : world) (path : string) : list string :=
  if is_absolute path then [] else cwd w.

(** [path] is a direct name of the node at [p]. *)
Definition direct_path (w : world) (path : string) (p : list string) : bool :=
  direct (root w) (start_dir w path) (split_path path)
  && bool_decide (p = start_dir w path ++ split_path path).

(** What a walk with [unlink_cb] leaves in the trace, [paths] being the
    paths it is to visit: removals only, along [paths], all but the last
    returning 0; the walk returns 0 exactly when it went through all of
    [paths], and otherwise what the last removal returned. *)
Definition walk_spec (w : world) (res : world * Z) (paths : list string) : Prop :=
  exists evs,
    trace res.1 = trace w ++ evs /\
    forallb is_removal evs = true /\
    map ev_path evs `prefix_of` paths /\
    (res.2 = 0 -> all_ok evs = true /\ map ev_path evs = paths) /\
    (res.2 <> 0 ->
     exists evs' e, evs = evs' ++ [e] /\ all_ok evs' = true /\ ev_ret e = res.2).

(** [r'] is [r] except at [p] and below. *)
Definition only_at (p : list string) (r r' : node) : Prop :=
  forall q, ~ p `prefix_of` q -> ~ q `prefix_of` p -> lookup q r' = lookup q r.

(** A node without what is below it: of a directory, its mode. *)
Definition shallow (n : node) : node :=
  match n with
  | Dir pm _ _ => Dir pm 0 []
  | _ => n
  end.

(** [r'] has, beside [p] and what is below it, the nodes of [r]: the same
    files and links, and directories of the same mode (their entries and
    times left aside). *)
Definition beside (p : list string) (r r' : node) : Prop :=
  forall q, ~ p `prefix_of` q -> shallow <$> lookup q r' = shallow <$> lookup q r.

(** The walk is at the node [p] of the world, under the name [fpath]: the
    path leads to [p] whatever is at [p] and below (a final link not
    followed). *)
Definition at_node (w : world) (fpath : string) (p : list string) : Prop :=
  fpath <> "" /\ ends_with_sep fpath = false /\
  exists d c, p = d ++ [c] /\
    forall r', beside p (root w) r' ->
      walk MAXSYMLINKS r' false (start_dir w fpath) (split_path fpath) = Some (d, Some c).

(** The length of the longest path below a node. *)
Fixpoint reach (n : node) : nat :=
  match n with
  | Dir _ _ ents =>
      (fix entries (es : list (string * node)) : nat :=
         match es with
         | [] => O
         | (name, m) :: es' => Nat.max (S (String.length name) + reach m) (entries es')
         end) ents
  | _ => O
  end.

Fixpoint reach_entries (es : list (string * node)) : nat :=
  match es with
  | [] => O
  | (name, m) :: es' => Nat.max (S (String.length name) + reach m) (reach_entries es')
  end.

Definition is_dir_at (r : node) (q : list string) : bool :=
  match lookup q r with Some (Dir _ _ _) => true | _ => false end.

(** Each path of the post-order with what a removal is to find there: a
    file, a link, or a directory whose entries are gone. *)
Definition leaf_target (n : node) : target :=
  match n with
  | File _ _ _ => IsFile
  | Symlink _ => IsLink
  | Dir _ _ _ => EmptyDir
  end.

Fixpoint postorder_targets (n : node) (fpath : string) : list (string * target) :=
  match n with
  | Dir _ _ ents =>
      (fix entries (es : list (string * node)) : list (string * target) :=
         match es with
         | [] => []
         | (name, m) :: es' => postorder_targets m (ftw_join fpath name) ++ entries es'
         end) ents ++ [(fpath, EmptyDir)]
  | _ => [(fpath, leaf_target n)]
  end.

Fixpoint postorder_targets_entries (fpath : string) (es : list (string * node))
  : list (string * target) :=
  match es with
  | [] => []
  | (name, m) :: es' =>
      postorder_targets m (ftw_join fpath name) ++ postorder_targets_entries fpath es'
  end.

Definition ev_sig (e : event) : string * target := (ev_path e, ev_target e).

(** What a walk with [unlink_cb] does to the world, at the node [p]:
    nothing beside [p] changes. *)
Definition walk_sem (w : world) (res : world * Z) (p : list string) : Prop :=
  cwd res.1 = cwd w /\
  only_at p (root w) (root res.1) /\
  beside p (root w) (root res.1).

(** What it leaves in the trace, [exp] being the paths it is to visit with
    what is to be found there: the removals find just that, as far as the
    walk gets. *)
Definition walk_sig (w : world) (res : world * Z) (exp : list (string * target)) : Prop :=
  forall evs, trace res.1 = trace w ++ evs ->
    map ev_sig evs `prefix_of` exp /\ (res.2 = 0 -> map ev_sig evs = exp).

Definition sem_node (hops : nat) (n : node) : Prop :=
  forall fpath level w p,
    at_node w fpath p ->
    lookup p (root w) = Some n ->
    wf_node n = true ->
    let res := ftw_walk hops unlink_cb true true n fpath level w in
    walk_sem w res p /\
    (res.2 = 0 -> forall d c, p = d ++ [c] ->
     root res.1 = update_dir d (ents_delete c) (root w)) /\
    (dirs_rx n = true ->
     Z.of_nat (String.length fpath + reach n) < PATH_MAX ->
     walk_sig w res (postorder_targets n fpath)).

(** *** Growing the tree *)

Definition same_kind (n n' : node) : Prop :=
  match n, n' with
  | File _ _ _, File _ _ _ => True
  | Dir pm _ _, Dir pm' _ _ => pm = pm'
  | Symlink t, Symlink t' => t = t'
  | _, _ => False
  end.

(** [r'] has every node of [r], of the same kind (and mode, for a
    directory), and no link that [r] has not: paths that resolve in [r]
    resolve in [r'], to the same place. *)
Definition ext (r r' : node) : Prop :=
  (forall q n, lookup q r = Some n -> exists n', lookup q r' = Some n' /\ same_kind n n') /\
  (forall q t, lookup q r' = Some (Symlink t) -> lookup q r = Some (Symlink t)).

(** A tree without symbolic links. *)
Fixpoint no_links (n : node) : bool :=
  match n with
  | File _ _ _ => true
  | Symlink _ => false
  | Dir _ _ ents =>
      (fix entries (es : list (string * node)) : bool :=
         match es with
         | [] => true
         | (_, m) :: es' => no_links m && entries es'
         end) ents
  end.

Fixpoint no_links_entries (es : list (string * node)) : bool :=
  match es with
  | [] => true
  | (_, m) :: es' => no_links m && no_links_entries es'
  end.

(** *** Archives *)

Fixpoint height (n : node) : nat :=
  match n with
  | Dir _ _ ents =>
      S ((fix entries (es : list (string * node)) : nat :=
            match es with
            | [] => O
            | (_, m) :: es' => Nat.max (height m) (entries es')
            end) ents)
  | _ => O
  end.

Fixpoint height_entries (es : list (string * node)) : nat :=
  match es with
  | [] => O
  | (_, m) :: es' => Nat.max (height m) (height_entries es')
  end.

(** No directory has two entries of the same name. *)
Fixpoint unique_names (n : node) : bool :=
  match n with
  | Dir _ _ ents =>
      bool_decide (NoDup (map fst ents)) &&
      (fix entries (es : list (string * node)) : bool :=
         match es with
         | [] => true
         | (_, m) :: es' => unique_names m && entries es'
         end) ents
  | _ => true
  end.

Fixpoint unique_names_entries (es : list (string * node)) : bool :=
  match es with
  | [] => true
  | (_, m) :: es' => unique_names m && unique_names_entries es'
  end.

Definition entries_of (n : node) : list (string * node) :=
  match n with Dir _ _ ents => ents | _ => [] end.

(** The names the specification gives to the entries of an archive: the
    archive path of the item itself, ending in "/" for a directory, then
    for each child the same under [path/child]. *)
Fixpoint spec_names (zip_path : string) (n : node) : list string :=
  match n with
  | Dir _ _ ents =>
      (zip_path +:+ "/") ::
      (fix entries (es : list (string * node)) : list string :=
         match es with
         | [] => []
         | (c, m) :: es' => spec_names ((zip_path +:+ "/") +:+ c) m ++ entries es'
         end) ents
  | _ => [zip_path]
  end.

(** [topLevelName/relativePathFromSource] for every node of the tree. *)
Definition spec_archive_names (top_level_name : string) (n : node) : list string :=
  spec_names top_level_name n.

(** A path that is short enough to be handed to a system call. *)
Definition fits (path : string) : Prop := Z.of_nat (String.length path) < PATH_MAX.

(** [path] names, links followed, the node at [p]. *)
Definition resolves (w : world) (path : string) (p : list string) : Prop :=
  path <> "" /\
  exists l, walk MAXSYMLINKS (root w) true (start_dir w path) (split_path path) = Some l /\
            loc_path l = p.

Definition all_true (_ : world) (_ : string) : bool := true.
Definition close_true (_ : world) (_ : zip_t) (_ : string) : bool := true.

(** *** Rows of a listing *)

(** The record a listing is to hold for the entry [e] of the directory
    named [path], from the node itself. *)
Definition row_of (point : string) (strftime_localtime strmode : Z -> string) (path : string)
  (e : string * node) : FileInfo.t :=
  let st := stat_of e.2 in
  FileInfo.mk e.1 (g_build_filename path e.1)
    (Some (if is_dir_node e.2 then "Directory" else "File"))
    (Some (if is_dir_node e.2 then "" else format_size point (st_size st)))
    (Some (strftime_localtime (st_mtime st)))
    (Some (strmode (st_mode st)))
    (is_dir_node e.2).

Definition is_link (n : node) : bool :=
  match n with Symlink _ => true | _ => false end.

(** Every directory of the tree is writable by its owner. *)
Fixpoint dirs_writable (n : node) : bool :=
  match n with
  | Dir pm _ ents =>
      writable pm &&
      (fix entries (es : list (string * node)) : bool :=
         match es with
         | [] => true
         | (_, m) :: es' => dirs_writable m && entries es'
         end) ents
  | _ => true
  end.

Fixpoint dirs_writable_entries (es : list (string * node)) : bool :=
  match es with
  | [] => true
  | (_, m) :: es' => dirs_writable m && dirs_writable_entries es'
  end.

(** *** The loop of [copy_item], child by child

    [copy_children] attempts every name of the stream other than "." and
    ".." in turn and keeps what each attempt returned. *)
Fixpoint copy_children (copy : world -> string -> string -> option (world * bool))
  (src_path dest_path : string) (names : list string) (w : world)
  : option (world * list bool) :=
  match names with
  | [] => Some (w, [])
  | d_name :: rest =>
      if is_dot_or_dotdot d_name then copy_children copy src_path dest_path rest w
      else
        match copy w (g_build_filename src_path d_name) dest_path with
        | Some (w', ok) =>
            match copy_children copy src_path dest_path rest w' with
            | Some (w'', oks) => Some (w'', ok :: oks)
            | None => None
            end
        | None => None
        end
  end.

(** *** The entries of an archive

    [spec_entries fs_path zip_path n]: the entries an archive is to hold
    for the node [n] that is found at [fs_path] and is to be stored as
    [zip_path]: a directory entry [zip_path/] followed by the entries of
    its children, or a file entry whose data comes from [fs_path]. *)
Fixpoint spec_entries (fs_path zip_path : string) (n : node) : list zip_entry :=
  match n with
  | Dir _ _ ents =>
      ZipDir (zip_path +:+ "/") ::
      (fix entries (es : list (string * node)) : list zip_entry :=
         match es with
         | [] => []
         | (c, m) :: es' =>
             spec_entries (g_build_filename fs_path c) ((zip_path +:+ "/") +:+ c) m
             ++ entries es'
         end) ents
  | _ => [ZipFile zip_path fs_path]
  end.

Fixpoint spec_entries_entries (fs_path parent : string) (es : list (string * node))
  : list zip_entry :=
  match es with
  | [] => []
  | (c, m) :: es' =>
      spec_entries (g_build_filename fs_path c) (parent +:+ c) m
      ++ spec_entries_entries fs_path parent es'
  end.

(** [name] is the archive path [parent ++ c] or a path below it. *)
Definition under (parent c name : string) : Prop :=
  name = parent +:+ c \/ exists y, name = parent +:+ c +:+ String "/" y.

(** No entry of the archive is at or below a child of [parent] named in [es]. *)
Definition fresh_for (zip : zip_t) (parent : string) (es : list (string * node)) : Prop :=
  forall e c, e ∈ zip -> c ∈ map fst es -> ~ under parent c (zip_entry_name e).

(** *** The copy of a tree

    What can be copied: a tree without symbolic links whose files can be
    read, whose directories can be read, written and searched, and whose
    names have at most NAME_MAX bytes. *)
Fixpoint copyable (n : node) : bool :=
  match n with
  | File pm _ _ => readable pm
  | Dir pm _ ents =>
      readable pm && writable pm && searchable pm &&
      (fix entries (es : list (string * node)) : bool :=
         match es with
         | [] => true
         | (name, m) :: es' => name_fits name && copyable m && entries es'
         end) ents
  | Symlink _ => false
  end.

Fixpoint copyable_entries (es : list (string * node)) : bool :=
  match es with
  | [] => true
  | (name, m) :: es' => name_fits name && copyable m && copyable_entries es'
  end.

(** The umask leaves the write and search bits of the owner. *)
Definition umask_ok (w : world) : bool :=
  negb (Z.testbit (umask w) 7) && negb (Z.testbit (umask w) 6).

(** What [copy_item] is to leave at the destination for the node [n],
    in a directory of mode [parent_perm]: a file with the bits of mode
    0644 that the umask leaves and the bytes of the source file, a
    directory with the mode [mkdir] makes of the [st_mode] of the source
    directory and the copies of its entries. *)
Fixpoint copy_of (w : world) (parent_perm : Z) (n : node) : node :=
  match n with
  | File _ _ data => File (creat_mode w 0x1A4) (clock w) data
  | Dir pm _ ents =>
      let pm' := mkdir_mode w parent_perm (Z.lor S_IFDIR (Z.land pm ALLPERMS)) in
      Dir pm' (clock w) (map (fun e => (e.1, copy_of w pm' e.2)) ents)
  | Symlink tg => Symlink tg
  end.

(** [m'] is a copy of the node [m] taken by itself: a file with the bytes
    of [m], or a directory with the names of [m] (in any order) and the
    access bits of [m] that the umask leaves. *)
Definition copied (w : world) (m m' : node) : Prop :=
  match m with
  | File _ _ data => exists mt', m' = File (creat_mode w 0x1A4) mt' data
  | Dir pm _ es =>
      exists pm' mt' es',
        m' = Dir pm' mt' es' /\
        Z.land pm' ACCESSPERMS = Z.land (Z.land pm ACCESSPERMS) (Z.lnot (umask w)) /\
        forall c, ents_lookup c es' = None <-> ents_lookup c es = None
  | Symlink _ => False
  end.

(** The bytes of the files of a tree. *)
Fixpoint tree_bytes (n : node) : nat :=
  match n with
  | File _ _ data => length data
  | Dir _ _ ents =>
      (fix entries (es : list (string * node)) : nat :=
         match es with
         | [] => O
         | (_, m) :: es' => (tree_bytes m + entries es')%nat
         end) ents
  | Symlink _ => O
  end.

Fixpoint tree_bytes_entries (es : list (string * node)) : nat :=
  match es with
  | [] => O
  | (_, m) :: es' => (tree_bytes m + tree_bytes_entries es')%nat
  end.

(** The depth of calls [copy_item] needs for a tree: one call for each
    level, and for a file one turn of the loop of [copy_file_content] for
    each block of 8192 bytes, begun or not, and one to see the end. *)
Fixpoint copy_cost (n : node) : nat :=
  match n with
  | File _ _ data => S (S (S (Z.to_nat (Z.of_nat (length data) / 8192))))
  | Dir _ _ ents =>
      S ((fix entries (es : list (string * node)) : nat :=
            match es with
            | [] => O
            | (_, m) :: es' => Nat.max (copy_cost m) (entries es')
            end) ents)
  | Symlink _ => 1%nat
  end.

Fixpoint copy_cost_entries (es : list (string * node)) : nat :=
  match es with
  | [] => O
  | (_, m) :: es' => Nat.max (copy_cost m) (copy_cost_entries es')
  end.

(** What [copy_item] is to do for the tree [n]: with the source named
    directly, a free name in a destination directory that can be written
    and searched and is not inside the source, paths that are not too
    long, room for the bytes and calls enough, it returns TRUE and the
    file system has gained the copy, and nothing else. *)
Definition copy_ok (st_garbage : string -> stat_buf) (n : node) : Prop :=
  forall fuel w src_path dest_dir ds cs pd pmd mtd esd,
    namei (root w) (cwd w) false src_path = Some (ds, Some cs) ->
    ends_with_sep src_path = false ->
    lookup (ds ++ [cs]) (root w) = Some n ->
    resolves w dest_dir pd ->
    lookup pd (root w) = Some (Dir pmd mtd esd) ->
    writable pmd = true ->
    searchable pmd = true ->
    ents_lookup cs esd = None ->
    name_fits cs = true ->
    ~ (ds ++ [cs]) `prefix_of` pd ->
    wf_node n = true -> unique_names n = true -> copyable n = true ->
    umask_ok w = true ->
    Z.of_nat (String.length src_path + reach n) < PATH_MAX ->
    Z.of_nat (String.length (g_build_filename dest_dir cs) + reach n) < PATH_MAX ->
    (tree_bytes n <= disk_free w)%nat ->
    (copy_cost n <= fuel)%nat ->
    exists w',
      copy_item st_garbage fuel w src_path dest_dir = Some (w', true) /\
      root w' = update_dir pd (ents_insert cs (copy_of w pmd n)) (root w) /\
      cwd w' = cwd w /\ clock w' = clock w /\ umask w' = umask w /\
      disk_free w' = (disk_free w - tree_bytes n)%nat.

(** ** The user interface ([main.c])

    *** GLib: [g_strsplit]

    [strstr s delimiter] gives what precedes the first occurrence of
    [delimiter] in [s] and what follows it. *)

Fixpoint starts (p s : string) : bool :=
  match p, s with
  | EmptyString, _ => true
  | String a p', String b s' => Ascii.eqb a b && starts p' s'
  | String _ _, EmptyString => false
  end.

Fixpoint string_drop (n : nat) (s : string) : string :=
  match n, s with
  | S n', String _ s' => string_drop n' s'
  | _, _ => s
  end.

Fixpoint strstr (s delimiter : string) : option (string * string) :=
  if starts delimiter s then Some (EmptyString, string_drop (String.length delimiter) s)
  else
    match s with
    | EmptyString => None
    | String c s' =>
        match strstr s' delimiter with
        | Some (piece, rest) => Some (String c piece, rest)
        | None => None
        end
    end.

Definition G_MAXINT : Z := 2147483647.

(** [while (--max_tokens && s)]: a piece for each occurrence of the
    delimiter while tokens are left, then the remainder. *)
Fixpoint g_strsplit_loop (fuel : nat) (remainder delimiter : string) (max_tokens : Z)
  : list string :=
  match fuel with
  | O => [remainder]
  | S fuel' =>
      if max_tokens - 1 =? 0 then [remainder]
      else
        match strstr remainder delimiter with
        | Some (piece, rest) =>
            piece :: g_strsplit_loop fuel' rest delimiter (max_tokens - 1)
        | None => [remainder]
        end
  end.

(** An empty string gives no piece at all; an empty delimiter is refused. *)
Definition g_strsplit (str delimiter : string) (max_tokens : Z) : list string :=
  if String.eqb delimiter "" then []
  else if String.eqb str "" then []
  else g_strsplit_loop (S (String.length str)) str delimiter
         (if max_tokens <? 1 then G_MAXINT else max_tokens).

(** *** [get_favourite_locations] ([backend.c]); [home] is [g_get_home_dir ()] *)

Definition get_favourite_locations (home : string) : list string :=
  [ "🏠 Home;" +:+ home;
    "🖥️ Desktop;" +:+ home +:+ "/Desktop";
    "📄 Documents;" +:+ home +:+ "/Documents";
    "📥 Downloads;" +:+ home +:+ "/Downloads" ].

(** *** The state of the application

    The globals of [main.c], and of the widgets what the callbacks read:
    the rows of the list store (its six columns) and the selected row. *)

Record store_row := mk_store_row {
  col_name : string;
  col_size : option string;
  col_type : option string;
  col_modified : option string;
  col_path : string;
  col_is_dir : bool }.

Record app_state := mk_app_state {
  current_path : string;
  clipboard_path : option string;
  clipboard_op : option string;
  path_entry : string;
  store : list store_row;
  selection : option nat }.

(** [gtk_list_store_set] of the six columns. *)
Definition store_row_of (info : FileInfo.t) : store_row :=
  mk_store_row (FileInfo.name info) (FileInfo.size_formatted info) (FileInfo.type info)
    (FileInfo.modified info) (FileInfo.path info) (FileInfo.is_dir info).

Definition get_selected_path (a : app_state) : option string :=
  match selection a with
  | Some i =>
      match store a !! i with
      | Some r => Some (col_path r)
      | None => None
      end
  | None => None
  end.

(** The user selects the row [i] of the list. *)
Definition select (i : nat) (a : app_state) : app_state :=
  mk_app_state (current_path a) (clipboard_path a) (clipboard_op a) (path_entry a) (store a)
    (Some i).

(** What [on_row_activated] does. *)
Inductive activation : Type :=
| Entered (s : app_state * world)
| Opened (command : string)
| NoRow.

Definition dquote : string := String (Ascii.ascii_of_nat 34) EmptyString.

Section Ui.

Variable strftime_localtime strmode : Z -> string.
Variable st_garbage : string -> stat_buf.

(** Clearing the store clears the selection. *)
Definition refresh_view (s : app_state * world) : app_state * world :=
let '(a, w) := s in
let '(w', files) := get_directory_contents strftime_localtime strmode w (current_path a) in
(mk_app_state (current_path a) (clipboard_path a) (clipboard_op a) (current_path a)
   (map store_row_of files) None, w').

Definition set_current_path (p : string) (a : app_state) : app_state :=
mk_app_state p (clipboard_path a) (clipboard_op a) (path_entry a) (store a) (selection a).

Definition set_clipboard (p op : option string) (a : app_state) : app_state :=
mk_app_state (current_path a) p op (path_entry a) (store a) (selection a).

(** [None] when [split[1]] is [NULL]. *)
Definition on_favourite_clicked (data : string) (s : app_state * world) : option (app_state * world) :=
let '(a, w) := s in
let split := g_strsplit data ";" 2 in
match split !! 1%nat with
| Some p => Some (refresh_view (set_current_path p a, w))
| None => None
end.

Definition on_row_activated (i : nat) (s : app_state * world) : activation :=
let '(a, w) := s in
match store a !! i with
| Some r =>
    if col_is_dir r then Entered (refresh_view (set_current_path (col_path r) a, w))
    else Opened (g_strconcat "open " (g_strconcat dquote (g_strconcat (col_path r) dquote)))
| None => NoRow
end.

Definition on_copy (s : app_state * world) : app_state * world :=
let '(a, w) := s in
(set_clipboard (get_selected_path a) (Some "copy") a, w).

Definition on_cut (s : app_state * world) : app_state * world :=
let '(a, w) := s in
(set_clipboard (get_selected_path a) (Some "move") a, w).

(** [g_strcmp0] takes [NULL]. *)
Definition g_strcmp0_eq (a : option string) (b : string) : bool :=
match a with
| Some x => String.eqb x b
| None => false
end.

Definition on_paste (fuel : nat) (s : app_state * world) : option (app_state * world) :=
let '(a, w) := s in
match clipboard_path a with
| None => Some (a, w)
| Some path =>
    if g_strcmp0_eq (clipboard_op a) "copy" then
      match copy_item st_garbage fuel w path (current_path a) with
      | Some (w', _) => Some (refresh_view (a, w'))
      | None => None
      end
    else if g_strcmp0_eq (clipboard_op a) "move" then
      let '(w', _) := move_item w path (current_path a) in
      Some (refresh_view (set_clipboard None None a, w'))
    else Some (refresh_view (a, w))
end.

(** [response] is the text of the entry when the dialog is accepted. *)
Definition on_rename (response : option string) (s : app_state * world) : app_state * world :=
let '(a, w) := s in
match get_selected_path a with
| None => (a, w)
| Some path =>
    match response with
    | Some text => refresh_view (a, (rename_item w path text).1)
    | None => refresh_view (a, w)
    end
end.

Definition on_delete (yes : bool) (s : app_state * world) : app_state * world :=
let '(a, w) := s in
match get_selected_path a with
| None => (a, w)
| Some path =>
    if yes then refresh_view (a, (delete_item w path).1) else refresh_view (a, w)
end.

Definition on_create_folder (response : option string) (s : app_state * world) : app_state * world :=
let '(a, w) := s in
match response with
| Some text => refresh_view (a, (create_directory_item w (current_path a) text).1)
| None => refresh_view (a, w)
end.

Definition on_create_file (s : app_state * world) : app_state * world :=
let '(a, w) := s in
refresh_view (a, (create_file_item w (current_path a) "untitled file.txt").1).

End Ui.

(** * Properties *)

(** ** Rounding and [format_size] *)

Lemma round_half_even_near a b :
  0 < b -> 2 * Z.abs (b * round_half_even a b - a) <= b.
Proof.
  intros Hb. unfold round_half_even.
  pose proof (Z.div_mod a b ltac:(lia)) as Hdm.
  pose proof (Z.mod_pos_bound a b Hb) as Hr.
  repeat case_match; rewrite ?Z.ltb_lt, ?Z.ltb_ge in *; lia.
Qed.

Lemma round_half_even_nonneg a b : 0 < b -> 0 <= a -> 0 <= round_half_even a b.
Proof.
  intros Hb Ha. unfold round_half_even.
  pose proof (Z.div_pos a b Ha Hb).
  repeat case_match; lia.
Qed.

Lemma to_double_exact n : Z.abs n < 2 ^ 53 -> to_double n = n.
Proof.
  intros H. unfold to_double.
  destruct (Z.ltb_spec (Z.abs n) (2 ^ 53)); [done | lia].
Qed.

(** The value [(gdouble)n] differs from [n] by at most [n / 2^53]. *)
Lemma to_double_near n : 0 <= n -> 2 ^ 53 * Z.abs (to_double n - n) <= n.
Proof.
  intros Hn. unfold to_double. rewrite (Z.abs_eq n) by lia.
  destruct (Z.ltb_spec n (2 ^ 53)) as [|Hbig].
  { replace (n - n) with 0 by lia. simpl. lia. }
  assert (Hpos : 0 < n) by lia.
  pose proof (Z.log2_spec n Hpos) as [Hlo _].
  assert (Hlog : 53 <= Z.log2 n) by (apply Z.log2_le_pow2; lia).
  assert (He : 2 ^ Z.log2 n = 2 ^ 52 * 2 ^ (Z.log2 n - 52)).
  { rewrite <- Z.pow_add_r by lia. f_equal. lia. }
  assert (HB : 0 < 2 ^ (Z.log2 n - 52)) by (apply Z.pow_pos_nonneg; lia).
  pose proof (round_half_even_near n _ HB) as Hnear.
  rewrite Z.sgn_pos by lia.
  change (2 ^ 53) with 9007199254740992.
  change (2 ^ 52) with 4503599627370496 in He.
  generalize dependent (2 ^ (Z.log2 n - 52)). generalize dependent (2 ^ Z.log2 n).
  intros p Hlo b Hp Hb. generalize (round_half_even n b). intros q Hq. lia.
Qed.

Lemma printf_1f_nonneg point num den :
  0 <= num ->
  printf_1f point num den =
    dec (round_half_even (10 * num) den / 10) +:+ point +:+
    dec (round_half_even (10 * num) den mod 10).
Proof.
  intros H. unfold printf_1f. rewrite Z.abs_eq by lia.
  destruct (Z.ltb_spec num 0); [lia | done].
Qed.

(** ** Logging does not touch the file system *)

Lemma same_fs_refl w : same_fs w w.
Proof. done. Qed.

Lemma same_fs_trans w1 w2 w3 : same_fs w1 w2 -> same_fs w2 w3 -> same_fs w1 w3.
Proof. unfold same_fs. intros (?&?&?&?&?&?) (?&?&?&?&?&?). repeat split; congruence. Qed.

Lemma same_fs_sym w1 w2 : same_fs w1 w2 -> same_fs w2 w1.
Proof. unfold same_fs. intros (?&?&?&?&?&?). repeat split; congruence. Qed.

Lemma same_fs_log e w : same_fs w (log e w).
Proof. done. Qed.

Lemma stat_at_same_fs w w' follow path :
  same_fs w w' -> stat_at w follow path = stat_at w' follow path.
Proof. intros (Hr & Hc & _). unfold stat_at. by rewrite Hr, Hc. Qed.

Lemma sys_stat_spec w path :
  sys_stat w path = (log (Ev SysStat path (observe w path) (ret_of (stat_at w true path))) w,
                     stat_at w true path).
Proof. done. Qed.

(** ** Listing a directory *)

Section Listing.
Context (strftime_localtime strmode : Z -> string).

Abbreviation lstep := (listing_step strftime_localtime strmode).
Abbreviation gdc := (get_directory_contents strftime_localtime strmode).
Abbreviation info := (info_of strftime_localtime strmode).

Lemma listing_step_spec path w list d_name :
exists w',
same_fs w w' /\
lstep path (w, list) d_name =
(w', if is_dot_or_dotdot d_name then list else list ++ [info w path d_name]).
Proof.
unfold listing_step, info_of. destruct (is_dot_or_dotdot d_name).
- by exists w.
- rewrite sys_stat_spec.
exists (log (Ev SysStat (g_build_filename path d_name)
           (observe w (g_build_filename path d_name))
           (ret_of (stat_at w true (g_build_filename path d_name)))) w).
split; [apply same_fs_log|].
by destruct (stat_at w true _).
Qed.

Lemma listing_fold_spec path names w list :
exists w',
same_fs w w' /\
fold_left (lstep path) names (w, list) =
(w', list ++ map (info w path) (real_names names)).
Proof.
revert w list. induction names as [|d_name names IH]; intros w list; cbn [fold_left].
- exists w. by rewrite app_nil_r.
- destruct (listing_step_spec path w list d_name) as (w1 & Hfs & ->).
destruct (IH w1 (if is_dot_or_dotdot d_name then list
             else list ++ [info w path d_name])) as (w2 & Hfs2 & ->).
exists w2. split; [by eapply same_fs_trans|]. f_equal.
assert (Hinfo : forall d, info w1 path d = info w path d).
{ intros d. unfold info_of. rewrite (stat_at_same_fs w w1) by done.
by rewrite (proj2 (proj2 (proj2 (proj2 (proj2 Hfs))))). }
unfold real_names. simpl. destruct (is_dot_or_dotdot d_name); simpl.
+ f_equal. by apply map_ext.
+ rewrite <- app_assoc. simpl. do 2 f_equal. by apply map_ext.
Qed.

Lemma get_directory_contents_spec w path :
(gdc w path).2 =
match (sys_opendir w path).2 with
| Some names => map (info w path) (real_names names)
| None => []
end.
Proof.
unfold get_directory_contents.
destruct (sys_opendir w path) as [w0 d] eqn:Hd. simpl.
destruct d as [names|]; [|done].
destruct (listing_fold_spec path names w0 []) as (w' & _ & ->). simpl.
apply map_ext. intros d. unfold info_of.
assert (Hfs : same_fs w w0).
{ unfold sys_opendir in Hd. injection Hd as <- _. apply same_fs_log. }
rewrite (stat_at_same_fs w w0) by done.
by rewrite (proj2 (proj2 (proj2 (proj2 (proj2 Hfs))))).
Qed.
End Listing.

Lemma append_assoc (a b c : string) : (a +:+ b) +:+ c = a +:+ b +:+ c.
Proof. induction a as [|x a IH]; simpl; [done | by f_equal]. Qed.

Lemma append_nil_r (a : string) : a +:+ "" = a.
Proof. induction a as [|x a IH]; simpl; [done | by f_equal]. Qed.

Lemma format_size_comma_counterexample :
  format_size "," 2048 = "2,0 KB" /\
  (sys_opendir guarded_world "/listed").2 = Some ["."; ".."; "inner"] /\
  lookup ["listed"; "inner"] (root guarded_world) = Some (Dir 0x1ED 0 []) /\
  map FileInfo.size_formatted
    (get_directory_contents no_time no_time guarded_world "/listed").2 = [None].
Proof. vm_compute. tauto. Qed.

(** C8, as the code has it: the size is printed in bytes below 1024, in KB
    with one decimal below 1024*1024 and in MB with one decimal from there
    on, never in a larger unit; the decimal shown is the tenth nearest to
    [n/1024], resp. to [(gdouble)n / (1024*1024)], where [(gdouble)n] is
    [n] below 2^53 and within [n / 2^53] of it above, and it follows the
    decimal point of the locale of the process.  With "." as the decimal
    point 500 bytes print as "500 B", 2048 as "2.0 KB", 3145728 as
    "3.0 MB".  In a listing, an entry whose [stat] reported a directory
    has the empty size string, one whose [stat] reported anything else the
    formatted size, and one whose [stat] failed has no size string at
    all. *)
Theorem format_size_policy :
  (forall point n, n < 1024 -> format_size point n = dec n +:+ " B") /\
  (forall point n, 1024 <= n < 1024 * 1024 ->
     exists t, 0 <= t /\ 2 * Z.abs (1024 * t - 10 * n) <= 1024 /\
       format_size point n = dec (t / 10) +:+ point +:+ dec (t mod 10) +:+ " KB") /\
  (forall point n, 1024 * 1024 <= n ->
     exists t, 0 <= t /\
       2 * Z.abs (1024 * 1024 * t - 10 * to_double n) <= 1024 * 1024 /\
       2 ^ 53 * Z.abs (to_double n - n) <= n /\
       (n < 2 ^ 53 -> to_double n = n) /\
       format_size point n = dec (t / 10) +:+ point +:+ dec (t mod 10) +:+ " MB") /\
  format_size "." 500 = "500 B" /\
  format_size "." 2048 = "2.0 KB" /\
  format_size "." 3145728 = "3.0 MB" /\
  (forall strftime_localtime strmode w path info,
     In info (get_directory_contents strftime_localtime strmode w path).2 ->
     match stat_at w true (FileInfo.path info) with
     | Some st =>
         FileInfo.size_formatted info =
           Some (if S_ISDIR (st_mode st) then ""
                 else format_size (decimal_point w) (st_size st))
     | None => FileInfo.size_formatted info = None
     end).
Proof.
  split; [|split; [|split; [|split; [|split; [|split]]]]].
  - intros point n Hn. unfold format_size.
    destruct (Z.ltb_spec n 1024); [done | lia].
  - intros point n [Hlo Hhi]. unfold format_size.
    destruct (Z.ltb_spec n 1024); [lia|].
    destruct (Z.ltb_spec n (1024 * 1024)); [|lia].
    rewrite to_double_exact by lia.
    exists (round_half_even (10 * n) 1024). split; [|split].
    + apply round_half_even_nonneg; lia.
    + apply round_half_even_near. lia.
    + rewrite printf_1f_nonneg by lia. by rewrite !append_assoc.
  - intros point n Hlo. unfold format_size.
    destruct (Z.ltb_spec n 1024); [lia|].
    destruct (Z.ltb_spec n (1024 * 1024)); [lia|].
    assert (Hd : 0 <= to_double n).
    { pose proof (to_double_near n ltac:(lia)).
      change (2 ^ 53) with 9007199254740992 in *. lia. }
    exists (round_half_even (10 * to_double n) (1024 * 1024)).
    split; [|split; [|split; [|split]]].
    + apply round_half_even_nonneg; lia.
    + apply round_half_even_near. lia.
    + apply to_double_near. lia.
    + intros Hsmall. apply to_double_exact. lia.
    + rewrite printf_1f_nonneg by lia. by rewrite !append_assoc.
  - reflexivity.
  - reflexivity.
  - reflexivity.
  - intros sf sm w path info Hin.
    rewrite get_directory_contents_spec in Hin.
    destruct (sys_opendir w path).2 as [names|]; [|done].
    apply in_map_iff in Hin as (d_name & <- & _).
    unfold info_of. destruct (stat_at w true (g_build_filename path d_name)) as [st|] eqn:Hst;
      cbn [FileInfo.path]; rewrite Hst; reflexivity.
Qed.

Lemma format_size_policy_witness :
  format_size "," 1023 = dec 1023 +:+ " B" /\
  (exists t, 0 <= t /\ 2 * Z.abs (1024 * t - 10 * 1280) <= 1024 /\
     format_size "," 1280 = dec (t / 10) +:+ "," +:+ dec (t mod 10) +:+ " KB") /\
  (exists t, 0 <= t /\
     2 * Z.abs (1024 * 1024 * t - 10 * to_double 5000000) <= 1024 * 1024 /\
     2 ^ 53 * Z.abs (to_double 5000000 - 5000000) <= 5000000 /\
     (5000000 < 2 ^ 53 -> to_double 5000000 = 5000000) /\
     format_size "." 5000000 = dec (t / 10) +:+ "." +:+ dec (t mod 10) +:+ " MB") /\
  (let info := info_of no_time no_time sample_world "/home/user" "dst" in
   match stat_at sample_world true (FileInfo.path info) with
   | Some st =>
       FileInfo.size_formatted info =
         Some (if S_ISDIR (st_mode st) then ""
               else format_size (decimal_point sample_world) (st_size st))
   | None => FileInfo.size_formatted info = None
   end) /\
  (let info := info_of no_time no_time guarded_world "/listed" "inner" in
   match stat_at guarded_world true (FileInfo.path info) with
   | Some st =>
       FileInfo.size_formatted info =
         Some (if S_ISDIR (st_mode st) then ""
               else format_size (decimal_point guarded_world) (st_size st))
   | None => FileInfo.size_formatted info = None
   end).
Proof.
  destruct format_size_policy as (HB & HKB & HMB & _ & _ & _ & Hdir).
  split; [|split; [|split; [|split]]].
  - apply HB. lia.
  - apply HKB. lia.
  - apply HMB. lia.
  - apply (Hdir no_time no_time sample_world "/home/user").
    vm_compute. tauto.
  - apply (Hdir no_time no_time guarded_world "/listed").
    vm_compute. tauto.
Defined.

(** ** C1 and C9: what a listing reports *)

Lemma listing_keeps_failed_stat_counterexample :
  (sys_opendir sample_world "/home/user").2 =
    Some ["."; ".."; "root"; "dst"; "lnk"; "out"; "proj"; "tmp"; "e"; "taken"] /\
  stat_at sample_world true (g_build_filename "/home/user" "lnk") = None /\
  In "lnk" (map FileInfo.name
              (get_directory_contents no_time no_time sample_world "/home/user").2).
Proof. vm_compute. tauto. Qed.

(** C1, as the code has it: when the directory opens, every child other
    than "." and ".." is listed, in enumeration order, whether or not its
    [stat] succeeds; a child whose [stat] fails is listed with its name
    and path and with every other field unset. *)
Theorem listing_keeps_every_child strftime_localtime strmode w path names :
  (sys_opendir w path).2 = Some names ->
  let listing := (get_directory_contents strftime_localtime strmode w path).2 in
  map FileInfo.name listing = real_names names /\
  forall info, In info listing ->
    FileInfo.path info = g_build_filename path (FileInfo.name info) /\
    (stat_at w true (FileInfo.path info) = None ->
     FileInfo.type info = None /\ FileInfo.size_formatted info = None /\
     FileInfo.modified info = None /\ FileInfo.permissions info = None /\
     FileInfo.is_dir info = false) /\
    (forall st, stat_at w true (FileInfo.path info) = Some st ->
     FileInfo.is_dir info = S_ISDIR (st_mode st) /\
     FileInfo.type info = Some (if S_ISDIR (st_mode st) then "Directory" else "File")).
Proof.
  intros Hopen listing. subst listing.
  rewrite get_directory_contents_spec, Hopen. split.
  - rewrite map_map. simpl. rewrite <- (map_id (real_names names)) at 2.
    apply map_ext. intros d. unfold info_of. by destruct (stat_at w true _).
  - intros info Hin. apply in_map_iff in Hin as (d & <- & _).
    unfold info_of. destruct (stat_at w true (g_build_filename path d)) as [st|] eqn:Hst;
      simpl; rewrite Hst; repeat split; try done; intros; simplify_eq; done.
Qed.

Lemma listing_keeps_every_child_witness :
  map FileInfo.name
    (get_directory_contents no_time no_time sample_world "/home/user").2 =
  ["root"; "dst"; "lnk"; "out"; "proj"; "tmp"; "e"; "taken"].
Proof.
  apply (listing_keeps_every_child no_time no_time sample_world "/home/user"
           ["."; ".."; "root"; "dst"; "lnk"; "out"; "proj"; "tmp"; "e"; "taken"]).
  reflexivity.
Defined.

Lemma listing_failure_looks_empty_counterexample :
  (sys_opendir sample_world "/home/user/nope").2 = None /\
  (sys_opendir sample_world "/home/user/dst").2 = Some ["."; ".."] /\
  (get_directory_contents no_time no_time sample_world "/home/user/nope").2 =
  (get_directory_contents no_time no_time sample_world "/home/user/dst").2.
Proof. vm_compute. tauto. Qed.

(** C9, as the code has it: when the directory cannot be opened the
    listing is [NULL], the empty list, and that is also the listing of a
    directory that opens and holds nothing but "." and "..". *)
Theorem listing_unopened_is_empty strftime_localtime strmode w path :
  ((sys_opendir w path).2 = None ->
   (get_directory_contents strftime_localtime strmode w path).2 = []) /\
  (forall names, (sys_opendir w path).2 = Some names -> real_names names = [] ->
   (get_directory_contents strftime_localtime strmode w path).2 = []).
Proof.
  rewrite get_directory_contents_spec. split.
  - by intros ->.
  - by intros names -> ->.
Qed.

Lemma listing_unopened_is_empty_witness :
  (get_directory_contents no_time no_time sample_world "/home/user/nope").2 = [] /\
  (get_directory_contents no_time no_time sample_world "/home/user/dst").2 = [].
Proof.
  split.
  - apply (listing_unopened_is_empty no_time no_time sample_world "/home/user/nope").
    reflexivity.
  - apply (proj2 (listing_unopened_is_empty no_time no_time sample_world "/home/user/dst")
             ["."; ".."]); reflexivity.
Defined.


(** ** Path names as strings *)

Lemma eqb_empty_iff s : String.eqb s "" = true <-> s = "".
Proof. apply String.eqb_eq. Qed.

Lemma eqb_empty_false s : String.eqb s "" = false <-> s <> "".
Proof. apply String.eqb_neq. Qed.

Lemma flush_empty : flush "" = [].
Proof. done. Qed.

Lemma flush_cons c s : flush (String c s) = [String c s].
Proof. done. Qed.

Lemma append_snoc_ne cur c : cur +:+ String c "" <> "".
Proof. destruct cur; discriminate. Qed.

Lemma flush_snoc cur c : flush (cur +:+ String c "") = [cur +:+ String c ""].
Proof.
  unfold flush. destruct (String.eqb_spec (cur +:+ String c "") ""); [|done].
  by destruct (append_snoc_ne cur c).
Qed.

(** Separators at the front close the component being read. *)
Lemma split_aux_app_sep cur x y :
  split_aux cur (x +:+ String "/" y) = split_aux cur x ++ split_path y.
Proof.
  revert cur. induction x as [|c x IH]; intros cur; simpl.
  - done.
  - destruct (is_sep c).
    + rewrite IH. by rewrite app_assoc.
    + apply IH.
Qed.

Lemma split_path_app_sep x y :
  split_path (x +:+ String "/" y) = split_path x ++ split_path y.
Proof. apply split_aux_app_sep. Qed.

Lemma split_aux_no_sep cur x :
  has_sep x = false -> split_aux cur x = flush (cur +:+ x).
Proof.
  revert cur. induction x as [|c x IH]; intros cur Hx; simpl in *.
  - by rewrite append_nil_r.
  - apply orb_false_iff in Hx as [-> Hx]. rewrite IH by done.
    by rewrite append_assoc.
Qed.

Lemma split_path_name c : valid_name c = true -> split_path c = [c].
Proof.
  unfold valid_name. rewrite !andb_true_iff, !negb_true_iff.
  intros [[[Hne Hsep] _] _]. unfold split_path.
  rewrite split_aux_no_sep by done. simpl.
  unfold flush. by rewrite Hne.
Qed.

Lemma split_aux_app_no_sep cur x y :
  has_sep x = false -> split_aux cur (x +:+ y) = split_aux (cur +:+ x) y.
Proof.
  revert cur. induction x as [|c x IH]; intros cur Hx; simpl in *.
  - by rewrite append_nil_r.
  - apply orb_false_iff in Hx as [-> Hx]. rewrite IH by done.
    by rewrite append_assoc.
Qed.

(** *** Leading and trailing separators *)

Lemma leading_skip s : leading_seps s +:+ skip_seps s = s.
Proof.
  induction s as [|c s IH]; simpl; [done|].
  destruct (is_sep c); simpl; [by f_equal | done].
Qed.

Lemma rstrip_trailing s : rstrip s +:+ trailing_seps s = s.
Proof.
  induction s as [|c s IH]; simpl; [done|].
  destruct (is_sep c && String.eqb (rstrip s) "") eqn:E; simpl; [done | by f_equal].
Qed.

Lemma is_sep_eq c : is_sep c = true -> c = "/"%char.
Proof. apply Ascii.eqb_eq. Qed.

Lemma split_path_leading s : split_path (leading_seps s +:+ skip_seps s) = split_path (skip_seps s).
Proof.
  unfold split_path. induction s as [|c s IH]; simpl; [done|].
  destruct (is_sep c) eqn:E; simpl; [|done].
  rewrite E. simpl. apply IH.
Qed.

Lemma split_path_skip s : split_path (skip_seps s) = split_path s.
Proof. by rewrite <- split_path_leading, leading_skip. Qed.

Lemma rstrip_empty_split_aux cur s : rstrip s = "" -> split_aux cur s = flush cur.
Proof.
  revert cur. induction s as [|c s IH]; intros cur; simpl; [done|].
  destruct (is_sep c) eqn:E; simpl; [|discriminate].
  destruct (String.eqb_spec (rstrip s) ""); [|discriminate].
  intros _. rewrite IH by done. simpl. by rewrite app_nil_r.
Qed.

Lemma split_aux_rstrip cur s : split_aux cur (rstrip s) = split_aux cur s.
Proof.
  revert cur. induction s as [|c s IH]; intros cur; simpl; [done|].
  destruct (is_sep c) eqn:E; simpl.
  - destruct (String.eqb_spec (rstrip s) "") as [Hr|Hr]; simpl.
    + rewrite rstrip_empty_split_aux by done. simpl. by rewrite app_nil_r.
    + rewrite E. by rewrite IH.
  - rewrite E. apply IH.
Qed.

Lemma split_path_rstrip s : split_path (rstrip s) = split_path s.
Proof. apply split_aux_rstrip. Qed.

Lemma skip_seps_starts s : skip_seps s <> "" -> is_absolute (skip_seps s) = false.
Proof.
  induction s as [|c s IH]; simpl; [done|].
  destruct (is_sep c) eqn:E; [done|]. intros _. simpl. done.
Qed.

Lemma rstrip_nonsep_start s : s <> "" -> is_absolute s = false -> rstrip s <> "".
Proof. destruct s as [|c s]; [done|]. simpl. intros _ ->. done. Qed.

Lemma rstrip_skip_empty s : rstrip (skip_seps s) = "" -> skip_seps s = "".
Proof.
  intros H. destruct (String.eqb_spec (skip_seps s) "") as [|Hne]; [done|].
  by destruct (rstrip_nonsep_start (skip_seps s) Hne (skip_seps_starts s Hne)).
Qed.

Lemma skip_empty_leading s : skip_seps s = "" -> leading_seps s = s.
Proof. intros H. by rewrite <- (leading_skip s) at 2; rewrite H, append_nil_r. Qed.

Lemma skip_empty_rstrip s : skip_seps s = "" -> rstrip s = "".
Proof.
  induction s as [|c s IH]; simpl; [done|].
  destruct (is_sep c); [|done]. intros H. by rewrite IH.
Qed.

Lemma rstrip_empty_trailing s : rstrip s = "" -> trailing_seps s = s.
Proof. intros H. by rewrite <- (rstrip_trailing s) at 2; rewrite H. Qed.

Lemma rstrip_empty_skip s : rstrip s = "" -> skip_seps s = "".
Proof.
  induction s as [|c s IH]; simpl; [done|].
  destruct (is_sep c); simpl; [|done].
  destruct (String.eqb_spec (rstrip s) ""); [auto | done].
Qed.

Lemma trailing_skip s : skip_seps s <> "" -> trailing_seps (skip_seps s) = trailing_seps s.
Proof.
  induction s as [|c s IH]; simpl; [done|].
  destruct (is_sep c) eqn:E; simpl; [|by rewrite E].
  intros Hne. destruct (String.eqb_spec (rstrip s) "") as [Hr|Hr].
  - by destruct Hne; apply rstrip_empty_skip.
  - by apply IH.
Qed.

Lemma split_path_sep_prefix x y : skip_seps x = "" -> split_path (x +:+ y) = split_path y.
Proof.
  induction x as [|c x IH]; simpl; [done|].
  destruct (is_sep c) eqn:E; [|done]. intros H. unfold split_path. simpl. rewrite E.
  by apply IH.
Qed.

Lemma split_aux_sep_suffix cur x y : skip_seps y = "" -> split_aux cur (x +:+ y) = split_aux cur x.
Proof.
  intros Hy. revert cur. induction x as [|c x IH]; intros cur; simpl.
  - apply rstrip_empty_split_aux. by apply skip_empty_rstrip.
  - destruct (is_sep c); by rewrite IH.
Qed.

(** *** [g_build_filename] *)

Lemma skip_seps_decompose s :
  skip_seps s <> "" ->
  s = leading_seps s +:+ rstrip (skip_seps s) +:+ trailing_seps s.
Proof.
  intros Hne. rewrite <- (trailing_skip s Hne), rstrip_trailing.
  symmetry. apply leading_skip.
Qed.

Lemma g_build_filename_eq a b :
  g_build_filename a b =
    if String.eqb a "" then b
    else if String.eqb b "" then a
    else leading_seps a +:+ rstrip (skip_seps a)
         +:+ (if String.eqb (rstrip (skip_seps a)) "" || String.eqb (rstrip (skip_seps b)) ""
              then "" else "/")
         +:+ rstrip (skip_seps b) +:+ trailing_seps b.
Proof.
  assert (Hskip : forall s, String.eqb (rstrip (skip_seps s)) "" = String.eqb (skip_seps s) "").
  { intros s. destruct (String.eqb_spec (skip_seps s) "") as [->|Hne]; [done|].
    apply String.eqb_neq. intros E. by apply Hne, rstrip_skip_empty. }
  unfold g_build_filename, g_build_path_va, build_step. cbn [fold_left].
  rewrite !Hskip.
  destruct (String.eqb a "") eqn:Ha;
    cbn [bs_result bs_is_first bs_have_leading bs_single_element bs_last_trailing];
  destruct (String.eqb b "") eqn:Hb;
    cbn [bs_result bs_is_first bs_have_leading bs_single_element bs_last_trailing].
  - apply String.eqb_eq in Hb as ->. done.
  - destruct (String.eqb (skip_seps b) "") eqn:Hsb;
      cbn [bs_result bs_is_first bs_have_leading bs_single_element bs_last_trailing default];
      [done|].
    apply String.eqb_neq in Hsb. simpl.
    rewrite append_assoc. symmetry. by apply skip_seps_decompose.
  - destruct (String.eqb (skip_seps a) "") eqn:Hsa;
      cbn [bs_result bs_is_first bs_have_leading bs_single_element bs_last_trailing default];
      [done|].
    apply String.eqb_neq in Hsa. simpl.
    rewrite ?append_assoc. symmetry. by apply skip_seps_decompose.
  - destruct (String.eqb (skip_seps a) "") eqn:Hsa;
      cbn [bs_result bs_is_first bs_have_leading bs_single_element bs_last_trailing];
    destruct (String.eqb (skip_seps b) "") eqn:Hsb;
      cbn [bs_result bs_is_first bs_have_leading bs_single_element bs_last_trailing default
           orb].
    + apply String.eqb_eq in Hsa, Hsb.
      rewrite (skip_empty_rstrip (skip_seps a)), (skip_empty_rstrip (skip_seps b))
        by (by rewrite ?Hsa, ?Hsb).
      simpl. by rewrite ?append_nil_r.
    + apply String.eqb_eq in Hsa.
      rewrite (skip_empty_rstrip (skip_seps a)) by (by rewrite ?Hsa).
      simpl. by rewrite ?append_nil_r, ?append_assoc.
    + apply String.eqb_eq in Hsb.
      rewrite (skip_empty_rstrip (skip_seps b)) by (by rewrite ?Hsb).
      simpl. by rewrite ?append_nil_r, ?append_assoc.
    + simpl. by rewrite ?append_assoc.
Qed.

Lemma skip_leading a : skip_seps (leading_seps a) = "".
Proof.
  induction a as [|c a IH]; simpl; [done|].
  destruct (is_sep c) eqn:E; simpl; [by rewrite E | done].
Qed.

Lemma skip_trailing b : skip_seps (trailing_seps b) = "".
Proof.
  induction b as [|c b IH]; simpl; [done|].
  destruct (is_sep c) eqn:E; simpl; [|done].
  destruct (String.eqb_spec (rstrip b) "") as [Hr|Hr]; simpl; [|done].
  rewrite E. by apply rstrip_empty_skip.
Qed.

Lemma split_path_sep_only s : skip_seps s = "" -> split_path s = [].
Proof. intros H. apply (rstrip_empty_split_aux "" s). by apply skip_empty_rstrip. Qed.

Lemma split_path_build a b :
  split_path (g_build_filename a b) = split_path a ++ split_path b.
Proof.
  rewrite g_build_filename_eq.
  destruct (String.eqb_spec a "") as [->|Ha]; [done|].
  destruct (String.eqb_spec b "") as [->|Hb]; [by rewrite app_nil_r|].
  assert (Ha' : split_path (leading_seps a +:+ rstrip (skip_seps a)) = split_path a).
  { rewrite split_path_sep_prefix by apply skip_leading.
    by rewrite split_path_rstrip, split_path_skip. }
  assert (Hb' : split_path (rstrip (skip_seps b) +:+ trailing_seps b) = split_path b).
  { unfold split_path. rewrite split_aux_sep_suffix by apply skip_trailing.
    rewrite split_aux_rstrip. apply split_path_skip. }
  destruct (String.eqb_spec (rstrip (skip_seps a)) "") as [Hra|Hra]; simpl.
  - rewrite Hra. simpl.
    rewrite split_path_sep_prefix by apply skip_leading.
    rewrite Hb'. rewrite <- Ha', Hra, append_nil_r.
    by rewrite (split_path_sep_only (leading_seps a)) by apply skip_leading.
  - destruct (String.eqb_spec (rstrip (skip_seps b)) "") as [Hrb|Hrb]; simpl.
    + rewrite Hrb. simpl. rewrite <- append_assoc.
      unfold split_path. rewrite split_aux_sep_suffix by apply skip_trailing.
      fold (split_path (leading_seps a +:+ rstrip (skip_seps a))). rewrite Ha'.
      fold (split_path a) (split_path b).
      rewrite <- Hb', Hrb. simpl.
      rewrite (split_path_sep_only (trailing_seps b)) by apply skip_trailing.
      by rewrite app_nil_r.
    + rewrite <- append_assoc. rewrite split_path_app_sep, Ha'. f_equal. apply Hb'.
Qed.

Lemma is_absolute_build a b :
  is_absolute (g_build_filename a b) = if String.eqb a "" then is_absolute b else is_absolute a.
Proof.
  rewrite g_build_filename_eq.
  destruct (String.eqb_spec a "") as [->|Ha]; [done|].
  destruct (String.eqb_spec b "") as [->|Hb]; [done|].
  destruct a as [|c a]; [done|]. simpl.
  destruct (is_sep c) eqn:E; simpl; [done|]. by rewrite E.
Qed.

Lemma g_build_filename_nonempty a b : a <> "" -> g_build_filename a b <> "".
Proof.
  intros Ha. rewrite g_build_filename_eq.
  destruct (String.eqb_spec a "") as [|_]; [done|].
  destruct (String.eqb_spec b "") as [|_]; [done|].
  destruct a as [|c a]; [done|]. simpl.
  destruct (is_sep c) eqn:E; simpl; [done|]. by rewrite E.
Qed.


(** ** Directories and trees *)

Lemma ents_lookup_alter k f es k' :
  ents_lookup k' (ents_alter k f es) =
    if String.eqb k k' then f <$> ents_lookup k es else ents_lookup k' es.
Proof.
  induction es as [|[k0 m] es IH]; simpl.
  - by destruct (String.eqb k k').
  - destruct (String.eqb_spec k0 k) as [->|Hk0]; simpl.
    + by destruct (String.eqb_spec k k') as [->|Hkk'].
    + destruct (String.eqb_spec k0 k') as [->|Hk0']; simpl.
      * by rewrite (proj2 (String.eqb_neq k k')) by done.
      * apply IH.
Qed.

Lemma ents_lookup_insert k n es k' :
  ents_lookup k' (ents_insert k n es) =
    if String.eqb k k' then Some n else ents_lookup k' es.
Proof.
  induction es as [|[k0 m] es IH]; simpl.
  - done.
  - destruct (String.eqb_spec k0 k) as [->|Hk0]; simpl.
    + by destruct (String.eqb_spec k k') as [->|Hkk'].
    + destruct (String.eqb_spec k0 k') as [->|Hk0']; simpl.
      * by rewrite (proj2 (String.eqb_neq k k')) by done.
      * apply IH.
Qed.

Lemma ents_lookup_delete_ne k es k' :
  k <> k' -> ents_lookup k' (ents_delete k es) = ents_lookup k' es.
Proof.
  intros Hne. induction es as [|[k0 m] es IH]; simpl; [done|].
  destruct (String.eqb_spec k0 k) as [->|Hk0]; simpl.
  - by rewrite (proj2 (String.eqb_neq k k')) by done.
  - destruct (String.eqb_spec k0 k'); [done | apply IH].
Qed.

Lemma ents_insert_fresh k n es :
  ents_lookup k es = None -> ents_insert k n es = es ++ [(k, n)].
Proof.
  induction es as [|[k0 m] es IH]; simpl; [done|].
  destruct (String.eqb_spec k0 k); [done|]. intros H. by rewrite IH.
Qed.

Lemma lookup_app p q n :
  lookup (p ++ q) n = match lookup p n with Some m => lookup q m | None => None end.
Proof.
  revert n. induction p as [|c p IH]; intros n; simpl; [done|].
  destruct n as [| pm mt ents |]; try done.
  destruct (ents_lookup c ents); [apply IH | done].
Qed.

Lemma lookup_snoc p c n :
  lookup (p ++ [c]) n =
    match lookup p n with
    | Some (Dir _ _ ents) => ents_lookup c ents
    | _ => None
    end.
Proof.
  rewrite lookup_app. destruct (lookup p n) as [[| pm mt ents |]|]; simpl; try done.
  by destruct (ents_lookup c ents).
Qed.

Lemma is_dir_update_dir p f n : is_dir_node (update_dir p f n) = is_dir_node n.
Proof. destruct n; destruct p; done. Qed.

Lemma update_dir_not_dir p f n : is_dir_node n = false -> update_dir p f n = n.
Proof. by destruct n, p. Qed.

(** At or above the directory that is updated. *)
Lemma lookup_update_dir_above q s f r :
  lookup q (update_dir (q ++ s) f r) = update_dir s f <$> lookup q r.
Proof.
  revert r. induction q as [|c q IH]; intros r; simpl; [done|].
  destruct r as [| pm mt ents |]; try done. simpl.
  rewrite ents_lookup_alter, String.eqb_refl.
  destruct (ents_lookup c ents) as [m|]; simpl; [apply IH | done].
Qed.

(** Below the directory that is updated. *)
Lemma lookup_update_dir_below p c q f r pm mt ents :
  lookup p r = Some (Dir pm mt ents) ->
  lookup (p ++ c :: q) (update_dir p f r) =
    match ents_lookup c (f ents) with Some m => lookup q m | None => None end.
Proof.
  intros Hp. rewrite lookup_app.
  replace p with (p ++ []) at 2 by apply app_nil_r.
  rewrite lookup_update_dir_above, Hp. done.
Qed.

(** Beside it. *)
Lemma lookup_update_dir_beside p q f r :
  ~ p `prefix_of` q -> ~ q `prefix_of` p ->
  lookup q (update_dir p f r) = lookup q r.
Proof.
  revert q r. induction p as [|c p IH]; intros q r Hpq Hqp.
  - by destruct Hpq; apply prefix_nil.
  - destruct q as [|c' q]; [by destruct Hqp; apply prefix_nil|].
    destruct r as [| pm mt ents |]; try done. simpl.
    rewrite ents_lookup_alter.
    destruct (String.eqb_spec c c') as [->|Hne]; [|done].
    destruct (ents_lookup c' ents) as [m|]; simpl; [|done].
    apply IH.
    + intros H. apply Hpq. by apply prefix_cons.
    + intros H. apply Hqp. by apply prefix_cons.
Qed.

Lemma ents_alter_compose k f g es :
  ents_alter k f (ents_alter k g es) = ents_alter k (fun m => f (g m)) es.
Proof.
  induction es as [|[k0 m] es IH]; simpl; [done|].
  destruct (String.eqb_spec k0 k) as [->|Hne]; simpl.
  - by rewrite String.eqb_refl.
  - rewrite (proj2 (String.eqb_neq k0 k)) by done. by rewrite IH.
Qed.

Lemma ents_alter_ext k f g es :
  (forall m, f m = g m) -> ents_alter k f es = ents_alter k g es.
Proof.
  intros H. induction es as [|[k0 m] es IH]; simpl; [done|].
  destruct (String.eqb k0 k); by rewrite ?H, ?IH.
Qed.

Lemma update_dir_compose p f g r :
  update_dir p f (update_dir p g r) = update_dir p (fun es => f (g es)) r.
Proof.
  revert r. induction p as [|c p IH]; intros r; destruct r as [| pm mt ents |]; try done.
  simpl. f_equal. rewrite ents_alter_compose. by apply ents_alter_ext.
Qed.

Lemma ents_alter_id k f es :
  (forall m, ents_lookup k es = Some m -> f m = m) -> ents_alter k f es = es.
Proof.
  induction es as [|[k0 m] es IH]; simpl; [done|].
  destruct (String.eqb_spec k0 k) as [->|Hne]; intros H.
  - by rewrite H.
  - by rewrite IH.
Qed.

(** Updating below a directory is updating that directory's entry. *)
Lemma update_dir_app p s f r :
  update_dir (p ++ s) f r =
    match s with
    | [] => update_dir p f r
    | c :: s' => update_dir p (ents_alter c (update_dir s' f)) r
    end.
Proof.
  destruct s as [|c s']; [by rewrite app_nil_r|].
  revert r. induction p as [|c0 p IH]; intros r; destruct r as [| pm mt ents |]; try done.
  simpl. f_equal. by apply ents_alter_ext.
Qed.


(** ** Path resolution *)

Lemma walk_nil hops r follow cur : walk hops r follow cur [] = Some (cur, None).
Proof. by destruct hops. Qed.

Lemma walk_cons hops r follow cur c rest :
  walk hops r follow cur (c :: rest) =
    match step r cur c with
    | None => None
    | Some l =>
        match followed r follow rest l with
        | Some t =>
            match hops with
            | O => None
            | S h =>
                if String.eqb t "" then None
                else walk h r follow (if is_absolute t then [] else cur)
                       (split_path t ++ rest)
            end
        | None =>
            match rest with
            | [] => Some l
            | _ :: _ =>
                match dir_of r l with
                | Some d => walk hops r follow d rest
                | None => None
                end
            end
        end
    end.
Proof. by destruct hops. Qed.

Lemma walk_last_nofollow hops r cur c : walk hops r false cur [c] = step r cur c.
Proof. rewrite walk_cons. by destruct (step r cur c). Qed.

Lemma followed_more r follow c rest l :
  followed r follow (c :: rest) l = link_at r l.
Proof. done. Qed.

Lemma followed_snoc r follow rest c l :
  followed r follow (rest ++ [c]) l = link_at r l.
Proof. by destruct rest. Qed.

Lemma followed_true r rest l : followed r true rest l = link_at r l.
Proof. by destruct rest. Qed.

(** Resolving a path and then one more name, a link at that name not being
    followed. *)
Lemma walk_snoc hops r cur comps c :
  walk hops r false cur (comps ++ [c]) =
    match walk hops r true cur comps with
    | Some l =>
        match dir_of r l with
        | Some d => step r d c
        | None => None
        end
    | None => None
    end.
Proof.
  revert cur comps. induction hops as [|h IHh]; intros cur comps; revert cur;
    (induction comps as [|c0 comps IH]; intros cur;
     [ cbn [app]; rewrite walk_nil, walk_last_nofollow; reflexivity |]).
  - change ((c0 :: comps) ++ [c]) with (c0 :: (comps ++ [c])).
    rewrite (walk_cons _ _ _ _ c0 (comps ++ [c])), (walk_cons _ _ _ _ c0 comps).
    destruct (step r cur c0) as [l0|]; [|reflexivity].
    rewrite followed_snoc, followed_true.
    destruct (link_at r l0) as [t|]; [reflexivity|].
    destruct comps as [|c1 comps].
    + cbn [app]. destruct (dir_of r l0) as [d|]; [|reflexivity].
      apply walk_last_nofollow.
    + change ((c1 :: comps) ++ [c]) with (c1 :: (comps ++ [c])).
      destruct (dir_of r l0) as [d|]; [|reflexivity].
      apply (IH d).
  - change ((c0 :: comps) ++ [c]) with (c0 :: (comps ++ [c])).
    rewrite (walk_cons _ _ _ _ c0 (comps ++ [c])), (walk_cons _ _ _ _ c0 comps).
    destruct (step r cur c0) as [l0|]; [|reflexivity].
    rewrite followed_snoc, followed_true.
    destruct (link_at r l0) as [t|].
    + destruct (String.eqb t ""); [reflexivity|].
      rewrite app_assoc. apply IHh.
    + destruct comps as [|c1 comps].
      * cbn [app]. destruct (dir_of r l0) as [d|]; [|reflexivity].
        apply walk_last_nofollow.
      * change ((c1 :: comps) ++ [c]) with (c1 :: (comps ++ [c])).
        destruct (dir_of r l0) as [d|]; [|reflexivity].
        apply (IH d).
Qed.

(** What a resolution leads to is not a link that it had to follow. *)
Lemma walk_nolink hops r cur comps l :
  walk hops r false cur comps = Some l ->
  link_at r l = None ->
  walk hops r true cur comps = Some l.
Proof.
  revert cur comps. induction hops as [|h IHh]; intros cur comps; revert cur;
    (induction comps as [|c0 comps IH]; intros cur;
     [ rewrite !walk_nil; intros H _; exact H |]);
    rewrite !walk_cons;
    (destruct (step r cur c0) as [l0|]; [|intros H; discriminate H]);
    (destruct comps as [|c1 comps];
     [ cbn [followed]; intros [= ->] ->; reflexivity |]);
    rewrite !followed_more.
  - destruct (link_at r l0); [intros H; discriminate H|].
    destruct (dir_of r l0) as [d|]; [apply IH | intros H; discriminate H].
  - destruct (link_at r l0) as [t|].
    + destruct (String.eqb t ""); [intros H; discriminate H|]. apply IHh.
    + destruct (dir_of r l0) as [d|]; [apply IH | intros H; discriminate H].
Qed.

Lemma walk_follows hops r cur comps l :
  walk hops r true cur comps = Some l -> link_at r l = None.
Proof.
  revert cur comps. induction hops as [|h IHh]; intros cur comps; revert cur;
    (induction comps as [|c0 comps IH]; intros cur;
     [ rewrite walk_nil; intros [= <-]; reflexivity |]);
    rewrite walk_cons;
    (destruct (step r cur c0) as [l0|]; [|intros H; discriminate H]);
    rewrite followed_true.
  - destruct (link_at r l0) eqn:Hl; [intros H; discriminate H|].
    destruct comps as [|c1 comps]; [intros [= <-]; exact Hl|].
    destruct (dir_of r l0) as [d|]; [apply IH | intros H; discriminate H].
  - destruct (link_at r l0) as [t|] eqn:Hl.
    + destruct (String.eqb t ""); [intros H; discriminate H|]. apply IHh.
    + destruct comps as [|c1 comps]; [intros [= <-]; exact Hl|].
      destruct (dir_of r l0) as [d|]; [apply IH | intros H; discriminate H].
Qed.

(** A resolution that follows a last link leads where the one that does
    not follow it does, unless that is a link. *)
Lemma walk_follow_same hops r cur comps l l' :
  walk hops r false cur comps = Some l ->
  link_at r l = None ->
  walk hops r true cur comps = Some l' ->
  l' = l.
Proof.
  intros H Hl H'. rewrite (walk_nolink _ _ _ _ _ H Hl) in H'. congruence.
Qed.

Lemma walk_snoc_follow hops r cur comps c l d l' :
  walk hops r true cur comps = Some l ->
  dir_of r l = Some d ->
  step r d c = Some l' ->
  link_at r l' = None ->
  walk hops r true cur (comps ++ [c]) = Some l'.
Proof.
  intros Hw Hd Hs Hl. apply walk_nolink; [|exact Hl].
  by rewrite walk_snoc, Hw, Hd.
Qed.

Lemma step_name r cur c :
  valid_name c = true ->
  may_search r cur = true ->
  step r cur c = Some (cur, Some c).
Proof.
  unfold valid_name. rewrite !andb_true_iff, !negb_true_iff.
  intros [[[_ _] Hdot] Hdotdot] Hs. unfold step. by rewrite Hs, Hdot, Hdotdot.
Qed.

Lemma step_some r cur c l : step r cur c = Some l -> may_search r cur = true.
Proof. unfold step. by destruct (may_search r cur). Qed.

Lemma step_named r cur c l :
  valid_name c = true -> step r cur c = Some l -> l = (cur, Some c).
Proof.
  intros Hc Hs. pose proof (step_some _ _ _ _ Hs) as Hm.
  rewrite step_name in Hs by done. congruence.
Qed.

Lemma step_same r r' cur c :
  may_search r' cur = may_search r cur -> step r' cur c = step r cur c.
Proof. unfold step. by intros ->. Qed.

Lemma namei_walk r cwd0 follow path :
  path <> "" ->
  Z.of_nat (String.length path) < PATH_MAX ->
  namei r cwd0 follow path =
    walk MAXSYMLINKS r follow (if is_absolute path then [] else cwd0) (split_path path).
Proof.
  intros Hne Hlen. unfold namei. rewrite (proj2 (String.eqb_neq _ _) Hne).
  destruct (Z.leb_spec PATH_MAX (Z.of_nat (String.length path))); [lia | done].
Qed.

Lemma namei_some r cwd0 follow path l :
  namei r cwd0 follow path = Some l ->
  path <> "" /\ Z.of_nat (String.length path) < PATH_MAX /\
  walk MAXSYMLINKS r follow (if is_absolute path then [] else cwd0) (split_path path) = Some l.
Proof.
  unfold namei. destruct (String.eqb_spec path "") as [|Hne]; [intros H; discriminate H|].
  destruct (Z.leb_spec PATH_MAX (Z.of_nat (String.length path))) as [Hge|Hlt];
    [intros H; discriminate H|].
  done.
Qed.


(** ** Induction on trees *)

Lemma node_ind' (P : node -> Prop) :
  (forall pm mt data, P (File pm mt data)) ->
  (forall pm mt ents, Forall (fun e => P e.2) ents -> P (Dir pm mt ents)) ->
  (forall t, P (Symlink t)) ->
  forall n, P n.
Proof.
  intros HF HD HS. fix IH 1. intros [pm mt data|pm mt ents|t].
  - apply HF.
  - apply HD. induction ents as [|[k m] ents IHe]; constructor.
    + apply IH.
    + apply IHe.
  - apply HS.
Qed.

Lemma postorder_dir pm mt ents fpath :
  postorder (Dir pm mt ents) fpath = postorder_entries fpath ents ++ [fpath].
Proof.
  simpl. f_equal. induction ents as [|[k m] ents IH]; simpl; [done | by rewrite IH].
Qed.

Lemma wf_node_dir pm mt ents : wf_node (Dir pm mt ents) = wf_entries ents.
Proof.
  simpl. induction ents as [|[k m] ents IH]; simpl; [done | by rewrite IH].
Qed.

Lemma visits_dir pm mt ents fpath :
  visits (Dir pm mt ents) fpath =
    if readable pm then visits_entries (searchable pm) fpath ents ++ [fpath] else [fpath].
Proof.
  simpl. destruct (readable pm); [|done]. f_equal.
  induction ents as [|[k m] ents IH]; simpl; [done | by rewrite IH].
Qed.

Lemma dirs_rx_dir pm mt ents :
  dirs_rx (Dir pm mt ents) = readable pm && searchable pm && dirs_rx_entries ents.
Proof. reflexivity. Qed.

(** With every directory readable and searchable the walk visits every
    node. *)
Lemma visits_postorder n :
  forall fpath, dirs_rx n = true -> visits n fpath = postorder n fpath.
Proof.
  induction n as [pm mt data|pm mt ents IH|t] using node_ind'; intros fpath; [done| |done].
  rewrite dirs_rx_dir, visits_dir, postorder_dir, !andb_true_iff.
  intros [[-> ->] Hes]. f_equal.
  induction IH as [|[k m] es Hm _ IHes]; [done|].
  cbn [dirs_rx_entries] in Hes. apply andb_true_iff in Hes as [H1 H2].
  cbn [visits_entries postorder_entries]. cbn [snd] in Hm.
  by rewrite Hm, IHes.
Qed.

(** ** The walk of [nftw] with [unlink_cb] *)

Lemma ftw_walk_file hops fn depth phys pm mt data fpath level w :
  ftw_walk hops fn depth phys (File pm mt data) fpath level w =
    fn w fpath (Some (stat_of (File pm mt data))) FTW_F (ftw_info fpath level).
Proof. by destruct hops. Qed.

Lemma ftw_walk_link_phys hops fn depth t fpath level w :
  ftw_walk hops fn depth true (Symlink t) fpath level w =
    fn w fpath (Some (stat_of (Symlink t))) FTW_SL (ftw_info fpath level).
Proof. by destruct hops. Qed.

Lemma ftw_walk_dir_depth hops fn phys pm mt ents fpath level w :
  ftw_walk hops fn true phys (Dir pm mt ents) fpath level w =
    if negb (readable pm)
    then fn w fpath (Some (stat_of (Dir pm mt ents))) FTW_DNR (ftw_info fpath level)
    else
      let entry :=
        if searchable pm then ftw_walk hops fn true phys
        else fun (_ : node) (p : string) (lv : Z) (w' : world) =>
               fn w' p None FTW_NS (ftw_info p lv) in
      let '(w1, r1) := ftw_children entry fpath level ents w in
      if negb (r1 =? 0) then (w1, r1)
      else fn w1 fpath (Some (stat_of (Dir pm mt ents))) FTW_DP (ftw_info fpath level).
Proof. by destruct hops. Qed.

Lemma sys_remove_trace w fpath :
  trace (sys_remove w fpath).1 =
    trace w ++ [Ev SysRemove fpath (observe w fpath) (sys_remove w fpath).2].
Proof.
  unfold sys_remove.
  destruct (match namei _ _ _ _ with Some _ => _ | None => _ end) as [r' ret]. done.
Qed.

Lemma all_ok_app evs evs' : all_ok (evs ++ evs') = all_ok evs && all_ok evs'.
Proof. apply forallb_app. Qed.

Lemma walk_spec_leaf w fpath : walk_spec w (sys_remove w fpath) [fpath].
Proof.
  eexists. split; [apply sys_remove_trace|]. simpl.
  split; [done|]. split; [done|]. split.
  - intros ->. done.
  - intros _. by exists [], (Ev SysRemove fpath (observe w fpath) (sys_remove w fpath).2).
Qed.

Lemma walk_spec_nil w : walk_spec w (w, 0) [].
Proof.
  exists []. simpl. rewrite app_nil_r. repeat split; try done.
Qed.

Lemma walk_spec_seq w res1 paths1 res2 paths2 :
  walk_spec w res1 paths1 ->
  (res1.2 = 0 -> walk_spec res1.1 res2 paths2) ->
  walk_spec w (if res1.2 =? 0 then res2 else res1) (paths1 ++ paths2).
Proof.
  intros (evs1 & Ht1 & Hr1 & Hp1 & Hok1 & Hbad1) H2.
  destruct (Z.eqb_spec res1.2 0) as [Hz|Hnz].
  - destruct (H2 Hz) as (evs2 & Ht2 & Hr2 & Hp2 & Hok2 & Hbad2).
    destruct (Hok1 Hz) as [Hall1 Hmap1].
    exists (evs1 ++ evs2). split; [by rewrite Ht2, Ht1, app_assoc|].
    split; [by rewrite forallb_app, Hr1, Hr2|].
    split; [rewrite map_app, Hmap1; by apply prefix_app|].
    split.
    + intros Hz2. destruct (Hok2 Hz2) as [Hall2 Hmap2].
      by rewrite all_ok_app, Hall1, Hall2, map_app, Hmap1, Hmap2.
    + intros Hnz2. destruct (Hbad2 Hnz2) as (evs' & e & -> & Hall' & Hret).
      exists (evs1 ++ evs'), e. rewrite app_assoc, all_ok_app, Hall1, Hall'. done.
  - exists evs1. repeat split; try done.
    by apply prefix_app_r.
Qed.

Lemma walk_spec_children go (enter : bool) fpath level es :
  Forall (fun e => forall fp lv w,
            walk_spec w (go e.2 fp lv w) (if enter then visits e.2 fp else [fp])) es ->
  forall w, walk_spec w (ftw_children go fpath level es w) (visits_entries enter fpath es).
Proof.
  induction 1 as [|[name m] es Hm _ IH]; intros w; cbn [ftw_children visits_entries].
  - apply walk_spec_nil.
  - pose proof (Hm (ftw_join fpath name) (level + 1) w) as H1. cbn [snd] in H1.
    destruct (go m (ftw_join fpath name) (level + 1) w) as [w' r] eqn:Hgo.
    apply (walk_spec_seq w (w', r) _ (ftw_children go fpath level es w')); [done|].
    intros _. apply IH.
Qed.

(** The removals of a walk follow the order of its visits and stop at the
    first that fails. *)
Lemma walk_spec_unlink hops n :
  forall fpath level w,
    walk_spec w (ftw_walk hops unlink_cb true true n fpath level w) (visits n fpath).
Proof.
  induction n as [pm mt data|pm mt ents IH|t] using node_ind'; intros fpath level w.
  - rewrite ftw_walk_file. apply walk_spec_leaf.
  - rewrite ftw_walk_dir_depth, visits_dir.
    destruct (readable pm); cbn [negb]; [|apply walk_spec_leaf].
    cbv zeta.
    assert (Hch : walk_spec w
              (ftw_children
                 (if searchable pm then ftw_walk hops unlink_cb true true
                  else fun (_ : node) (p : string) (lv : Z) (w' : world) =>
                         unlink_cb w' p None FTW_NS (ftw_info p lv))
                 fpath level ents w)
              (visits_entries (searchable pm) fpath ents)).
    { apply walk_spec_children. destruct (searchable pm); [exact IH|].
      apply Forall_forall. intros e _ fp lv w'. apply walk_spec_leaf. }
    destruct (ftw_children _ fpath level ents w) as [w1 r1] eqn:Hc.
    pose proof (walk_spec_seq w (w1, r1) _ (sys_remove w1 fpath) [fpath] Hch
                  (fun _ => walk_spec_leaf w1 fpath)) as Hseq.
    simpl in Hseq. unfold unlink_cb. by destruct (r1 =? 0).
  - rewrite ftw_walk_link_phys. apply walk_spec_leaf.
Qed.

Lemma ok_but_last_cons e evs :
  evs <> [] -> ok_but_last (e :: evs) = (ev_ret e =? 0) && ok_but_last evs.
Proof. by destruct evs. Qed.

Lemma all_ok_but_last evs e : all_ok evs = true -> ok_but_last (evs ++ [e]) = true.
Proof.
  induction evs as [|e0 evs IH]; [done|].
  intros [H0 Hrest]%andb_true_iff.
  change ((e0 :: evs) ++ [e]) with (e0 :: (evs ++ [e])).
  rewrite ok_but_last_cons by (by destruct evs). by rewrite H0, IH.
Qed.

Lemma all_ok_ok_but_last evs : all_ok evs = true -> ok_but_last evs = true.
Proof.
  induction evs as [|e0 evs IH]; [done|].
  intros [H0 Hrest]%andb_true_iff. destruct evs as [|e1 evs]; [done|].
  rewrite ok_but_last_cons by done. by rewrite H0, IH.
Qed.

Lemma new_events_app w w' evs : trace w' = trace w ++ evs -> new_events w w' = evs.
Proof. intros H. unfold new_events. by rewrite H, drop_app_length. Qed.

Lemma delete_item_eq w path l n :
  path <> "" ->
  namei (root w) (cwd w) false (ftw_start path) = Some l ->
  loc_node (root w) l = Some n ->
  delete_item w path =
    ((ftw_walk MAXSYMLINKS unlink_cb true true n (ftw_start path) 0 w).1,
     (ftw_walk MAXSYMLINKS unlink_cb true true n (ftw_start path) 0 w).2 =? 0).
Proof.
  intros Hne Hl Hn. unfold delete_item, nftw.
  change (has_flag (Z.lor FTW_DEPTH FTW_PHYS) FTW_PHYS) with true.
  change (has_flag (Z.lor FTW_DEPTH FTW_PHYS) FTW_DEPTH) with true.
  rewrite (proj2 (String.eqb_neq _ _) Hne). simpl negb. rewrite Hl, Hn.
  by destruct (ftw_walk _ _ _ _ _ _ _ _).
Qed.

Lemma delete_aborts_counterexample :
  let res := delete_item sample_world "proj" in
  postorder (Dir 0x1ED 0
               [("ro", Dir 0x16D 0 [("f", File 0x1A4 0 (bytes "x"))]);
                ("g", File 0x1A4 0 (bytes "y"))]) "proj"
    = ["proj/ro/f"; "proj/ro"; "proj/g"; "proj"] /\
  new_events sample_world res.1 = [Ev SysRemove "proj/ro/f" IsFile (-1)] /\
  res.2 = false /\
  stat_at res.1 false "proj/g" = stat_at sample_world false "proj/g" /\
  stat_at res.1 false "proj/g" <> None.
Proof. vm_compute. repeat split; discriminate. Qed.

(** C2, as the code has it: when the path names a node, the removals of
    [delete_item] follow the order in which [nftw] visits the tree (the
    entries of a directory before the directory, a directory that cannot
    be read without its entries) and stop at the first one that fails:
    every removal before the last attempted one returned 0, and nothing is
    attempted after a failure.  The result is success exactly when every
    visit was made and every removal succeeded; when it is failure, the
    last removal attempted is one that failed. *)
Theorem delete_stops_at_first_failure w path l n :
  path <> "" ->
  namei (root w) (cwd w) false (ftw_start path) = Some l ->
  loc_node (root w) l = Some n ->
  let res := delete_item w path in
  let evs := new_events w res.1 in
  forallb is_removal evs = true /\
  map ev_path evs `prefix_of` visits n (ftw_start path) /\
  ok_but_last evs = true /\
  (res.2 = true <-> map ev_path evs = visits n (ftw_start path) /\ all_ok evs = true) /\
  (res.2 = false ->
   exists evs' e, evs = evs' ++ [e] /\ all_ok evs' = true /\ ev_ret e <> 0).
Proof.
  intros Hne Hl Hn res evs. subst res evs.
  rewrite (delete_item_eq w path l n) by done. cbn [fst snd].
  destruct (walk_spec_unlink MAXSYMLINKS n (ftw_start path) 0 w)
    as (evs & Ht & Hr & Hp & Hok & Hbad).
  rewrite (new_events_app _ _ _ Ht).
  split; [done|]. split; [done|].
  destruct (Z.eqb_spec (ftw_walk MAXSYMLINKS unlink_cb true true n (ftw_start path) 0 w).2 0)
    as [Hz|Hnz].
  - destruct (Hok Hz) as [Hall Hmap]. split; [by apply all_ok_ok_but_last|]. done.
  - destruct (Hbad Hnz) as (evs' & e & -> & Hall & Hret).
    split; [by apply all_ok_but_last|]. split; [split; [done|]|].
    + intros [_ Hall']. rewrite all_ok_app in Hall'.
      apply andb_true_iff in Hall' as [_ He]. simpl in He.
      rewrite andb_true_r in He. apply Z.eqb_eq in He. congruence.
    + intros _. exists evs', e. split; [done|]. split; [done|]. congruence.
Qed.

Lemma delete_stops_at_first_failure_witness :
  let res := delete_item guarded_world "/t" in
  let evs := new_events guarded_world res.1 in
  forallb is_removal evs = true /\
  map ev_path evs `prefix_of`
    visits (Dir 0x1ED 0
              [("sealed", Dir 0xC0 0 [("f", File 0x1A4 0 (bytes "x"))]);
               ("z", File 0x1A4 0 (bytes "y"))])
      (ftw_start "/t") /\
  ok_but_last evs = true /\
  (res.2 = true <->
   map ev_path evs =
     visits (Dir 0x1ED 0
               [("sealed", Dir 0xC0 0 [("f", File 0x1A4 0 (bytes "x"))]);
                ("z", File 0x1A4 0 (bytes "y"))])
       (ftw_start "/t") /\ all_ok evs = true) /\
  (res.2 = false ->
   exists evs' e, evs = evs' ++ [e] /\ all_ok evs' = true /\ ev_ret e <> 0).
Proof.
  apply (delete_stops_at_first_failure guarded_world "/t" ([], Some "t"));
    [discriminate | reflexivity | reflexivity].
Defined.


(** ** Direct paths *)

Lemma valid_name_inv c :
  valid_name c = true ->
  c <> "" /\ has_sep c = false /\ String.eqb c "." = false /\ String.eqb c ".." = false.
Proof.
  unfold valid_name. rewrite !andb_true_iff, !negb_true_iff.
  intros [[[H1 H2] H3] H4]. by apply String.eqb_neq in H1.
Qed.

Lemma is_dir_at_lookup r q :
  is_dir_at r q = true <-> exists pm mt ents, lookup q r = Some (Dir pm mt ents).
Proof.
  unfold is_dir_at. destruct (lookup q r) as [[| pm mt ents |]|]; split; try done.
  - by intros (?&?&?&?).
  - intros _. by exists pm, mt, ents.
  - by intros (?&?&?&?).
  - by intros (?&?&?&?).
Qed.

Lemma direct_cons r cur c c' rest :
  direct r cur (c :: c' :: rest) =
    valid_name c && is_dir_at r (cur ++ [c]) && direct r (cur ++ [c]) (c' :: rest).
Proof.
  unfold is_dir_at. cbn [direct].
  destruct (valid_name c); [|done]. simpl.
  by destruct (lookup (cur ++ [c]) r) as [[| pm mt ents |]|].
Qed.

Lemma prefix_snoc_inv (q d : list string) c :
  q `prefix_of` d ++ [c] -> q = d ++ [c] \/ q `prefix_of` d.
Proof.
  intros [k Hk]. destruct k as [|x k _] using rev_ind.
  - left. by rewrite app_nil_r in Hk.
  - right. rewrite app_assoc in Hk. apply app_inj_tail in Hk as [-> _]. by exists k.
Qed.

Lemma lookup_none_below p q r : lookup p r = None -> p `prefix_of` q -> lookup q r = None.
Proof. intros H [k ->]. by rewrite lookup_app, H. Qed.

Lemma direct_snoc r cur comps c :
  direct r cur comps = true ->
  is_dir_at r (cur ++ comps) = true ->
  valid_name c = true ->
  direct r cur (comps ++ [c]) = true.
Proof.
  revert cur. induction comps as [|c0 comps IH]; intros cur Hd Hdir Hc; [done|].
  destruct comps as [|c1 rest].
  - change (([c0] ++ [c])) with (c0 :: c :: []). rewrite direct_cons.
    simpl in Hd. rewrite andb_true_r in Hd. rewrite Hd, Hdir. simpl. by rewrite Hc.
  - change ((c0 :: c1 :: rest) ++ [c]) with (c0 :: c1 :: (rest ++ [c])).
    rewrite direct_cons in *.
    apply andb_true_iff in Hd as [-> Hrest]. simpl.
    apply (IH (cur ++ [c0])); [done | | done].
    by rewrite <- app_assoc.
Qed.

Lemma direct_ext r r' cur comps :
  (forall q, q `prefix_of` cur ++ comps -> q <> cur ++ comps ->
             is_dir_at r' q = is_dir_at r q) ->
  direct r' cur comps = direct r cur comps.
Proof.
  revert cur. induction comps as [|c comps IH]; intros cur Hq; [done|].
  destruct comps as [|c' rest]; [done|].
  rewrite !direct_cons. rewrite Hq.
  - f_equal. apply IH. intros q. rewrite <- app_assoc. apply Hq.
  - exists (c' :: rest). by rewrite <- app_assoc.
  - intros E. apply app_inv_head in E. discriminate.
Qed.

Lemma is_dir_at_update_above q s f r :
  is_dir_at (update_dir (q ++ s) f r) q = is_dir_at r q.
Proof.
  unfold is_dir_at. rewrite lookup_update_dir_above.
  destruct (lookup q r) as [n|]; simpl; [|done].
  pose proof (is_dir_update_dir s f n) as H.
  destruct (update_dir s f n), n; simpl in H; done.
Qed.

(** *** Names built by the walk *)

Lemma skip_seps_app_empty x y : skip_seps (x +:+ y) = "" -> skip_seps y = "".
Proof.
  induction x as [|c x IH]; simpl; [done|]. destruct (is_sep c); [apply IH | done].
Qed.

Lemma skip_seps_no_sep y : has_sep y = false -> skip_seps y = y.
Proof. destruct y as [|c y]; simpl; [done|]. by intros [-> _]%orb_false_iff. Qed.

Lemma rstrip_app_nonempty x y : has_sep y = false -> y <> "" -> rstrip (x +:+ y) <> "".
Proof.
  intros Hy Hne Hr. apply rstrip_empty_skip, skip_seps_app_empty in Hr.
  rewrite skip_seps_no_sep in Hr by done. done.
Qed.

Lemma trailing_seps_app_name x y :
  has_sep y = false -> y <> "" -> trailing_seps (x +:+ y) = "".
Proof.
  intros Hy Hne. induction x as [|c x IH]; simpl.
  - clear Hne. induction y as [|c y IHy]; simpl in *; [done|].
    apply orb_false_iff in Hy as [-> Hy]. simpl. by apply IHy.
  - destruct (String.eqb_spec (rstrip (x +:+ y)) "") as [Hr|Hr].
    + by destruct (rstrip_app_nonempty x y).
    + by rewrite andb_false_r.
Qed.

Lemma ends_with_sep_app_name x y :
  valid_name y = true -> ends_with_sep (x +:+ y) = false.
Proof.
  intros (Hne & Hsep & _)%valid_name_inv. unfold ends_with_sep.
  by rewrite trailing_seps_app_name.
Qed.

Lemma ftw_join_eq fpath name :
  ends_with_sep fpath = false -> ftw_join fpath name = fpath +:+ String "/" name.
Proof. unfold ftw_join. by intros ->. Qed.

Lemma is_absolute_app x y : x <> "" -> is_absolute (x +:+ y) = is_absolute x.
Proof. by destruct x. Qed.

Lemma append_nonempty x y : x <> "" -> x +:+ y <> "".
Proof. by destruct x. Qed.

(** ** Changes at one entry *)

Lemma only_at_refl p r : only_at p r r.
Proof. by intros q. Qed.

Lemma only_at_trans p r1 r2 r3 : only_at p r1 r2 -> only_at p r2 r3 -> only_at p r1 r3.
Proof. intros H12 H23 q Hpq Hqp. by rewrite H23, H12. Qed.

Lemma only_at_up p c r r' : only_at (p ++ [c]) r r' -> only_at p r r'.
Proof.
  intros H q Hpq Hqp. apply H.
  - intros Hpre. apply Hpq. etrans; [|exact Hpre]. by apply prefix_app_r.
  - intros [k Hk]. destruct (decide (k = [])) as [->|Hne].
    + rewrite app_nil_r in Hk. subst q. apply Hpq. by apply prefix_app_r.
    + apply Hqp. destruct (exists_last Hne) as (k' & x & ->).
      rewrite !app_assoc in Hk. apply app_inj_tail in Hk as [-> _].
      by apply prefix_app_r.
Qed.


Lemma ents_lookup_delete_other c es c' :
  c <> c' -> ents_lookup c' (ents_delete c es) = ents_lookup c' es.
Proof. apply ents_lookup_delete_ne. Qed.

Lemma lookup_update_dir_at d f r :
  lookup d (update_dir d f r) = update_dir [] f <$> lookup d r.
Proof.
  pose proof (lookup_update_dir_above d [] f r) as H. by rewrite app_nil_r in H.
Qed.

(** Changing the entry [c] of the directory [d] changes nothing beside
    [d ++ [c]]. *)
Lemma only_at_entry d c f r :
  (forall es c', c <> c' -> ents_lookup c' (f es) = ents_lookup c' es) ->
  only_at (d ++ [c]) r (update_dir d f r).
Proof.
  intros Hf q Hpq Hqp.
  destruct (decide (d `prefix_of` q)) as [[k ->]|Hdq].
  - destruct k as [|c' k].
    + destruct Hqp. rewrite app_nil_r. by apply prefix_app_r.
    + assert (c <> c').
      { intros ->. apply Hpq. exists k. by rewrite <- app_assoc. }
      rewrite !lookup_app, lookup_update_dir_at.
      destruct (lookup d r) as [[| pm mt ents |]|] eqn:Hd; simpl; try done.
      by rewrite Hf.
  - destruct (decide (q `prefix_of` d)) as [Hqd|Hqd].
    + destruct Hqp. etrans; [exact Hqd|]. by apply prefix_app_r.
    + by apply lookup_update_dir_beside.
Qed.

Lemma update_dir_ext p f g r :
  (forall es, f es = g es) -> update_dir p f r = update_dir p g r.
Proof.
  intros H. revert r. induction p as [|c p IH]; intros r;
    destruct r as [| pm mt ents |]; try done; simpl.
  - by rewrite H.
  - f_equal. by apply ents_alter_ext.
Qed.

Lemma ents_delete_alter c f es : ents_delete c (ents_alter c f es) = ents_delete c es.
Proof.
  induction es as [|[k m] es IH]; simpl; [done|].
  destruct (String.eqb_spec k c) as [->|Hne]; simpl.
  - by rewrite String.eqb_refl.
  - rewrite (proj2 (String.eqb_neq k c)) by done. by rewrite IH.
Qed.

Lemma only_at_delete d c r : only_at (d ++ [c]) r (update_dir d (ents_delete c) r).
Proof. apply only_at_entry. intros es c' Hne. by apply ents_lookup_delete_ne. Qed.

Lemma ents_lookup_delete_nodup c es :
  NoDup (map fst es) -> ents_lookup c (ents_delete c es) = None.
Proof.
  induction es as [|[k n] es IH]; cbn [map fst ents_lookup ents_delete]; [done|].
  intros [Hk Hnd]%NoDup_cons. destruct (String.eqb_spec k c) as [->|Hne].
  - destruct (ents_lookup c es) as [m|] eqn:Hm; [|done]. destruct Hk.
    clear -Hm. induction es as [|[k' n'] es IH]; [done|]. cbn in *.
    destruct (String.eqb_spec k' c) as [->|_]; [apply list_elem_of_here|].
    apply list_elem_of_further. by apply IH.
  - cbn [ents_lookup]. rewrite (proj2 (String.eqb_neq _ _) Hne). by apply IH.
Qed.

Lemma lookup_delete_gone d c r pm mt es :
  lookup d r = Some (Dir pm mt es) -> NoDup (map fst es) ->
  lookup (d ++ [c]) (update_dir d (ents_delete c) r) = None.
Proof.
  intros Hd Hnd. rewrite lookup_snoc, lookup_update_dir_at, Hd. cbn.
  by apply ents_lookup_delete_nodup.
Qed.

(** ** Trees that differ at a node and below *)

Lemma shallow_update_dir s f n : shallow (update_dir s f n) = shallow n.
Proof. by destruct n, s. Qed.

Lemma shallow_dir_inv (o : option node) pm mt es :
  shallow <$> o = Some (shallow (Dir pm mt es)) -> exists mt' es', o = Some (Dir pm mt' es').
Proof. destruct o as [[| pm' mt' es' |]|]; try done. intros [= ->]. by exists mt', es'. Qed.

Lemma shallow_link_inv (o : option node) t :
  shallow <$> o = Some (Symlink t) -> o = Some (Symlink t).
Proof. by destruct o as [[| |]|]. Qed.

Lemma beside_refl p r : beside p r r.
Proof. by intros q. Qed.

Lemma beside_sym p r r' : beside p r r' -> beside p r' r.
Proof. intros H q Hq. symmetry. by apply H. Qed.

Lemma beside_trans p r1 r2 r3 : beside p r1 r2 -> beside p r2 r3 -> beside p r1 r3.
Proof. intros H12 H23 q Hq. by rewrite H23, H12. Qed.

Lemma beside_up p c r r' : beside (p ++ [c]) r r' -> beside p r r'.
Proof.
  intros H q Hpq. apply H. intros Hpre. apply Hpq. etrans; [|exact Hpre].
  by apply prefix_app_r.
Qed.

Lemma beside_entry d c f r :
  (forall es c', c <> c' -> ents_lookup c' (f es) = ents_lookup c' es) ->
  beside (d ++ [c]) r (update_dir d f r).
Proof.
  intros Hf q Hpq. destruct (decide (q `prefix_of` d)) as [[k ->]|Hqd].
  - rewrite lookup_update_dir_above. destruct (lookup q r); [|done].
    cbn. by rewrite shallow_update_dir.
  - rewrite (only_at_entry d c f r Hf q Hpq); [done|].
    intros [->|Hq]%prefix_snoc_inv; [by destruct Hpq | by destruct Hqd].
Qed.

Lemma beside_delete d c r : beside (d ++ [c]) r (update_dir d (ents_delete c) r).
Proof. apply beside_entry. intros es c' Hne. by apply ents_lookup_delete_ne. Qed.

Lemma beside_below p s f r : s <> [] -> beside p r (update_dir (p ++ s) f r).
Proof.
  intros Hs q Hpq. destruct (decide (q `prefix_of` p ++ s)) as [[k Hk]|Hq].
  - rewrite Hk, lookup_update_dir_above. destruct (lookup q r); [|done].
    cbn. by rewrite shallow_update_dir.
  - rewrite lookup_update_dir_beside; [done | | done].
    intros Hpre. apply Hpq. etrans; [|exact Hpre]. by apply prefix_app_r.
Qed.

Lemma beside_may_search p r r' q :
  beside p r r' -> ~ p `prefix_of` q -> may_search r' q = may_search r q.
Proof.
  intros H Hq. unfold may_search. specialize (H q Hq).
  destruct (lookup q r') as [[| |]|], (lookup q r) as [[| |]|]; simplify_eq/=; done.
Qed.

Lemma beside_link_at p r r' d c :
  beside p r r' -> ~ p `prefix_of` d ++ [c] -> link_at r' (d, Some c) = link_at r (d, Some c).
Proof.
  intros H Hq. unfold link_at. specialize (H _ Hq).
  destruct (lookup (d ++ [c]) r') as [[| |]|], (lookup (d ++ [c]) r) as [[| |]|];
    simplify_eq/=; done.
Qed.

Lemma beside_dir_of p r r' d c :
  beside p r r' -> ~ p `prefix_of` d ++ [c] -> dir_of r' (d, Some c) = dir_of r (d, Some c).
Proof.
  intros H Hq. unfold dir_of. specialize (H _ Hq).
  destruct (lookup (d ++ [c]) r') as [[| |]|], (lookup (d ++ [c]) r) as [[| |]|];
    simplify_eq/=; done.
Qed.

Lemma step_cases r cur c l :
  step r cur c = Some l ->
  may_search r cur = true /\
  (l = (cur, None) \/ l = (parent_path cur, None) \/ l = (cur, Some c)).
Proof.
  unfold step. destruct (may_search r cur); [|done]. cbn [negb].
  destruct (String.eqb c "."); [intros [= <-]; auto|].
  destruct (String.eqb c ".."); intros [= <-]; auto.
Qed.

Lemma may_search_lookup r q : may_search r q = true -> lookup q r <> None.
Proof. unfold may_search. by destruct (lookup q r). Qed.

(** A path that leads to a name that is not there leads to it whatever is
    put there. *)
Lemma walk_base hops r r' p :
  lookup p r = None -> beside p r r' ->
  forall cur comps l,
    walk hops r false cur comps = Some l -> walk hops r' false cur comps = Some l.
Proof.
  intros Hp Hb.
  assert (Hstep : forall cur c l0, step r cur c = Some l0 -> step r' cur c = Some l0).
  { intros cur c l0 Hs. rewrite <- Hs. apply step_same, (beside_may_search p); [done|].
    intros Hpre. apply step_some, may_search_lookup in Hs.
    by rewrite (lookup_none_below _ _ _ Hp Hpre) in Hs. }
  assert (Hnext : forall cur c,
    link_at r (cur, Some c) <> None \/ dir_of r (cur, Some c) <> None ->
    link_at r' (cur, Some c) = link_at r (cur, Some c) /\
    dir_of r' (cur, Some c) = dir_of r (cur, Some c)).
  { intros cur c Hk.
    destruct (decide (p `prefix_of` cur ++ [c])) as [Hin|Hout].
    - pose proof (lookup_none_below _ _ _ Hp Hin) as Hnone.
      unfold link_at, dir_of in Hk. rewrite Hnone in Hk. by destruct Hk.
    - split; [by apply (beside_link_at p) | by apply (beside_dir_of p)]. }
  induction hops as [|h IHh]; intros cur comps; revert cur;
    (induction comps as [|c comps IH]; intros cur l;
     [ rewrite !walk_nil; intros H; exact H |]);
    rewrite !walk_cons;
    (destruct (step r cur c) as [l0|] eqn:Hs; [|intros H; discriminate H]);
    rewrite (Hstep _ _ _ Hs);
    (destruct comps as [|c1 comps]; [cbn [followed]; intros H; exact H|]);
    rewrite !followed_more;
    destruct (step_cases _ _ _ _ Hs) as [_ [-> | [-> | ->]]];
    try (cbn [link_at dir_of]; apply IH).
  - destruct (link_at r (cur, Some c)) as [t|] eqn:Hl; [intros H; discriminate H|].
    destruct (dir_of r (cur, Some c)) as [d|] eqn:Hd; [|intros H; discriminate H].
    destruct (Hnext cur c) as [Hl' Hd']; [right; congruence|].
    rewrite Hl', Hl, Hd', Hd. apply IH.
  - destruct (link_at r (cur, Some c)) as [t|] eqn:Hl.
    + destruct (Hnext cur c) as [Hl' Hd']; [left; congruence|].
      rewrite Hl', Hl. destruct (String.eqb t ""); [intros H; discriminate H|]. apply IHh.
    + destruct (dir_of r (cur, Some c)) as [d|] eqn:Hd; [|intros H; discriminate H].
      destruct (Hnext cur c) as [Hl' Hd']; [right; congruence|].
      rewrite Hl', Hl, Hd', Hd. apply IH.
Qed.

Lemma walk_direct hops r cur comps l :
  direct r cur comps = true ->
  walk hops r false cur comps = Some l ->
  (exists init c, comps = init ++ [c] /\ valid_name c = true /\ l = (cur ++ init, Some c)) /\
  forall r', beside (cur ++ comps) r r' -> walk hops r' false cur comps = Some l.
Proof.
  revert cur. induction comps as [|c comps IH]; intros cur Hd; [done|].
  destruct comps as [|c' rest].
  - simpl in Hd. rewrite andb_true_r in Hd. rewrite walk_last_nofollow. intros Hs.
    pose proof (step_named _ _ _ _ Hd Hs) as ->. split.
    + exists [], c. by rewrite app_nil_r.
    + intros r' Hb. rewrite walk_last_nofollow, <- Hs. apply step_same.
      apply (beside_may_search _ _ _ _ Hb).
      intros [k Hk]. rewrite <- app_assoc in Hk.
      apply (f_equal length) in Hk. rewrite !length_app in Hk. simpl in Hk. lia.
  - rewrite direct_cons in Hd. apply andb_true_iff in Hd as [[Hc Hdir]%andb_true_iff Hrest].
    apply is_dir_at_lookup in Hdir as (pm & mt & ents & Hlk).
    rewrite walk_cons. destruct (step r cur c) as [l0|] eqn:Hs; [|intros H; discriminate H].
    pose proof (step_named _ _ _ _ Hc Hs) as ->.
    rewrite followed_more. cbn [link_at dir_of]. rewrite Hlk. intros Hw.
    destruct (IH _ Hrest Hw) as [(init & c0 & Hcomps & Hc0 & ->) Hframe]. split.
    + exists (c :: init), c0. split; [by rewrite Hcomps|]. split; [done|].
      by rewrite <- app_assoc.
    + intros r' Hb. rewrite walk_cons.
      assert (Hnot : forall q, q `prefix_of` cur ++ [c] ->
                ~ (cur ++ c :: c' :: rest) `prefix_of` q).
      { intros q [k1 Hk1] [k2 Hk2]. rewrite Hk2 in Hk1.
        apply (f_equal length) in Hk1. rewrite ?length_app in Hk1. cbn [length] in Hk1.
        lia. }
      rewrite (step_same r r'), Hs.
      2:{ apply (beside_may_search _ _ _ _ Hb), Hnot. by apply prefix_app_r. }
      rewrite followed_more.
      pose proof (Hb (cur ++ [c]) (Hnot _ (reflexivity _))) as Hsh. rewrite Hlk in Hsh.
      apply shallow_dir_inv in Hsh as (mt' & es' & Hlk'). cbn [link_at dir_of]. rewrite Hlk'.
      apply Hframe. by rewrite <- app_assoc.
Qed.

(** *** The place of the walk *)

Lemma at_node_walk w fpath p :
  at_node w fpath p ->
  exists d c, p = d ++ [c] /\
    walk MAXSYMLINKS (root w) false (start_dir w fpath) (split_path fpath) = Some (d, Some c).
Proof.
  intros (_ & _ & d & c & -> & H). exists d, c. split; [done|]. apply H, beside_refl.
Qed.

Lemma at_node_child w fpath p name pm mt es :
  at_node w fpath p ->
  lookup p (root w) = Some (Dir pm mt es) ->
  searchable pm = true ->
  valid_name name = true ->
  at_node w (ftw_join fpath name) (p ++ [name]).
Proof.
  intros (Hne & Hend & d & c & -> & Hw) Hp Hx Hname. rewrite ftw_join_eq by done.
  unfold at_node, start_dir in *. rewrite is_absolute_app by done.
  rewrite split_path_app_sep, (split_path_name name) by done.
  split; [by apply append_nonempty|].
  split.
  { change (String "/" name) with ("/" +:+ name). rewrite <- append_assoc.
    by apply ends_with_sep_app_name. }
  exists (d ++ [c]), name. split; [done|]. intros r' Hb.
  assert (Hself : ~ ((d ++ [c]) ++ [name]) `prefix_of` d ++ [c]).
  { intros [k Hk]. apply (f_equal length) in Hk. rewrite !length_app in Hk. simpl in Hk. lia. }
  pose proof (Hb _ Hself) as Hsh. rewrite Hp in Hsh.
  apply shallow_dir_inv in Hsh as (mt' & es' & Hp').
  rewrite walk_snoc.
  rewrite (walk_nolink _ _ _ _ _ (Hw r' (beside_up _ _ _ _ Hb)));
    [|by cbn [link_at]; rewrite Hp'].
  cbn [dir_of]. rewrite Hp'. apply step_name; [done|].
  unfold may_search. by rewrite Hp'.
Qed.

Lemma at_node_stable w w' fpath p :
  at_node w fpath p ->
  cwd w' = cwd w ->
  beside p (root w) (root w') ->
  at_node w' fpath p.
Proof.
  intros (Hne & Hend & d & c & -> & Hw) Hcwd Hb. unfold at_node, start_dir in *.
  rewrite Hcwd. split; [done|]. split; [done|]. exists d, c. split; [done|].
  intros r' Hb'. apply Hw. by eapply beside_trans.
Qed.

(** A path that leads to a name also when the name is not there leads to
    it whatever is there. *)
Lemma at_node_base w fpath d c base :
  fpath <> "" -> ends_with_sep fpath = false ->
  lookup (d ++ [c]) base = None ->
  beside (d ++ [c]) base (root w) ->
  walk MAXSYMLINKS base false (start_dir w fpath) (split_path fpath) = Some (d, Some c) ->
  at_node w fpath (d ++ [c]).
Proof.
  intros Hne Hend Hnone Hb Hw. split; [done|]. split; [done|]. exists d, c. split; [done|].
  intros r' Hb'. apply (walk_base _ base r' (d ++ [c])); [done | | done].
  by eapply beside_trans.
Qed.

(** ** What a removal does at a node *)

Lemma namei_long r cwd0 follow path :
  PATH_MAX <= Z.of_nat (String.length path) -> namei r cwd0 follow path = None.
Proof.
  intros H. unfold namei. destruct (String.eqb path ""); [done|].
  destruct (Z.leb_spec PATH_MAX (Z.of_nat (String.length path))); [done | lia].
Qed.

Lemma namei_at_node w fpath p :
  at_node w fpath p ->
  Z.of_nat (String.length fpath) < PATH_MAX ->
  exists d c, p = d ++ [c] /\ namei (root w) (cwd w) false fpath = Some (d, Some c).
Proof.
  intros Hat Hlen. destruct (at_node_walk _ _ _ Hat) as (d & c & -> & Hw).
  exists d, c. split; [done|]. destruct Hat as (Hne & _).
  by rewrite namei_walk.
Qed.

Lemma sys_remove_fail w fpath :
  namei (root w) (cwd w) false fpath = None ->
  (sys_remove w fpath).2 = -1 /\ root (sys_remove w fpath).1 = root w /\
  cwd (sys_remove w fpath).1 = cwd w.
Proof. intros H. unfold sys_remove. by rewrite H. Qed.

Lemma sys_remove_at w fpath p n :
  at_node w fpath p ->
  lookup p (root w) = Some n ->
  exists d c, p = d ++ [c] /\
    cwd (sys_remove w fpath).1 = cwd w /\
    ((sys_remove w fpath).2 = 0 ->
     root (sys_remove w fpath).1 = update_dir d (ents_delete c) (root w)) /\
    ((sys_remove w fpath).2 <> 0 -> root (sys_remove w fpath).1 = root w) /\
    (Z.of_nat (String.length fpath) < PATH_MAX -> observe w fpath = target_of (Some n)).
Proof.
  intros Hat Hn. destruct (Z.leb_spec PATH_MAX (Z.of_nat (String.length fpath))) as [Hlong|Hlen].
  - destruct (at_node_walk _ _ _ Hat) as (d & c & -> & _). exists d, c.
    destruct (sys_remove_fail w fpath (namei_long _ _ _ _ Hlong)) as (Hr & Hroot & Hcwd).
    split; [done|]. split; [done|]. split; [by rewrite Hr|]. split; [done | lia].
  - destruct (namei_at_node _ _ _ Hat Hlen) as (d & c & -> & Hnamei).
    exists d, c. split; [done|].
    assert (Hobs : observe w fpath = target_of (Some n)).
    { unfold observe, loc_node. by rewrite Hnamei; simpl; rewrite Hn. }
    unfold sys_remove. rewrite Hnamei, Hn.
    destruct (lookup d (root w)) as [[| pm mt ents |]|]; simpl; try done.
    destruct (writable pm && slash_ok fpath n && _); simpl; done.
Qed.


(** ** The walk of [delete_item], node by node *)

Lemma length_append (a b : string) :
  String.length (a +:+ b) = (String.length a + String.length b)%nat.
Proof. induction a as [|x a IH]; simpl; [done | by rewrite IH]. Qed.

Lemma walk_sem_same w w' r p : root w' = root w -> cwd w' = cwd w -> walk_sem w (w', r) p.
Proof.
  intros Hr Hc. split; [done|]. cbn [fst]. rewrite Hr.
  split; [apply only_at_refl | apply beside_refl].
Qed.

Lemma walk_sem_trans w res1 res2 p :
  walk_sem w res1 p -> walk_sem res1.1 res2 p -> walk_sem w res2 p.
Proof.
  intros (Hc1 & Ho1 & Hb1) (Hc2 & Ho2 & Hb2). split; [congruence|].
  split; [by eapply only_at_trans | by eapply beside_trans].
Qed.

Lemma walk_sem_up w res p c : walk_sem w res (p ++ [c]) -> walk_sem w res p.
Proof.
  intros (Hc & Ho & Hb). split; [done|].
  split; [by eapply only_at_up | by eapply beside_up].
Qed.

Lemma walk_sig_nil w : walk_sig w (w, 0) [].
Proof.
  intros evs Hevs. cbn [fst] in Hevs.
  assert (E : trace w ++ [] = trace w ++ evs) by (by rewrite app_nil_r).
  by apply app_inv_head in E as <-.
Qed.

Lemma walk_sig_seq w res1 res2 exp1 exp2 :
  (exists e1, trace res1.1 = trace w ++ e1) ->
  (exists e2, trace res2.1 = trace res1.1 ++ e2) ->
  res1.2 = 0 ->
  walk_sig w res1 exp1 -> walk_sig res1.1 res2 exp2 ->
  walk_sig w res2 (exp1 ++ exp2).
Proof.
  intros [e1 He1] [e2 He2] Hz Ht1 Ht2 evs Hevs.
  rewrite He2, He1, <- app_assoc in Hevs.
  apply app_inv_head in Hevs as <-.
  destruct (Ht1 e1 He1) as [_ Hfull1]. destruct (Ht2 e2 He2) as [Hpre2 Hfull2].
  rewrite map_app, (Hfull1 Hz). split.
  - by apply prefix_app.
  - intros Hz2. by rewrite (Hfull2 Hz2).
Qed.

Lemma walk_sig_stop w res exp1 exp2 :
  res.2 <> 0 -> walk_sig w res exp1 -> walk_sig w res (exp1 ++ exp2).
Proof.
  intros Hnz Ht evs Hevs. destruct (Ht evs Hevs) as [Hpre _]. split; [|done].
  by apply prefix_app_r.
Qed.

Lemma walk_sem_remove w fpath p n :
  at_node w fpath p ->
  lookup p (root w) = Some n ->
  walk_sem w (sys_remove w fpath) p /\
  ((sys_remove w fpath).2 = 0 -> forall d c, p = d ++ [c] ->
   root (sys_remove w fpath).1 = update_dir d (ents_delete c) (root w)) /\
  (Z.of_nat (String.length fpath) < PATH_MAX ->
   walk_sig w (sys_remove w fpath) [(fpath, target_of (Some n))]).
Proof.
  intros Hat Hn.
  destruct (sys_remove_at w fpath p n Hat Hn) as (d & c & -> & Hcwd & Hok & Hbad & Hobs).
  split; [split; [done|]|split].
  - destruct (Z.eq_dec (sys_remove w fpath).2 0) as [Hz|Hnz].
    + rewrite (Hok Hz). split; [apply only_at_delete | apply beside_delete].
    + rewrite (Hbad Hnz). split; [apply only_at_refl | apply beside_refl].
  - intros Hz d' c' [-> ->]%app_inj_tail. by apply Hok.
  - intros Hlen evs Hevs. rewrite sys_remove_trace in Hevs.
    apply app_inv_head in Hevs as <-. unfold ev_sig. simpl. by rewrite (Hobs Hlen).
Qed.

Lemma postorder_targets_dir pm mt ents fpath :
  postorder_targets (Dir pm mt ents) fpath =
    postorder_targets_entries fpath ents ++ [(fpath, EmptyDir)].
Proof.
  simpl. f_equal. induction ents as [|[k m] ents IH]; simpl; [done | by rewrite IH].
Qed.

Lemma reach_dir pm mt ents : reach (Dir pm mt ents) = reach_entries ents.
Proof. reflexivity. Qed.

Lemma wf_entries_cons name m es :
  wf_entries ((name, m) :: es) = true ->
  valid_name name = true /\ wf_node m = true /\ wf_entries es = true.
Proof. simpl. by intros [[? ?]%andb_true_iff ?]%andb_true_iff. Qed.

Lemma is_dir_at_dir r p pm mt es : lookup p r = Some (Dir pm mt es) -> is_dir_at r p = true.
Proof. unfold is_dir_at. by intros ->. Qed.

Lemma update_dir_clear p r pm mt :
  lookup p r = Some (Dir pm mt []) -> update_dir p (fun _ => []) r = r.
Proof.
  revert r. induction p as [|c p IHp]; intros r Hr.
  - simpl in Hr. by injection Hr as ->.
  - destruct r as [| pm' mt' ents' |]; try done. simpl in *.
    destruct (ents_lookup c ents') as [m|] eqn:Hc; [|done].
    f_equal. apply ents_alter_id. intros m' Hm'. rewrite Hc in Hm'.
    injection Hm' as <-. by apply IHp.
Qed.

(** In a directory that cannot be searched no entry can be named. *)
Lemma namei_unsearchable w fpath p name pm mt es :
  at_node w fpath p ->
  lookup p (root w) = Some (Dir pm mt es) ->
  searchable pm = false ->
  valid_name name = true ->
  namei (root w) (cwd w) false (ftw_join fpath name) = None.
Proof.
  intros Hat Hp Hx Hname.
  destruct (namei (root w) (cwd w) false (ftw_join fpath name)) as [l|] eqn:Hn; [|done].
  apply namei_some in Hn as (_ & _ & Hw). exfalso.
  destruct (at_node_walk _ _ _ Hat) as (d & c & -> & Hwalk).
  destruct Hat as (Hne & Hend & _).
  rewrite ftw_join_eq in Hw by done. rewrite is_absolute_app in Hw by done.
  rewrite split_path_app_sep, (split_path_name name), walk_snoc in Hw by done.
  unfold start_dir in Hwalk.
  rewrite (walk_nolink _ _ _ _ _ Hwalk) in Hw by (by cbn [link_at]; rewrite Hp).
  cbn [dir_of] in Hw. rewrite Hp in Hw. apply step_some in Hw.
  unfold may_search in Hw. rewrite Hp in Hw. congruence.
Qed.

Lemma ns_children fpath level p pm mt es0 es w :
  at_node w fpath p ->
  lookup p (root w) = Some (Dir pm mt es0) ->
  searchable pm = false ->
  wf_entries es = true ->
  let res := ftw_children
               (fun (_ : node) (q : string) (lv : Z) (w' : world) =>
                  unlink_cb w' q None FTW_NS (ftw_info q lv)) fpath level es w in
  root res.1 = root w /\ cwd res.1 = cwd w /\ (es <> [] -> res.2 <> 0).
Proof.
  intros Hat Hp Hx Hwf. destruct es as [|[name m] es]; [done|].
  apply wf_entries_cons in Hwf as (Hname & _ & _).
  cbn [ftw_children]. unfold unlink_cb.
  destruct (sys_remove_fail w (ftw_join fpath name)
              (namei_unsearchable _ _ _ _ _ _ _ Hat Hp Hx Hname)) as (Hr & Hroot & Hcwd).
  destruct (sys_remove w (ftw_join fpath name)) as [w1 r1]. cbn [fst snd] in *. subst r1.
  cbn. done.
Qed.

Section WalkSem.
Context (hops : nat).

Abbreviation go := (ftw_walk hops unlink_cb true true).
Abbreviation sem_node := (sem_node hops).

Lemma sem_children fpath level p pm mt es :
Forall (fun e => sem_node e.2) es ->
forall w,
at_node w fpath p ->
lookup p (root w) = Some (Dir pm mt es) ->
searchable pm = true ->
wf_entries es = true ->
let res := ftw_children go fpath level es w in
walk_sem w res p /\
(res.2 = 0 -> root res.1 = update_dir p (fun _ => []) (root w)) /\
(dirs_rx_entries es = true ->
 Z.of_nat (String.length fpath + reach_entries es) < PATH_MAX ->
 walk_sig w res (postorder_targets_entries fpath es)).
Proof.
induction 1 as [|[name m] es Hm Hes IH]; intros w Hat Hp Hx Hwf.
- cbn. split; [by apply walk_sem_same|]. split.
+ intros _. symmetry. by eapply update_dir_clear.
+ intros _ _. apply walk_sig_nil.
- cbn [snd] in Hm. apply wf_entries_cons in Hwf as (Hname & Hwfm & Hwfes).
assert (Hatm : at_node w (ftw_join fpath name) (p ++ [name])).
{ by eapply at_node_child. }
assert (Hlm : lookup (p ++ [name]) (root w) = Some m).
{ rewrite lookup_snoc, Hp. simpl. by rewrite String.eqb_refl. }
destruct (Hm (ftw_join fpath name) (level + 1) w _ Hatm Hlm Hwfm) as (Hsem & Hok & Hsig).
pose proof (walk_spec_unlink hops m (ftw_join fpath name) (level + 1) w)
as (e1 & He1 & _).
cbn [ftw_children postorder_targets_entries dirs_rx_entries reach_entries].
destruct (go m (ftw_join fpath name) (level + 1) w) as [w1 r1] eqn:Hgo.
rewrite ?Hgo in *. cbn [fst snd] in *.
assert (Hup : walk_sem w (w1, r1) p) by (by eapply walk_sem_up).
assert (Hlen : (String.length (ftw_join fpath name) =
            String.length fpath + S (String.length name))%nat).
{ destruct Hat as (_ & Hend & _). rewrite ftw_join_eq by done.
by rewrite length_append. }
assert (Hsig' : dirs_rx m && dirs_rx_entries es = true ->
Z.of_nat (String.length fpath
        + Nat.max (S (String.length name) + reach m) (reach_entries es)) < PATH_MAX ->
walk_sig w (w1, r1) (postorder_targets m (ftw_join fpath name))).
{ intros [Hrx _]%andb_true_iff Hfit. apply Hsig; [done|]. lia. }
destruct (Z.eqb_spec r1 0) as [Hz|Hnz].
+ specialize (Hok Hz p name eq_refl).
assert (Hat1 : at_node w1 fpath p).
{ destruct Hup as (Hc1 & _ & Hb1). by apply (at_node_stable w). }
assert (Hp1 : lookup p (root w1) = Some (Dir pm mt es)).
{ rewrite Hok, lookup_update_dir_at, Hp. simpl. by rewrite String.eqb_refl. }
destruct (IH w1 Hat1 Hp1 Hx Hwfes) as (Hsem2 & Hok2 & Hsig2).
pose proof (walk_spec_children go true fpath level es
            (Forall_impl _ _ _ Hes (fun e _ => walk_spec_unlink hops e.2)) w1)
as (e2 & He2 & _).
split; [by apply (walk_sem_trans w (w1, r1))|]. split.
* intros Hz2. rewrite (Hok2 Hz2), Hok, update_dir_compose.
by apply update_dir_ext.
* intros Hrx Hfit.
apply (walk_sig_seq w (w1, r1)); [by exists e1 | by exists e2 | done | by apply Hsig' |].
apply Hsig2; [by apply andb_true_iff in Hrx as [_ ?] | lia].
+ split; [done|]. split; [done|]. intros Hrx Hfit. apply walk_sig_stop; [done|].
by apply Hsig'.
Qed.

Lemma sem_node_all n : sem_node n.
Proof.
induction n as [pm mt data|pm mt ents IH|t] using node_ind';
intros fpath level w p Hat Hp Hwf.
- rewrite ftw_walk_file. unfold unlink_cb.
destruct (walk_sem_remove w fpath p (File pm mt data) Hat Hp) as (H1 & H2 & H3).
split; [done|]. split; [done|]. intros _ Hfit. apply H3. cbn [reach] in Hfit. lia.
- rewrite wf_node_dir in Hwf. rewrite ftw_walk_dir_depth, postorder_targets_dir, dirs_rx_dir.
destruct (readable pm) eqn:Hr; cbn [negb andb].
2:{ unfold unlink_cb.
destruct (walk_sem_remove w fpath p (Dir pm mt ents) Hat Hp) as (H1 & H2 & _).
split; [done|]. split; [done|]. intros H. discriminate H. }
cbv zeta. destruct (searchable pm) eqn:Hx; cbn [andb].
+ destruct (sem_children fpath level p pm mt ents IH w Hat Hp Hx Hwf) as (Hsem & Hok & Hsig).
pose proof (walk_spec_children go true fpath level ents
            (Forall_impl _ _ _ IH (fun e _ => walk_spec_unlink hops e.2)) w)
as (e1 & He1 & _).
destruct (ftw_children go fpath level ents w) as [w1 r1] eqn:Hch.
rewrite ?Hch in *. cbn [fst snd] in *.
destruct (Z.eqb_spec r1 0) as [Hz|Hnz]; cbn [negb].
2:{ split; [done|]. split; [done|]. intros Hrx Hfit.
  apply walk_sig_stop; [done|]. apply Hsig; [done|]. by rewrite reach_dir in Hfit. }
specialize (Hok Hz). unfold unlink_cb.
assert (Hat1 : at_node w1 fpath p).
{ destruct Hsem as (Hc1 & _ & Hb1). by apply (at_node_stable w). }
assert (Hp1 : lookup p (root w1) = Some (Dir pm mt [])).
{ by rewrite Hok, lookup_update_dir_at, Hp. }
destruct (walk_sem_remove w1 fpath p (Dir pm mt []) Hat1 Hp1) as (Hsem2 & Hok2 & Hsig2).
split; [by apply (walk_sem_trans w (w1, r1))|]. split.
* intros Hz2 d c ->. rewrite (Hok2 Hz2 d c eq_refl), Hok.
rewrite (update_dir_app d [c]), update_dir_compose.
apply update_dir_ext. intros es. apply ents_delete_alter.
* intros Hrx Hfit. rewrite reach_dir in Hfit.
apply (walk_sig_seq w (w1, r1)); [by exists e1 | | done | by apply Hsig |].
{ eexists. apply sys_remove_trace. }
apply Hsig2. lia.
+ destruct (ns_children fpath level p pm mt ents ents w Hat Hp Hx Hwf) as (Hroot & Hcwd & Hnz).
destruct (ftw_children _ fpath level ents w) as [w1 r1] eqn:Hch.
cbn [fst snd] in *. destruct ents as [|e ents].
* cbn in Hch. injection Hch as <- <-. cbn. unfold unlink_cb.
destruct (walk_sem_remove w fpath p (Dir pm mt []) Hat Hp) as (H1 & H2 & _).
split; [done|]. split; [done|]. intros H. discriminate H.
* specialize (Hnz ltac:(done)). rewrite (proj2 (Z.eqb_neq r1 0) Hnz). cbn [negb].
split; [by apply walk_sem_same|]. split; [done|]. intros H. discriminate H.
- rewrite ftw_walk_link_phys. unfold unlink_cb.
destruct (walk_sem_remove w fpath p (Symlink t) Hat Hp) as (H1 & H2 & H3).
split; [done|]. split; [done|]. intros _ Hfit. apply H3. cbn [reach] in Hfit. lia.
Qed.

End WalkSem.

(** *** The start of the walk *)

Lemma rstrip_idem s : rstrip (rstrip s) = rstrip s.
Proof.
  induction s as [|c s IH]; simpl; [done|].
  destruct (is_sep c && String.eqb (rstrip s) "") eqn:E; simpl; [done|].
  by rewrite IH, E.
Qed.

Lemma ends_with_sep_rstrip s : ends_with_sep (rstrip s) = false.
Proof.
  unfold ends_with_sep. apply negb_false_iff, String.eqb_eq.
  induction s as [|c s IH]; simpl; [done|].
  destruct (is_sep c && String.eqb (rstrip s) "") eqn:E; simpl; [done|].
  by rewrite rstrip_idem, E.
Qed.

Lemma is_absolute_rstrip s : rstrip s <> "" -> is_absolute (rstrip s) = is_absolute s.
Proof.
  destruct s as [|c s]; simpl; [done|].
  by destruct (is_sep c && String.eqb (rstrip s) "").
Qed.

Lemma direct_nonempty r cur comps : direct r cur comps = true -> comps <> [].
Proof. by destruct comps. Qed.

Lemma split_path_nonempty_rstrip s : split_path s <> [] -> rstrip s <> "".
Proof. intros H E. apply H. by rewrite <- split_path_rstrip, E. Qed.


Lemma ftw_start_eq path : split_path path <> [] -> ftw_start path = rstrip path.
Proof.
  intros H. unfold ftw_start.
  by rewrite (proj2 (String.eqb_neq _ _) (split_path_nonempty_rstrip _ H)).
Qed.

(** A direct path leads to its node whatever is there, if it leads there
    at all. *)
Lemma at_node_start w path p l :
  direct_path w path p = true ->
  namei (root w) (cwd w) false (ftw_start path) = Some l ->
  path <> "" /\ at_node w (ftw_start path) p /\
  exists d c, p = d ++ [c] /\ l = (d, Some c).
Proof.
  unfold direct_path. intros [Hd Hp%bool_decide_eq_true]%andb_true_iff Hn.
  pose proof (direct_nonempty _ _ _ Hd) as Hcomps.
  pose proof (split_path_nonempty_rstrip _ Hcomps) as Hr.
  split; [by intros ->|].
  rewrite ftw_start_eq in * by done.
  apply namei_some in Hn as (_ & _ & Hw).
  rewrite is_absolute_rstrip, split_path_rstrip in Hw by done.
  destruct (walk_direct _ _ _ _ _ Hd Hw) as [(init & c & Hsplit & Hc & ->) Hframe].
  unfold start_dir in *. split.
  - split; [done|]. split; [apply ends_with_sep_rstrip|].
    exists ((if is_absolute path then [] else cwd w) ++ init), c.
    split; [by rewrite Hp, Hsplit, app_assoc|]. intros r' Hb.
    unfold start_dir. rewrite is_absolute_rstrip, split_path_rstrip by done.
    apply Hframe. by rewrite <- Hp.
  - exists ((if is_absolute path then [] else cwd w) ++ init), c.
    by rewrite Hp, Hsplit, app_assoc.
Qed.

(** A path that leads to a name with and without the tree of that name
    does not pass through the tree. *)
Lemma at_node_apart w path d c pm mt es :
  path <> "" ->
  namei (root w) (cwd w) false (ftw_start path) = Some (d, Some c) ->
  lookup d (root w) = Some (Dir pm mt es) ->
  NoDup (map fst es) ->
  namei (update_dir d (ents_delete c) (root w)) (cwd w) false (ftw_start path)
    = Some (d, Some c) ->
  at_node w (ftw_start path) (d ++ [c]).
Proof.
  intros Hne Hn Hd Hnd Hbase.
  apply namei_some in Hbase as (Hne' & _ & Hw).
  apply (at_node_base w _ d c (update_dir d (ents_delete c) (root w))); try done.
  - unfold ftw_start in *. destruct (String.eqb (rstrip path) ""); [|apply ends_with_sep_rstrip].
    exfalso. apply namei_some in Hn as (_ & _ & Hw0).
    change (split_path "/") with (@nil string) in Hw0. rewrite walk_nil in Hw0.
    discriminate Hw0.
  - by eapply lookup_delete_gone.
  - apply beside_sym, beside_delete.
Qed.

Lemma postorder_targets_never_nonempty n fpath :
  Forall (fun x => x.2 <> NonEmptyDir) (postorder_targets n fpath).
Proof.
  revert fpath. induction n as [pm mt data|pm mt ents IH|t] using node_ind'; intros fpath.
  - by repeat constructor.
  - rewrite postorder_targets_dir. apply Forall_app. split; [|by repeat constructor].
    induction IH as [|[k m] ents Hm _ IHe]; simpl; [done|].
    apply Forall_app. split; [apply Hm | apply IHe].
  - by repeat constructor.
Qed.





(** ** Resolution survives growth *)

Lemma same_kind_refl n : same_kind n n.
Proof. by destruct n. Qed.

Lemma same_kind_trans n1 n2 n3 : same_kind n1 n2 -> same_kind n2 n3 -> same_kind n1 n3.
Proof. destruct n1, n2, n3; simpl; try done; congruence. Qed.

Lemma same_kind_update_dir p f n : same_kind n (update_dir p f n).
Proof. by destruct n, p. Qed.

Lemma ext_refl r : ext r r.
Proof. split; [|done]. intros q n Hq. exists n. split; [done | apply same_kind_refl]. Qed.

Lemma ext_trans r1 r2 r3 : ext r1 r2 -> ext r2 r3 -> ext r1 r3.
Proof.
  intros [H12 L12] [H23 L23]. split.
  - intros q n Hq. destruct (H12 q n Hq) as (n2 & Hq2 & Hk2).
    destruct (H23 q n2 Hq2) as (n3 & Hq3 & Hk3).
    exists n3. split; [done | by eapply same_kind_trans].
  - intros q t Hq. by apply L12, L23.
Qed.

Lemma dir_of_ext r r' l d : ext r r' -> dir_of r l = Some d -> dir_of r' l = Some d.
Proof.
  intros [Hn _]. destruct l as [d0 [c|]]; simpl; [|done].
  destruct (lookup (d0 ++ [c]) r) as [[| pm mt ents |]|] eqn:Hl; try done.
  intros [= <-]. destruct (Hn _ _ Hl) as (n' & -> & Hk). by destruct n'.
Qed.

Lemma may_search_ext r r' cur :
  ext r r' -> may_search r cur = true -> may_search r' cur = true.
Proof.
  intros [Hn _]. unfold may_search.
  destruct (lookup cur r) as [[| pm mt ents |]|] eqn:Hl; try done.
  destruct (Hn _ _ Hl) as (n' & -> & Hk). destruct n'; simpl in Hk; try done. by subst.
Qed.

Lemma step_ext r r' cur c l :
  ext r r' -> step r cur c = Some l -> step r' cur c = Some l.
Proof.
  intros Hext Hs. rewrite <- Hs. apply step_same.
  apply step_some in Hs. by rewrite Hs, (may_search_ext r r').
Qed.

Lemma link_at_ext r r' l : ext r r' -> link_at r' l = link_at r l.
Proof.
  intros [Hn Hl]. destruct l as [d [c|]]; [|done]. unfold link_at.
  destruct (lookup (d ++ [c]) r) as [n|] eqn:Hq.
  - destruct (Hn _ _ Hq) as (n' & -> & Hk).
    destruct n as [| |t], n' as [| |t']; simpl in Hk; try done. by subst.
  - destruct (lookup (d ++ [c]) r') as [[| |t]|] eqn:Hq'; try done.
    apply Hl in Hq'. congruence.
Qed.

Lemma followed_ext r r' follow rest l :
  ext r r' -> followed r' follow rest l = followed r follow rest l.
Proof.
  intros Hext. unfold followed. rewrite (link_at_ext r r') by done. done.
Qed.

Lemma walk_ext hops r r' :
  ext r r' ->
  forall follow cur comps l,
    walk hops r follow cur comps = Some l -> walk hops r' follow cur comps = Some l.
Proof.
  intros Hext follow.
  induction hops as [|h IHh]; intros cur comps; revert cur;
    (induction comps as [|c comps IH]; intros cur l;
     [ rewrite !walk_nil; intros H; exact H |]);
    rewrite !walk_cons;
    (destruct (step r cur c) as [l0|] eqn:Hs; [|intros H; discriminate H]);
    rewrite (step_ext _ _ _ _ _ Hext Hs), (followed_ext r r') by done;
    (destruct (followed r follow comps l0) as [t|]).
  - intros H; discriminate H.
  - destruct comps as [|c1 comps]; [intros H; exact H|].
    destruct (dir_of r l0) as [d|] eqn:Hd; [|intros H; discriminate H].
    rewrite (dir_of_ext r r' l0 d Hext Hd). apply IH.
  - destruct (String.eqb t ""); [intros H; discriminate H|]. apply IHh.
  - destruct comps as [|c1 comps]; [intros H; exact H|].
    destruct (dir_of r l0) as [d|] eqn:Hd; [|intros H; discriminate H].
    rewrite (dir_of_ext r r' l0 d Hext Hd). apply IH.
Qed.

Lemma namei_ext r r' cwd0 follow path l :
  ext r r' -> namei r cwd0 follow path = Some l -> namei r' cwd0 follow path = Some l.
Proof.
  intros Hext. unfold namei. destruct (String.eqb path ""); [done|].
  destruct (PATH_MAX <=? Z.of_nat (String.length path)); [done|]. by apply walk_ext.
Qed.

Lemma no_links_dir pm mt ents : no_links (Dir pm mt ents) = no_links_entries ents.
Proof. simpl. induction ents as [|[k m] ents IH]; simpl; [done | by rewrite IH]. Qed.

Lemma no_links_entries_lookup es c m :
  no_links_entries es = true -> ents_lookup c es = Some m -> no_links m = true.
Proof.
  induction es as [|[k m0] es IH]; simpl; [done|].
  intros [H0 Hes]%andb_true_iff. destruct (String.eqb k c); [by intros [= <-] | by apply IH].
Qed.

Lemma no_links_lookup n q t : no_links n = true -> lookup q n <> Some (Symlink t).
Proof.
  revert n. induction q as [|c q IH]; intros n Hn.
  - simpl. intros [= ->]. done.
  - destruct n as [| pm mt ents |]; try done. simpl.
    destruct (ents_lookup c ents) as [m|] eqn:Hc; [|done].
    apply IH. rewrite no_links_dir in Hn. by eapply no_links_entries_lookup.
Qed.

(** Putting a tree without links under a new name grows the tree. *)
Lemma ext_insert_fresh r d c n pm mt es :
  lookup d r = Some (Dir pm mt es) ->
  ents_lookup c es = None ->
  no_links n = true ->
  ext r (update_dir d (ents_insert c n) r).
Proof.
  intros Hd Hc Hn.
  assert (Hbeside : only_at (d ++ [c]) r (update_dir d (ents_insert c n) r)).
  { apply only_at_entry. intros es' c' Hne. rewrite ents_lookup_insert.
    by rewrite (proj2 (String.eqb_neq c c')). }
  assert (Hnew : lookup (d ++ [c]) r = None).
  { by rewrite lookup_snoc, Hd. }
  assert (Hcases : forall q, (d ++ [c]) `prefix_of` q \/ q `prefix_of` d \/
                             (~ (d ++ [c]) `prefix_of` q /\ ~ q `prefix_of` (d ++ [c]))).
  { intros q. destruct (decide ((d ++ [c]) `prefix_of` q)); [by left|].
    destruct (decide (q `prefix_of` (d ++ [c]))) as [[k Hk]|]; [|by right; right].
    right; left. destruct (decide (k = [])) as [->|Hk'].
    - rewrite app_nil_r in Hk. subst q. by destruct n0.
    - destruct (exists_last Hk') as (k' & x & ->). rewrite app_assoc in Hk.
      apply app_inj_tail in Hk as [-> _]. by exists k'. }
  split.
  - intros q m Hq. destruct (Hcases q) as [[k ->]|[[s Hs]|[H1 H2]]].
    + by rewrite lookup_app, Hnew in Hq.
    + subst d. rewrite lookup_update_dir_above, Hq. simpl.
      eexists. split; [done | apply same_kind_update_dir].
    + rewrite Hbeside by done. exists m. split; [done | apply same_kind_refl].
  - intros q t Hq. destruct (Hcases q) as [[k ->]|[[s Hs]|[H1 H2]]].
    + rewrite <- app_assoc in Hq. simpl in Hq.
      rewrite (lookup_update_dir_below d c k _ r pm mt es Hd) in Hq.
      rewrite ents_lookup_insert, String.eqb_refl in Hq.
      by destruct (no_links_lookup n k t Hn).
    + subst d. rewrite lookup_update_dir_above in Hq.
      destruct (lookup q r) as [m|]; [|done]. simpl in Hq.
      pose proof (same_kind_update_dir s (ents_insert c n) m) as Hk.
      injection Hq as Hq. rewrite Hq in Hk. destruct m; simpl in Hk; try done. by subst.
    + by rewrite <- Hbeside.
Qed.

(** ** C6: creating a directory or a file under a name that is taken *)

Lemma lookup_snoc_dir r d c pm mt es :
  lookup d r = Some (Dir pm mt es) -> lookup (d ++ [c]) r = ents_lookup c es.
Proof. intros H. by rewrite lookup_snoc, H. Qed.

Lemma lookup_insert_new r d c n pm mt es :
  lookup d r = Some (Dir pm mt es) ->
  lookup (d ++ [c]) (update_dir d (ents_insert c n) r) = Some n.
Proof.
  intros Hd. rewrite (lookup_update_dir_below d c [] _ r pm mt es Hd).
  by rewrite ents_lookup_insert, String.eqb_refl.
Qed.

Lemma create_directory_item_inv w parent dir_name :
  (create_directory_item w parent dir_name).2 = true ->
  exists d c pm mt es,
    namei (root w) (cwd w) false (g_build_filename parent dir_name) = Some (d, Some c) /\
    lookup d (root w) = Some (Dir pm mt es) /\ ents_lookup c es = None /\
    writable pm = true /\ name_fits c = true /\
    cwd (create_directory_item w parent dir_name).1 = cwd w /\
    root (create_directory_item w parent dir_name).1 =
      update_dir d (ents_insert c (Dir (mkdir_mode w pm 0x1ED) (clock w) [])) (root w).
Proof.
  unfold create_directory_item, sys_mkdir.
  destruct (namei (root w) (cwd w) false (g_build_filename parent dir_name))
    as [[d [c|]]|]; try (simpl; intros Hf; discriminate Hf).
  destruct (lookup (d ++ [c]) (root w)) eqn:Hn; try (simpl; intros Hf; discriminate Hf).
  destruct (lookup d (root w)) as [[| pm mt es |]|] eqn:Hd; try (simpl; intros Hf; discriminate Hf).
  destruct (writable pm) eqn:Hw; try (simpl; intros Hf; discriminate Hf).
  destruct (name_fits c) eqn:Hfit; try (simpl; intros Hf; discriminate Hf). simpl. intros _.
  exists d, c, pm, mt, es. rewrite (lookup_snoc_dir _ _ _ _ _ _ Hd) in Hn.
  repeat split; reflexivity || assumption.
Qed.

Lemma create_directory_item_taken w parent dir_name l n :
  namei (root w) (cwd w) false (g_build_filename parent dir_name) = Some l ->
  loc_node (root w) l = Some n ->
  (create_directory_item w parent dir_name).2 = false /\
  root (create_directory_item w parent dir_name).1 = root w.
Proof.
  intros Hl Hn. unfold create_directory_item, sys_mkdir. rewrite Hl.
  destruct l as [d [c|]]; [|done]. unfold loc_node in Hn. simpl in Hn. by rewrite Hn.
Qed.

Lemma excl_flags :
  let flags := Z.lor (Z.lor O_WRONLY O_CREAT) O_EXCL in
  has_flag flags O_CREAT = true /\ has_flag flags O_EXCL = true /\
  has_flag flags O_TRUNC = false /\ (Z.land flags O_ACCMODE =? O_RDONLY) = false /\
  (Z.land flags O_ACCMODE =? O_WRONLY) = true.
Proof. done. Qed.

Lemma create_file_item_eq w parent file_name :
  let path := g_build_filename parent file_name in
  create_file_item w parent file_name =
    match namei (root w) (cwd w) (ends_with_sep path) path with
    | Some (d, Some c) =>
        match lookup (d ++ [c]) (root w), lookup d (root w) with
        | None, Some (Dir pm _ _) =>
            if negb (ends_with_sep path) && writable pm && name_fits c then
              (log (Ev SysOpen path (observe w path) 0)
                 (set_root (update_dir d
                              (ents_insert c (File (creat_mode w 0x1A4) (clock w) []))
                              (root w)) w), true)
            else (log (Ev SysOpen path (observe w path) (-1)) w, false)
        | _, _ => (log (Ev SysOpen path (observe w path) (-1)) w, false)
        end
    | _ => (log (Ev SysOpen path (observe w path) (-1)) w, false)
    end.
Proof.
  intros path. unfold create_file_item, sys_open. fold path.
  destruct excl_flags as (-> & -> & -> & -> & ->). simpl negb. simpl andb. simpl orb.
  destruct (namei _ _ _ _) as [[d [c|]]|]; simpl; try done.
  - destruct (lookup (d ++ [c]) (root w)) as [[| |]|]; simpl; try done.
    destruct (lookup d (root w)) as [[| pm mt es |]|]; simpl; try done.
    by destruct (negb (ends_with_sep path) && writable pm && name_fits c).
  - by destruct (lookup d (root w)) as [[| |]|].
Qed.

Lemma create_file_item_inv w parent file_name :
  (create_file_item w parent file_name).2 = true ->
  exists d c pm mt es,
    namei (root w) (cwd w) false (g_build_filename parent file_name) = Some (d, Some c) /\
    lookup d (root w) = Some (Dir pm mt es) /\ ents_lookup c es = None /\
    writable pm = true /\ name_fits c = true /\
    cwd (create_file_item w parent file_name).1 = cwd w /\
    root (create_file_item w parent file_name).1 =
      update_dir d (ents_insert c (File (creat_mode w 0x1A4) (clock w) [])) (root w).
Proof.
  rewrite create_file_item_eq. cbv zeta.
  destruct (ends_with_sep (g_build_filename parent file_name)) eqn:Hend.
  { destruct (namei (root w) (cwd w) true (g_build_filename parent file_name))
      as [[d [c|]]|]; try (simpl; intros Hf; discriminate Hf).
    destruct (lookup (d ++ [c]) (root w)); try (simpl; intros Hf; discriminate Hf).
    destruct (lookup d (root w)) as [[| |]|]; simpl; intros Hf; discriminate Hf. }
  destruct (namei (root w) (cwd w) false (g_build_filename parent file_name))
    as [[d [c|]]|]; try (simpl; intros Hf; discriminate Hf).
  destruct (lookup (d ++ [c]) (root w)) eqn:Hn; try (simpl; intros Hf; discriminate Hf).
  destruct (lookup d (root w)) as [[| pm mt es |]|] eqn:Hd; try (simpl; intros Hf; discriminate Hf).
  destruct (writable pm) eqn:Hw; try (simpl; intros Hf; discriminate Hf).
  destruct (name_fits c) eqn:Hfit; try (simpl; intros Hf; discriminate Hf). simpl. intros _.
  exists d, c, pm, mt, es. rewrite (lookup_snoc_dir _ _ _ _ _ _ Hd) in Hn.
  repeat split; reflexivity || assumption.
Qed.

Lemma create_file_item_taken w parent file_name l n :
  namei (root w) (cwd w) false (g_build_filename parent file_name) = Some l ->
  loc_node (root w) l = Some n ->
  (create_file_item w parent file_name).2 = false /\
  root (create_file_item w parent file_name).1 = root w.
Proof.
  intros Hl Hn. rewrite create_file_item_eq. cbv zeta.
  destruct (ends_with_sep (g_build_filename parent file_name)) eqn:Hend.
  { clear Hl Hn.
    destruct (namei (root w) (cwd w) true (g_build_filename parent file_name))
      as [[d [c|]]|]; try (split; reflexivity).
    destruct (lookup (d ++ [c]) (root w)); try (split; reflexivity).
    destruct (lookup d (root w)) as [[| |]|]; split; reflexivity. }
  rewrite Hl. destruct l as [d [c|]]; [|split; reflexivity].
  unfold loc_node in Hn. simpl in Hn. rewrite Hn. split; reflexivity.
Qed.

(** C6: when the name is taken under the parent (the path resolves to an
    existing entry, a final link not followed), [create_directory_item] and
    [create_file_item] both fail and leave the tree as it is; hence after
    either has succeeded, calling either again with the same arguments
    fails and does not touch what was created. *)
Theorem creation_is_exclusive :
  (forall w parent name l n,
     namei (root w) (cwd w) false (g_build_filename parent name) = Some l ->
     loc_node (root w) l = Some n ->
     ((create_directory_item w parent name).2 = false /\
      root (create_directory_item w parent name).1 = root w) /\
     ((create_file_item w parent name).2 = false /\
      root (create_file_item w parent name).1 = root w)) /\
  (forall w parent name,
     (create_directory_item w parent name).2 = true ->
     let w1 := (create_directory_item w parent name).1 in
     ((create_directory_item w1 parent name).2 = false /\
      root (create_directory_item w1 parent name).1 = root w1) /\
     ((create_file_item w1 parent name).2 = false /\
      root (create_file_item w1 parent name).1 = root w1)) /\
  (forall w parent name,
     (create_file_item w parent name).2 = true ->
     let w1 := (create_file_item w parent name).1 in
     ((create_directory_item w1 parent name).2 = false /\
      root (create_directory_item w1 parent name).1 = root w1) /\
     ((create_file_item w1 parent name).2 = false /\
      root (create_file_item w1 parent name).1 = root w1)).
Proof.
  assert (HA : forall w parent name l n,
     namei (root w) (cwd w) false (g_build_filename parent name) = Some l ->
     loc_node (root w) l = Some n ->
     ((create_directory_item w parent name).2 = false /\
      root (create_directory_item w parent name).1 = root w) /\
     ((create_file_item w parent name).2 = false /\
      root (create_file_item w parent name).1 = root w)).
  { intros w parent name l n Hl Hn. split.
    - by eapply create_directory_item_taken.
    - by eapply create_file_item_taken. }
  split; [exact HA|]. split.
  - intros w parent name Hok w1. subst w1.
    destruct (create_directory_item_inv w parent name Hok)
      as (d & c & pm & mt & es & Hnamei & Hd & Hc & _ & _ & Hcwd & Hroot).
    apply (HA _ parent name (d, Some c) (Dir (mkdir_mode w pm 0x1ED) (clock w) [])).
    + rewrite Hcwd, Hroot. eapply namei_ext; [|exact Hnamei].
      by eapply ext_insert_fresh.
    + unfold loc_node. simpl. rewrite Hroot. by eapply lookup_insert_new.
  - intros w parent name Hok w1. subst w1.
    destruct (create_file_item_inv w parent name Hok)
      as (d & c & pm & mt & es & Hnamei & Hd & Hc & _ & _ & Hcwd & Hroot).
    apply (HA _ parent name (d, Some c) (File (creat_mode w 0x1A4) (clock w) [])).
    + rewrite Hcwd, Hroot. eapply namei_ext; [|exact Hnamei].
      by eapply ext_insert_fresh.
    + unfold loc_node. simpl. rewrite Hroot. by eapply lookup_insert_new.
Qed.

Lemma creation_is_exclusive_witness :
  (((create_directory_item sample_world "taken" "e").2 = false /\
    root (create_directory_item sample_world "taken" "e").1 = root sample_world) /\
   ((create_file_item sample_world "taken" "e").2 = false /\
    root (create_file_item sample_world "taken" "e").1 = root sample_world)) /\
  (let w1 := (create_directory_item sample_world "dst" "proj").1 in
   ((create_directory_item w1 "dst" "proj").2 = false /\
    root (create_directory_item w1 "dst" "proj").1 = root w1) /\
   ((create_file_item w1 "dst" "proj").2 = false /\
    root (create_file_item w1 "dst" "proj").1 = root w1)) /\
  (let w1 := (create_file_item sample_world "dst" "readme.txt").1 in
   ((create_directory_item w1 "dst" "readme.txt").2 = false /\
    root (create_directory_item w1 "dst" "readme.txt").1 = root w1) /\
   ((create_file_item w1 "dst" "readme.txt").2 = false /\
    root (create_file_item w1 "dst" "readme.txt").1 = root w1)).
Proof.
  destruct creation_is_exclusive as (HA & HB & HC). split; [|split].
  - apply (HA sample_world "taken" "e" (["home"; "user"; "taken"], Some "e")
             (File 0x1A4 0 (bytes "z"))); vm_compute; reflexivity.
  - apply (HB sample_world "dst" "proj"). vm_compute. reflexivity.
  - apply (HC sample_world "dst" "readme.txt"). vm_compute. reflexivity.
Defined.


(** ** [g_path_get_dirname] and [rename_item] *)

Lemma before_last_sep_none s : before_last_sep s = None -> has_sep s = false.
Proof.
  induction s as [|c s IH]; simpl; [done|].
  destruct (before_last_sep s); [done|]. destruct (is_sep c); [done|]. by intros _; apply IH.
Qed.

Lemma before_last_sep_some s p :
  before_last_sep s = Some p ->
  exists t, s = p +:+ String "/" t /\ has_sep t = false.
Proof.
  revert p. induction s as [|c s IH]; intros p; simpl; [done|].
  destruct (before_last_sep s) as [p'|] eqn:Hb.
  - intros [= <-]. destruct (IH p' eq_refl) as (t & -> & Ht). by exists t.
  - destruct (is_sep c) eqn:Hc; [|done]. intros [= <-].
    exists s. split; [|by apply before_last_sep_none].
    simpl. by rewrite (is_sep_eq c Hc).
Qed.

Lemma split_path_no_sep t : has_sep t = false -> split_path t = flush t.
Proof. intros H. unfold split_path. by rewrite split_aux_no_sep. Qed.

Lemma is_absolute_sep_only p t : rstrip p = "" -> is_absolute (p +:+ String "/" t) = true.
Proof.
  destruct p as [|c p]; simpl; [done|].
  by destruct (is_sep c).
Qed.

Lemma rstrip_nonempty_inv p : rstrip p <> "" -> p <> "".
Proof. by destruct p. Qed.

(** The directory part of [p/t]: same components as [p], absolute when
    the path is. *)
Lemma dirname_split p t :
  has_sep t = false ->
  let dir := g_path_get_dirname (p +:+ String "/" t) in
  dir <> "" /\ split_path dir = split_path p /\
  is_absolute dir = is_absolute (p +:+ String "/" t).
Proof.
  intros Ht. unfold g_path_get_dirname.
  assert (Hb : before_last_sep (p +:+ String "/" t) = Some p).
  { clear -Ht. induction p as [|c p IH]; simpl.
    - destruct (before_last_sep t) eqn:Hb; [|done].
      apply before_last_sep_some in Hb as (t' & -> & _).
      clear -Ht. exfalso. induction s as [|c s IH]; simpl in Ht; [done|].
      apply orb_false_iff in Ht as [_ Ht]. by apply IH.
    - by rewrite IH. }
  rewrite Hb. destruct (String.eqb_spec (rstrip p) "") as [Hr|Hr]; simpl.
  - split; [done|]. split.
    + rewrite <- (split_path_rstrip p), Hr. done.
    + by rewrite is_absolute_sep_only.
  - split; [done|]. split; [apply split_path_rstrip|].
    rewrite is_absolute_rstrip by done. symmetry. apply is_absolute_app.
    by apply rstrip_nonempty_inv.
Qed.

Lemma ends_with_sep_sep p : ends_with_sep (p +:+ "/") = true.
Proof.
  unfold ends_with_sep. apply negb_true_iff, String.eqb_neq.
  induction p as [|c p IH]; simpl; [done|].
  destruct (is_sep c && String.eqb (rstrip (p +:+ "/")) ""); [done | apply IH].
Qed.

(** *** Following or not following the last component *)

Lemma walk_nofollow_follow hops r cur comps d c n :
  walk hops r false cur comps = Some (d, Some c) ->
  lookup (d ++ [c]) r = Some n ->
  (forall t, n <> Symlink t) ->
  walk hops r true cur comps = Some (d, Some c).
Proof.
  intros Hw Hn Hnl. apply walk_nolink; [done|]. cbn [link_at]. rewrite Hn.
  destruct n as [| |t]; try done. by destruct (Hnl t).
Qed.

Lemma step_loc r cur c0 d c : step r cur c0 = Some (d, Some c) -> d = cur /\ c = c0.
Proof. intros Hs. by destruct (step_cases _ _ _ _ Hs) as [_ [[=] | [[=] | [= -> ->]]]]. Qed.

Lemma namei_build r cwd0 follow a c :
  a <> "" -> valid_name c = true ->
  namei r cwd0 follow (g_build_filename a c) =
    if PATH_MAX <=? Z.of_nat (String.length (g_build_filename a c)) then None
    else walk MAXSYMLINKS r follow (if is_absolute a then [] else cwd0) (split_path a ++ [c]).
Proof.
  intros Ha Hc. unfold namei.
  rewrite (proj2 (String.eqb_neq _ _) (g_build_filename_nonempty a c Ha)).
  rewrite is_absolute_build, (proj2 (String.eqb_neq _ _) Ha).
  by rewrite split_path_build, (split_path_name c).
Qed.

(** Resolving [a/c], a link at [c] not being followed. *)
Lemma namei_snoc r cwd0 a c l :
  a <> "" -> valid_name c = true ->
  namei r cwd0 false (g_build_filename a c) = Some l ->
  exists l0 d,
    walk MAXSYMLINKS r true (if is_absolute a then [] else cwd0) (split_path a) = Some l0 /\
    dir_of r l0 = Some d /\ l = (d, Some c) /\ may_search r d = true.
Proof.
  intros Ha Hc. rewrite namei_build by done.
  destruct (PATH_MAX <=? _); [intros H; discriminate H|]. rewrite walk_snoc.
  destruct (walk _ _ true _ _) as [l0|] eqn:Hw; [|intros H; discriminate H].
  destruct (dir_of r l0) as [d|] eqn:Hd; [|intros H; discriminate H].
  intros Hs. exists l0, d. split; [reflexivity|]. split; [exact Hd|].
  split; [by eapply step_named | by eapply step_some].
Qed.

Lemma namei_snoc_intro r cwd0 a c l0 d :
  a <> "" -> valid_name c = true ->
  Z.of_nat (String.length (g_build_filename a c)) < PATH_MAX ->
  walk MAXSYMLINKS r true (if is_absolute a then [] else cwd0) (split_path a) = Some l0 ->
  dir_of r l0 = Some d ->
  may_search r d = true ->
  namei r cwd0 false (g_build_filename a c) = Some (d, Some c).
Proof.
  intros Ha Hc Hlen Hw Hd Hs. rewrite namei_build by done.
  destruct (Z.leb_spec PATH_MAX (Z.of_nat (String.length (g_build_filename a c))));
    [lia|].
  rewrite walk_snoc, Hw, Hd. by apply step_name.
Qed.

Lemma walk_dot hops r cur l :
  walk hops r true cur ["."] = Some l -> l = (cur, None).
Proof.
  rewrite walk_cons. unfold step. destruct (may_search r cur); [|intros H; discriminate H].
  cbn. by intros [= <-].
Qed.

(** Where [rename_item] sends an entry, against where the entry is. *)
Lemma rename_paths r cwd0 old new d1 c1 d2 c2 :
  valid_name new = true ->
  namei r cwd0 false old = Some (d1, Some c1) ->
  namei r cwd0 false (g_build_filename (g_path_get_dirname old) new) = Some (d2, Some c2) ->
  c2 = new /\
  (d2 = d1 \/
   (ends_with_sep old = true /\
    forall n, lookup (d1 ++ [c1]) r = Some n -> is_dir_node n = true -> d2 = d1 ++ [c1])).
Proof.
  intros Hnew Hold Hnp. apply namei_some in Hold as (Hne & _ & Hold).
  destruct (before_last_sep old) as [p|] eqn:Hb.
  - apply before_last_sep_some in Hb as (t & -> & Ht).
    destruct (dirname_split p t Ht) as (Hdne & Hsplit & Habs).
    apply namei_snoc in Hnp as (l0 & d & Hw & Hdir & [= -> ->] & _); [|done..].
    rewrite Hsplit, Habs in Hw.
    rewrite split_path_app_sep, (split_path_no_sep t Ht) in Hold.
    destruct (String.eqb_spec t "") as [->|Htne].
    + cbn [flush String.eqb] in Hold. rewrite app_nil_r in Hold.
      split; [done|]. right. split; [apply ends_with_sep_sep|].
      intros n Hn Hdirn.
      rewrite (walk_nofollow_follow _ _ _ _ _ _ n Hold Hn) in Hw by (by destruct n).
      injection Hw as <-. cbn [dir_of] in Hdir. rewrite Hn in Hdir.
      destruct n; try done. by injection Hdir.
    + unfold flush in Hold. rewrite (proj2 (String.eqb_neq _ _) Htne) in Hold.
      rewrite walk_snoc, Hw, Hdir in Hold.
      apply step_loc in Hold as [-> _]. by split; [|left].
  - pose proof (before_last_sep_none _ Hb) as Hs.
    unfold g_path_get_dirname in Hnp. rewrite Hb in Hnp.
    apply namei_snoc in Hnp as (l0 & d & Hw & Hdir & [= -> ->] & _); [|done..].
    change (split_path ".") with ["."] in Hw.
    change (is_absolute ".") with false in Hw. cbv iota in Hw.
    apply walk_dot in Hw as ->. cbn [dir_of] in Hdir. injection Hdir as <-.
    rewrite (split_path_no_sep old Hs) in Hold.
    unfold flush in Hold. rewrite (proj2 (String.eqb_neq _ _) Hne) in Hold.
    assert (Habs : is_absolute old = false).
    { destruct old as [|c old]; [done|]. simpl in *. by apply orb_false_iff in Hs as [-> _]. }
    rewrite Habs, walk_last_nofollow in Hold. apply step_loc in Hold as [-> _].
    by split; [|left].
Qed.

Lemma rename_leaves_parent_counterexample :
  let w' := (rename_item sample_world "/home/user/root/a.txt" "../c").1 in
  (rename_item sample_world "/home/user/root/a.txt" "../c").2 = true /\
  namei (root sample_world) (cwd sample_world) false "/home/user/root/a.txt"
    = Some (["home"; "user"; "root"], Some "a.txt") /\
  lookup ["home"; "user"; "root"] (root w')
    = Some (Dir 0x1ED 0 [("sub", Dir 0x1ED 0 [("b.txt", File 0x1A4 0 (bytes "world"))])]) /\
  lookup ["home"; "user"; "c"] (root w') = Some (File 0x1A4 0 (bytes "hello")).
Proof. vm_compute. done. Qed.

(** C10, as the code has it: when [new_name] is a name (not empty, without
    a separator, and neither "." nor ".."), a successful [rename_item]
    leaves the entry in the directory it was in, under [new_name]. *)
Theorem rename_stays_in_parent w old_path new_name :
  valid_name new_name = true ->
  (rename_item w old_path new_name).2 = true ->
  exists d c n,
    namei (root w) (cwd w) false old_path = Some (d, Some c) /\
    lookup (d ++ [c]) (root w) = Some n /\
    lookup (d ++ [new_name]) (root (rename_item w old_path new_name).1) = Some n.
Proof.
  intros Hnew. unfold rename_item, sys_rename.
  destruct (namei (root w) (cwd w) false old_path) as [[d1 [c1|]]|] eqn:Hold; try done.
  destruct (namei (root w) (cwd w) false
              (g_build_filename (g_path_get_dirname old_path) new_name))
    as [[d2 [c2|]]|] eqn:Hnp; try done.
  destruct (rename_paths _ _ _ _ _ _ _ _ Hnew Hold Hnp) as [-> Hd].
  destruct (lookup (d1 ++ [c1]) (root w)) as [n|] eqn:Hn; try done.
  destruct (lookup d1 (root w)) as [[| pm1 mt1 es1 |]|] eqn:Hd1; try done.
  destruct (lookup d2 (root w)) as [[| pm2 mt2 es2 |]|] eqn:Hd2; try done.
  destruct (bool_decide_reflect (d1 ++ [c1] = d2 ++ [new_name])) as [Heq|Hneq].
  - simpl. intros _. exists d1, c1, n. apply app_inj_tail in Heq as [-> ->]. done.
  - match goal with |- context [if ?b then _ else _] => destruct b eqn:Hchk end;
      simpl; [|done].
    intros _. exists d1, c1, n. split; [done|]. split; [done|].
    apply andb_true_iff in Hchk as [Hchk _]. apply andb_true_iff in Hchk as [Hchk _].
    apply andb_true_iff in Hchk as [[[_ Hslash]%andb_true_iff _]%andb_true_iff Hpre].
    destruct Hd as [->|[Hend Hd]].
    + eapply lookup_insert_new. by rewrite lookup_update_dir_at, Hd1.
    + exfalso. unfold slash_ok in Hslash. rewrite Hend in Hslash. simpl in Hslash.
      rewrite (Hd n eq_refl Hslash), Hslash in Hpre.
      unfold is_prefix in Hpre. rewrite bool_decide_eq_true_2 in Hpre; [done|].
      by apply prefix_app_r.
Qed.

Lemma rename_stays_in_parent_witness :
  exists d c n,
    namei (root sample_world) (cwd sample_world) false "/home/user/root/a.txt"
      = Some (d, Some c) /\
    lookup (d ++ [c]) (root sample_world) = Some n /\
    lookup (d ++ ["notes.txt"])
      (root (rename_item sample_world "/home/user/root/a.txt" "notes.txt").1) = Some n.
Proof.
  apply (rename_stays_in_parent sample_world "/home/user/root/a.txt" "notes.txt");
    reflexivity.
Defined.


(** ** Reading a tree through path names *)

Lemma S_ISDIR_stat_of n : S_ISDIR (st_mode (stat_of n)) = is_dir_node n.
Proof.
  unfold S_ISDIR. destruct n as [pm mt data|pm mt ents|t]; simpl.
  - rewrite Z.land_lor_distr_l, <- Z.land_assoc. change (Z.land ALLPERMS S_IFMT) with 0.
    by rewrite Z.land_0_r.
  - rewrite Z.land_lor_distr_l, <- Z.land_assoc. change (Z.land ALLPERMS S_IFMT) with 0.
    by rewrite Z.land_0_r.
  - done.
Qed.

Lemma rstrip_no_sep c : has_sep c = false -> rstrip c = c.
Proof.
  induction c as [|x c IH]; simpl; [done|].
  intros [-> Hc]%orb_false_iff. simpl. by rewrite IH.
Qed.

Lemma trailing_seps_no_sep c : has_sep c = false -> trailing_seps c = "".
Proof.
  induction c as [|x c IH]; simpl; [done|].
  intros [-> Hc]%orb_false_iff. simpl. by apply IH.
Qed.

Lemma ends_with_sep_build a c : valid_name c = true -> ends_with_sep (g_build_filename a c) = false.
Proof.
  intros Hc. pose proof (valid_name_inv c Hc) as (Hne & Hsep & _).
  rewrite g_build_filename_eq.
  destruct (String.eqb a "").
  { by apply (ends_with_sep_app_name "" c). }
  rewrite (proj2 (String.eqb_neq _ _) Hne).
  rewrite (skip_seps_no_sep c), (rstrip_no_sep c), (trailing_seps_no_sep c), append_nil_r by done.
  rewrite <- !append_assoc. by apply ends_with_sep_app_name.
Qed.

Lemma namei_start w follow path :
  path <> "" -> fits path ->
  namei (root w) (cwd w) follow path =
    walk MAXSYMLINKS (root w) follow (start_dir w path) (split_path path).
Proof. intros H Hfit. by apply namei_walk. Qed.

Lemma dir_of_loc r l pm mt ents :
  lookup (loc_path l) r = Some (Dir pm mt ents) -> dir_of r l = Some (loc_path l).
Proof. destruct l as [d [c|]]; simpl; [|done]. by intros ->. Qed.

Lemma may_search_dir r p pm mt ents :
  lookup p r = Some (Dir pm mt ents) -> may_search r p = searchable pm.
Proof. unfold may_search. by intros ->. Qed.

(** A child of a directory reached by [path] is reached by [path/c]. *)
Lemma resolves_child w path p pm mt ents c m :
  resolves w path p ->
  lookup p (root w) = Some (Dir pm mt ents) ->
  searchable pm = true ->
  valid_name c = true ->
  ents_lookup c ents = Some m ->
  (forall t, m <> Symlink t) ->
  resolves w (g_build_filename path c) (p ++ [c]) /\
  (fits (g_build_filename path c) ->
   stat_at w true (g_build_filename path c) = Some (stat_of m)).
Proof.
  intros (Hne & l & Hwalk & <-) Hp Hx Hc Hm Hnl.
  assert (Hlk : lookup (loc_path l ++ [c]) (root w) = Some m).
  { by rewrite lookup_snoc, Hp. }
  assert (Hw : walk MAXSYMLINKS (root w) true (start_dir w (g_build_filename path c))
                 (split_path (g_build_filename path c)) = Some (loc_path l, Some c)).
  { unfold start_dir in *.
    rewrite is_absolute_build, (proj2 (String.eqb_neq _ _) Hne).
    rewrite split_path_build, (split_path_name c) by done.
    apply (walk_snoc_follow _ _ _ _ _ l (loc_path l)); [done | by eapply dir_of_loc | |].
    - apply step_name; [done|]. by rewrite (may_search_dir _ _ _ _ _ Hp).
    - cbn [link_at]. rewrite Hlk. destruct m as [| |t]; try done. by destruct (Hnl t). }
  split.
  - split; [by apply g_build_filename_nonempty|]. by exists (loc_path l, Some c).
  - intros Hfit. unfold stat_at. rewrite orb_true_l.
    rewrite namei_start by (by try apply g_build_filename_nonempty). rewrite Hw.
    unfold loc_node. simpl. rewrite Hlk.
    unfold slash_ok. by rewrite ends_with_sep_build.
Qed.

Lemma sys_opendir_resolves w path p n :
  resolves w path p ->
  fits path ->
  lookup p (root w) = Some n ->
  same_fs w (sys_opendir w path).1 /\
  (sys_opendir w path).2 =
    match n with
    | Dir pm _ ents => if readable pm then Some ("." :: ".." :: map fst ents) else None
    | _ => None
    end.
Proof.
  intros (Hne & l & Hwalk & <-) Hfit Hn. unfold sys_opendir. split; [apply same_fs_log|].
  simpl. rewrite namei_start, Hwalk by done. unfold loc_node. rewrite Hn. by destruct n.
Qed.

Lemma resolves_same_fs w w' path p : same_fs w w' -> resolves w path p -> resolves w' path p.
Proof.
  intros (Hr & Hc & _) (Hne & l & Hwalk & Hp). split; [done|]. exists l.
  unfold start_dir in *. by rewrite <- Hr, <- Hc.
Qed.


(** ** More on listing a directory *)

Lemma log_trace e w : trace (log e w) = trace w ++ [e].
Proof. done. Qed.

Lemma info_of_path strftime_localtime strmode w path d :
  FileInfo.path (info_of strftime_localtime strmode w path d) = g_build_filename path d.
Proof. unfold info_of. by destruct (stat_at w true _). Qed.

(** What the loop of the listing adds to the trace: one [stat] for each
    name other than "." and "..". *)
Lemma listing_fold_trace strftime_localtime strmode path names w list :
  exists evs,
    trace (fold_left (listing_step strftime_localtime strmode path) names (w, list)).1
      = trace w ++ evs /\
    map ev_call evs = map (fun _ => SysStat) (real_names names) /\
    map ev_path evs = map (g_build_filename path) (real_names names).
Proof.
  revert w list. induction names as [|d names IH]; intros w list; cbn [fold_left].
  - exists []. by rewrite app_nil_r.
  - unfold listing_step at 2. unfold real_names. cbn [List.filter].
    destruct (is_dot_or_dotdot d); cbn [negb].
    + apply IH.
    + rewrite sys_stat_spec.
      match goal with
      | |- context [fold_left _ names (?w1, ?l1)] =>
          destruct (IH w1 l1) as (evs & Ht & Hc & Hp)
      end.
      eexists (_ :: evs). rewrite Ht, log_trace, <- app_assoc. split; [reflexivity|].
      cbn [map ev_call ev_path]. split; by f_equal.
Qed.

(** X1: listing a directory changes nothing in the file system, and the
    calls it makes that take a path name are one [opendir] of the
    directory and then one [stat] for each entry it returns, on the path
    of that entry, in that order. *)
Theorem listing_only_reads strftime_localtime strmode w path :
  let res := get_directory_contents strftime_localtime strmode w path in
  same_fs w res.1 /\
  map ev_call (new_events w res.1) = SysOpendir :: map (fun _ => SysStat) res.2 /\
  map ev_path (new_events w res.1) = path :: map FileInfo.path res.2.
Proof.
  unfold get_directory_contents, sys_opendir. cbv zeta.
  set (r := match namei (root w) (cwd w) true path with Some _ => _ | None => _ end).
  set (w0 := log _ w).
  destruct r as [names|].
  - destruct (listing_fold_spec strftime_localtime strmode path names w0 [])
      as (w' & Hfs & Hfold).
    destruct (listing_fold_trace strftime_localtime strmode path names w0 [])
      as (evs & Ht & Hc & Hp).
    rewrite Hfold in *. cbn [fst snd app] in *.
    split; [by eapply same_fs_trans; [apply same_fs_log|]|].
    rewrite (new_events_app w w' (Ev SysOpendir path (observe w path) 0 :: evs)).
    2:{ rewrite Ht. unfold w0. rewrite log_trace, <- app_assoc. done. }
    cbn [map ev_call ev_path]. rewrite Hc, Hp, !map_map. split; f_equal.
    apply map_ext. intros d. by rewrite info_of_path.
  - cbn [fst snd]. split; [apply same_fs_log|].
    rewrite (new_events_app w w0 [Ev SysOpendir path (observe w path) (-1)]) by done.
    done.
Qed.

Lemma real_names_valid names :
  Forall (fun c => valid_name c = true) names -> real_names names = names.
Proof.
  induction 1 as [|c names Hc _ IH]; [done|].
  unfold real_names in *. cbn [List.filter].
  apply valid_name_inv in Hc as (_ & _ & H1 & H2).
  unfold is_dot_or_dotdot at 1. rewrite H1, H2. cbn [orb negb]. f_equal. exact IH.
Qed.

Lemma ents_lookup_nodup c m es :
  NoDup (map fst es) -> (c, m) ∈ es -> ents_lookup c es = Some m.
Proof.
  induction es as [|[k n] es IH]; cbn [map fst ents_lookup]; intros Hnd Hin.
  - by apply elem_of_nil in Hin.
  - apply NoDup_cons in Hnd as [Hk Hnd]. apply elem_of_cons in Hin as [[= <- <-]|Hin].
    + by rewrite String.eqb_refl.
    + destruct (String.eqb_spec k c) as [->|_]; [|by apply IH].
      destruct Hk. apply list_elem_of_fmap. by exists (c, m).
Qed.

(** The listing of a directory whose entries have valid names: a record
    for each entry, in order. *)
Lemma listing_names strftime_localtime strmode w path p pm mt ents :
  resolves w path p ->
  fits path ->
  lookup p (root w) = Some (Dir pm mt ents) ->
  readable pm = true ->
  Forall (fun e => valid_name e.1 = true) ents ->
  (get_directory_contents strftime_localtime strmode w path).2
    = map (info_of strftime_localtime strmode w path) (map fst ents).
Proof.
  intros Hres Hfit Hp Hr Hval. rewrite get_directory_contents_spec.
  destruct (sys_opendir_resolves w path p _ Hres Hfit Hp) as [_ ->]. rewrite Hr.
  change (real_names ("." :: ".." :: map fst ents)) with (real_names (map fst ents)).
  by rewrite real_names_valid by (by apply Forall_fmap).
Qed.

(** The record of an entry that is not a symbolic link. *)
Lemma info_of_entry strftime_localtime strmode w path p pm mt ents c m :
  resolves w path p ->
  lookup p (root w) = Some (Dir pm mt ents) ->
  searchable pm = true ->
  valid_name c = true ->
  ents_lookup c ents = Some m ->
  is_link m = false ->
  fits (g_build_filename path c) ->
  info_of strftime_localtime strmode w path c
  = row_of (decimal_point w) strftime_localtime strmode path (c, m).
Proof.
  intros Hres Hp Hx Hc Hm Hnl Hfit.
  destruct (resolves_child w path p pm mt ents c m Hres Hp Hx Hc Hm) as [_ Hst].
  { intros t ->. discriminate. }
  unfold info_of, row_of. cbn [fst snd]. by rewrite (Hst Hfit), S_ISDIR_stat_of.
Qed.

(** X2: the listing of a directory is complete and accurate: when [path]
    names a directory that the process can read and search, whose entries
    have distinct valid names and none of them is a symbolic link, and the
    joined paths are short enough, the listing has one record for each
    entry, in the order in which the directory is read, with the name, the
    joined path, the kind, the size (in the locale of the process), the
    time and the mode of that entry. *)
Theorem listing_reports_directory strftime_localtime strmode w path p pm mt ents :
  resolves w path p ->
  fits path ->
  lookup p (root w) = Some (Dir pm mt ents) ->
  readable pm = true ->
  searchable pm = true ->
  Forall (fun e => valid_name e.1 = true) ents ->
  NoDup (map fst ents) ->
  Forall (fun e => is_link e.2 = false) ents ->
  Forall (fun e => fits (g_build_filename path e.1)) ents ->
  (get_directory_contents strftime_localtime strmode w path).2
    = map (row_of (decimal_point w) strftime_localtime strmode path) ents.
Proof.
  intros Hres Hfit Hp Hr Hx Hval Hnd Hnl Hfits.
  rewrite (listing_names _ _ w path p pm mt ents Hres Hfit Hp Hr Hval), map_map.
  apply map_ext_in. intros [c m] Hin%list_elem_of_In.
  pose proof (proj1 (Forall_forall _ _) Hval _ Hin) as Hc.
  pose proof (proj1 (Forall_forall _ _) Hnl _ Hin) as Hm.
  pose proof (proj1 (Forall_forall _ _) Hfits _ Hin) as Hf. cbn [fst snd] in *.
  apply (info_of_entry _ _ w path p pm mt ents c m Hres Hp Hx Hc); [|exact Hm|exact Hf].
  by apply ents_lookup_nodup.
Qed.

Lemma listing_reports_directory_witness :
  (get_directory_contents no_time no_time sample_world "proj").2
    = map (row_of "." no_time no_time "proj")
        [("ro", Dir 0x16D 0 [("f", File 0x1A4 0 (bytes "x"))]);
         ("g", File 0x1A4 0 (bytes "y"))].
Proof.
  apply (listing_reports_directory no_time no_time sample_world "proj"
           ["home"; "user"; "proj"] 0x1ED 0).
  - split; [done|]. eexists. split; [vm_compute; reflexivity | reflexivity].
  - reflexivity.
  - reflexivity.
  - reflexivity.
  - reflexivity.
  - repeat constructor.
  - apply (bool_decide_unpack _). vm_compute. reflexivity.
  - repeat constructor.
  - repeat constructor.
Defined.


(** ** Creating an entry in a directory *)

Lemma resolves_dir_of w a p pm mt es l :
  resolves w a p ->
  lookup p (root w) = Some (Dir pm mt es) ->
  walk MAXSYMLINKS (root w) true (if is_absolute a then [] else cwd w) (split_path a) = Some l ->
  dir_of (root w) l = Some p.
Proof.
  intros (Hne & l' & Hwalk & <-) Hp Hw. unfold start_dir in Hwalk.
  rewrite Hw in Hwalk. injection Hwalk as ->. by eapply dir_of_loc.
Qed.

Lemma namei_build_child w a p pm mt es c :
  resolves w a p ->
  lookup p (root w) = Some (Dir pm mt es) ->
  searchable pm = true ->
  valid_name c = true ->
  fits (g_build_filename a c) ->
  namei (root w) (cwd w) false (g_build_filename a c) = Some (p, Some c).
Proof.
  intros Hres Hp Hx Hc Hfit. pose proof Hres as (Hne & l & Hwalk & <-).
  apply (namei_snoc_intro _ _ _ _ l); try done.
  - by eapply dir_of_loc.
  - by rewrite (may_search_dir _ _ _ _ _ Hp).
Qed.

Lemma namei_build_inv w a p pm mt es c l :
  resolves w a p ->
  lookup p (root w) = Some (Dir pm mt es) ->
  valid_name c = true ->
  namei (root w) (cwd w) false (g_build_filename a c) = Some l ->
  l = (p, Some c) /\ searchable pm = true.
Proof.
  intros Hres Hp Hc Hn. pose proof Hres as (Hne & _).
  apply namei_snoc in Hn as (l0 & d & Hw & Hd & -> & Hs); [|done..].
  rewrite (resolves_dir_of _ _ _ _ _ _ _ Hres Hp Hw) in Hd. injection Hd as <-.
  by rewrite (may_search_dir _ _ _ _ _ Hp) in Hs.
Qed.

Lemma only_at_insert d c n r : only_at (d ++ [c]) r (update_dir d (ents_insert c n) r).
Proof.
  apply only_at_entry. intros es c' Hne. rewrite ents_lookup_insert.
  by rewrite (proj2 (String.eqb_neq _ _) Hne).
Qed.

Lemma beside_insert d c n r : beside (d ++ [c]) r (update_dir d (ents_insert c n) r).
Proof.
  apply beside_entry. intros es c' Hne. rewrite ents_lookup_insert.
  by rewrite (proj2 (String.eqb_neq _ _) Hne).
Qed.

Lemma entries_insert_fresh r d c n pm mt es :
  lookup d r = Some (Dir pm mt es) ->
  ents_lookup c es = None ->
  lookup d (update_dir d (ents_insert c n) r) = Some (Dir pm mt (es ++ [(c, n)])).
Proof.
  intros Hd Hc. rewrite lookup_update_dir_at, Hd. cbn. by rewrite ents_insert_fresh.
Qed.

(** X3: a new folder.  When [parent_dir] names a directory and [dir_name]
    is a name, [create_directory_item] fails if the directory cannot be
    written or searched, if it has an entry of that name, or if the name
    is longer than NAME_MAX.  When it succeeds the name was free, the new
    entry is an empty directory stamped with the current time, its mode is
    0755 less the bits of the umask (with the set-group-ID bit of the
    directory it is in), and nothing changes beside the new entry. *)
Theorem new_folder_spec w parent_dir dir_name p pm mt es :
  resolves w parent_dir p ->
  lookup p (root w) = Some (Dir pm mt es) ->
  valid_name dir_name = true ->
  let res := create_directory_item w parent_dir dir_name in
  (writable pm = false \/ searchable pm = false \/ name_fits dir_name = false \/
   ents_lookup dir_name es <> None -> res.2 = false) /\
  (res.2 = true ->
   lookup (p ++ [dir_name]) (root w) = None /\
   lookup (p ++ [dir_name]) (root res.1)
     = Some (Dir (mkdir_mode w pm 0x1ED) (clock w) []) /\
   only_at (p ++ [dir_name]) (root w) (root res.1) /\
   beside (p ++ [dir_name]) (root w) (root res.1)).
Proof.
  intros Hres Hp Hc. unfold create_directory_item, sys_mkdir.
  destruct (namei (root w) (cwd w) false (g_build_filename parent_dir dir_name))
    as [l|] eqn:Hn; [|by cbn].
  destruct (namei_build_inv _ _ _ _ _ _ _ _ Hres Hp Hc Hn) as [-> Hx].
  rewrite (lookup_snoc_dir _ _ _ _ _ _ Hp), Hp.
  destruct (ents_lookup dir_name es) as [m|] eqn:He; [by cbn|].
  destruct (writable pm) eqn:Hw; [|by cbn].
  destruct (name_fits dir_name) eqn:Hf; [|by cbn].
  cbn [andb fst snd root set_root log]. split.
  - intros [H|[H|[H|H]]]; congruence.
  - intros _. split; [reflexivity|].
    split; [by eapply lookup_insert_new|]. split; [apply only_at_insert | apply beside_insert].
Qed.

Lemma new_folder_spec_witness :
  let res := create_directory_item sample_world "/home/user/root" "docs" in
  (writable 0x1ED = false \/ searchable 0x1ED = false \/ name_fits "docs" = false \/
   ents_lookup "docs"
     [("a.txt", File 0x1A4 0 (bytes "hello"));
      ("sub", Dir 0x1ED 0 [("b.txt", File 0x1A4 0 (bytes "world"))])] <> None ->
   res.2 = false) /\
  (res.2 = true ->
   lookup (["home"; "user"; "root"] ++ ["docs"]) (root sample_world) = None /\
   lookup (["home"; "user"; "root"] ++ ["docs"]) (root res.1)
     = Some (Dir (mkdir_mode sample_world 0x1ED 0x1ED) (clock sample_world) []) /\
   only_at (["home"; "user"; "root"] ++ ["docs"]) (root sample_world) (root res.1) /\
   beside (["home"; "user"; "root"] ++ ["docs"]) (root sample_world) (root res.1)).
Proof.
  apply (new_folder_spec sample_world "/home/user/root" "docs" ["home"; "user"; "root"]
           0x1ED 0
           [("a.txt", File 0x1A4 0 (bytes "hello"));
            ("sub", Dir 0x1ED 0 [("b.txt", File 0x1A4 0 (bytes "world"))])]).
  - split; [done|]. eexists. split; [vm_compute; reflexivity | reflexivity].
  - reflexivity.
  - reflexivity.
Defined.

(** X4: a new file.  When [parent_dir] names a directory and [file_name]
    is a name, [create_file_item] fails if the directory cannot be written
    or searched, if it has an entry of that name, or if the name is longer
    than NAME_MAX.  When it succeeds the name was free, the new entry is
    an empty regular file stamped with the current time, its mode is 0644
    less the bits of the umask, and nothing changes beside the new
    entry. *)
Theorem new_file_spec w parent_dir file_name p pm mt es :
  resolves w parent_dir p ->
  lookup p (root w) = Some (Dir pm mt es) ->
  valid_name file_name = true ->
  let res := create_file_item w parent_dir file_name in
  (writable pm = false \/ searchable pm = false \/ name_fits file_name = false \/
   ents_lookup file_name es <> None -> res.2 = false) /\
  (res.2 = true ->
   lookup (p ++ [file_name]) (root w) = None /\
   lookup (p ++ [file_name]) (root res.1)
     = Some (File (creat_mode w 0x1A4) (clock w) []) /\
   only_at (p ++ [file_name]) (root w) (root res.1) /\
   beside (p ++ [file_name]) (root w) (root res.1)).
Proof.
  intros Hres Hp Hc. cbv zeta. rewrite create_file_item_eq. cbv zeta.
  rewrite (ends_with_sep_build _ _ Hc).
  destruct (namei (root w) (cwd w) false (g_build_filename parent_dir file_name))
    as [l|] eqn:Hn; [|by cbn].
  destruct (namei_build_inv _ _ _ _ _ _ _ _ Hres Hp Hc Hn) as [-> Hx].
  rewrite (lookup_snoc_dir _ _ _ _ _ _ Hp), Hp.
  destruct (ents_lookup file_name es) as [m|] eqn:He; [by cbn|].
  destruct (writable pm) eqn:Hw; [|by cbn].
  destruct (name_fits file_name) eqn:Hf; [|by cbn].
  cbn [andb negb fst snd root set_root log]. split.
  - intros [H|[H|[H|H]]]; congruence.
  - intros _. split; [reflexivity|].
    split; [by eapply lookup_insert_new|]. split; [apply only_at_insert | apply beside_insert].
Qed.

Lemma new_file_spec_witness :
  let res := create_file_item sample_world "dst" "n.txt" in
  (writable 0x1ED = false \/ searchable 0x1ED = false \/ name_fits "n.txt" = false \/
   ents_lookup "n.txt" [] <> None -> res.2 = false) /\
  (res.2 = true ->
   lookup (["home"; "user"; "dst"] ++ ["n.txt"]) (root sample_world) = None /\
   lookup (["home"; "user"; "dst"] ++ ["n.txt"]) (root res.1)
     = Some (File (creat_mode sample_world 0x1A4) (clock sample_world) []) /\
   only_at (["home"; "user"; "dst"] ++ ["n.txt"]) (root sample_world) (root res.1) /\
   beside (["home"; "user"; "dst"] ++ ["n.txt"]) (root sample_world) (root res.1)).
Proof.
  apply (new_file_spec sample_world "dst" "n.txt" ["home"; "user"; "dst"] 0x1ED 0 []).
  - split; [done|]. eexists. split; [vm_compute; reflexivity | reflexivity].
  - reflexivity.
  - reflexivity.
Defined.


(** ** The last name of a path *)

Lemma has_sep_app a b : has_sep (a +:+ b) = has_sep a || has_sep b.
Proof. induction a as [|x a IH]; simpl; [done|]. by rewrite IH, orb_assoc. Qed.

Lemma split_aux_components cur s :
  has_sep cur = false ->
  Forall (fun c => c <> "" /\ has_sep c = false) (split_aux cur s).
Proof.
  revert cur. induction s as [|x s IH]; intros cur Hcur; simpl.
  - unfold flush. destruct (String.eqb_spec cur ""); by repeat constructor.
  - destruct (is_sep x) eqn:Hx.
    + apply Forall_app. split; [|by apply IH].
      unfold flush. destruct (String.eqb_spec cur ""); by repeat constructor.
    + apply IH. rewrite has_sep_app, Hcur. simpl. by rewrite Hx.
Qed.

Lemma step_some_name r cur c0 d c :
  step r cur c0 = Some (d, Some c) ->
  d = cur /\ c = c0 /\ String.eqb c0 "." = false /\ String.eqb c0 ".." = false.
Proof.
  unfold step. destruct (negb (may_search r cur)); [discriminate|].
  destruct (String.eqb c0 "."); [discriminate|]. destruct (String.eqb c0 ".."); [discriminate|].
  by intros [= <- <-].
Qed.

(** The name a path resolves to, its last link not followed, is the last
    component of the path, which [g_path_get_basename] returns. *)
Lemma namei_name r cwd0 s d c :
  namei r cwd0 false s = Some (d, Some c) ->
  valid_name c = true /\ g_path_get_basename s = c /\ last (split_path s) = Some c.
Proof.
  intros (Hne & _ & Hw)%namei_some. revert Hw. unfold g_path_get_basename.
  rewrite (proj2 (String.eqb_neq _ _) Hne).
  pose proof (split_aux_components "" s eq_refl) as Hcomps. fold (split_path s) in Hcomps.
  destruct (split_path s) as [|c0 comps] using rev_ind.
  - rewrite walk_nil. discriminate.
  - clear IHcomps. rewrite walk_snoc, last_snoc.
    destruct (walk MAXSYMLINKS r true _ comps) as [l|]; [|discriminate].
    destruct (dir_of r l) as [d'|]; [|discriminate].
    intros (-> & -> & H1 & H2)%step_some_name.
    apply Forall_app in Hcomps as [_ Hc]. apply Forall_singleton in Hc as [Hne' Hsep].
    split; [|done]. unfold valid_name.
    by rewrite (proj2 (String.eqb_neq _ _) Hne'), Hsep, H1, H2.
Qed.

Lemma dir_of_some r l d : dir_of r l = Some d -> d = loc_path l.
Proof.
  destruct l as [d0 [c|]]; simpl; [|by intros [= <-]].
  destruct (lookup (d0 ++ [c]) r) as [[| |]|]; by intros [= <-].
Qed.

(** Where a path [dir/name] leads when [dir] resolves. *)
Lemma namei_build_resolves w a p c d2 c2 :
  resolves w a p ->
  valid_name c = true ->
  namei (root w) (cwd w) false (g_build_filename a c) = Some (d2, Some c2) ->
  d2 = p /\ c2 = c.
Proof.
  intros (Hne & l & Hwalk & <-) Hc Hn.
  apply namei_snoc in Hn as (l0 & d & Hw & Hd & [= -> ->] & _); [|done..].
  unfold start_dir in Hwalk. rewrite Hwalk in Hw. injection Hw as <-.
  by rewrite (dir_of_some _ _ _ Hd).
Qed.

(** ** [rename]: what a successful call does, and what a failed one does not *)

Lemma sys_rename_fail w a b :
  (sys_rename w a b).2 <> 0 -> same_fs w (sys_rename w a b).1.
Proof.
  unfold sys_rename.
  destruct (namei (root w) (cwd w) false a) as [[d1 [c1|]]|]; [|by intros _..].
  destruct (namei (root w) (cwd w) false b) as [[d2 [c2|]]|]; [|by intros _..].
  destruct (lookup (d1 ++ [c1]) (root w)) as [n|]; [|by intros _].
  destruct (lookup d1 (root w)) as [[| pm1 mt1 es1 |]|]; [by intros _| |by intros _..].
  destruct (lookup d2 (root w)) as [[| pm2 mt2 es2 |]|]; [by intros _| |by intros _..].
  destruct (bool_decide _); [by intros _|].
  destruct (_ && _); [|by intros _]. cbn [snd]. intros H. by destruct H.
Qed.

(** The tree after a successful [rename] of the entry [c1] of [d1] to the
    name [c2] of [d2]. *)
Lemma sys_rename_ok w a b d1 c1 d2 c2 :
  namei (root w) (cwd w) false a = Some (d1, Some c1) ->
  namei (root w) (cwd w) false b = Some (d2, Some c2) ->
  (sys_rename w a b).2 = 0 ->
  exists n pm1 mt1 es1 pm2 mt2 es2,
    lookup (d1 ++ [c1]) (root w) = Some n /\
    lookup d1 (root w) = Some (Dir pm1 mt1 es1) /\
    lookup d2 (root w) = Some (Dir pm2 mt2 es2) /\
    ((d1 ++ [c1] = d2 ++ [c2] /\ root (sys_rename w a b).1 = root w) \/
     (d1 ++ [c1] <> d2 ++ [c2] /\
      (is_dir_node n = true -> ~ (d1 ++ [c1]) `prefix_of` (d2 ++ [c2])) /\
      (match lookup (d2 ++ [c2]) (root w) with
       | None => True
       | Some (Dir _ _ ents) => ents = [] /\ is_dir_node n = true
       | Some _ => is_dir_node n = false
       end) /\
      root (sys_rename w a b).1
        = update_dir d2 (ents_insert c2 n) (update_dir d1 (ents_delete c1) (root w)))).
Proof.
  intros Ha Hb. unfold sys_rename. rewrite Ha, Hb. clear Ha Hb.
  destruct (lookup (d1 ++ [c1]) (root w)) as [n|]; [|discriminate].
  destruct (lookup d1 (root w)) as [[| pm1 mt1 es1 |]|]; [discriminate| |discriminate..].
  destruct (lookup d2 (root w)) as [[| pm2 mt2 es2 |]|]; [discriminate| |discriminate..].
  intros Hret. exists n, pm1, mt1, es1, pm2, mt2, es2. do 3 (split; [reflexivity|]).
  revert Hret.
  destruct (bool_decide_reflect (d1 ++ [c1] = d2 ++ [c2])) as [Heq|Hneq].
  { intros _. left. by split. }
  match goal with |- context [if ?b then _ else _] => destruct b eqn:Hchk end;
    [|discriminate].
  intros _. right. split; [assumption|].
  apply andb_true_iff in Hchk as [Hchk _]. apply andb_true_iff in Hchk as [Hchk _].
  apply andb_true_iff in Hchk as [[_ Htgt]%andb_true_iff Hpre]. cbn [fst snd].
  split; [|split; [|reflexivity]].
  - intros Hdir Hp. rewrite Hdir in Hpre. unfold is_prefix in Hpre.
    by rewrite (bool_decide_eq_true_2 _ Hp) in Hpre.
  - destruct (lookup (d2 ++ [c2]) (root w)) as [[| ? ? ents |]|]; [| |by destruct n|done].
    + by destruct n.
    + destruct n; try discriminate. split; [|done]. by apply bool_decide_eq_true in Htgt.
Qed.

Lemma sys_mkdir_fail w path mode :
  (sys_mkdir w path mode).2 <> 0 -> same_fs w (sys_mkdir w path mode).1.
Proof.
  unfold sys_mkdir.
  destruct (namei (root w) (cwd w) false path) as [[d [c|]]|]; [|by intros _..].
  destruct (lookup (d ++ [c]) (root w)); [by intros _|].
  destruct (lookup d (root w)) as [[| pm mt es |]|]; [by intros _| |by intros _..].
  destruct (_ && _); [|by intros _]. cbn [snd]. intros H. by destruct H.
Qed.

Lemma eqb_false_ne (z : Z) : (z =? 0) = false -> z <> 0.
Proof. by intros H%Z.eqb_neq. Qed.

Lemma create_file_item_false w parent_dir file_name :
  (create_file_item w parent_dir file_name).2 = false ->
  same_fs w (create_file_item w parent_dir file_name).1.
Proof.
  rewrite create_file_item_eq. cbv zeta.
  destruct (namei (root w) (cwd w) _ (g_build_filename parent_dir file_name))
    as [[d [c|]]|]; [|by intros _..].
  destruct (lookup (d ++ [c]) (root w)); [by intros _|].
  destruct (lookup d (root w)) as [[| pm mt es |]|]; [by intros _| |by intros _..].
  destruct (_ && _); [discriminate|by intros _].
Qed.

(** X5: the operations made of one system call are all or nothing: when
    creating a folder or a file, renaming or moving fails, the tree, the
    working directory, the free space and the clock are as they were. *)
Theorem failed_call_changes_nothing :
  (forall w parent_dir dir_name,
     (create_directory_item w parent_dir dir_name).2 = false ->
     same_fs w (create_directory_item w parent_dir dir_name).1) /\
  (forall w parent_dir file_name,
     (create_file_item w parent_dir file_name).2 = false ->
     same_fs w (create_file_item w parent_dir file_name).1) /\
  (forall w old_path new_name,
     (rename_item w old_path new_name).2 = false ->
     same_fs w (rename_item w old_path new_name).1) /\
  (forall w src_path dest_dir,
     (move_item w src_path dest_dir).2 = false ->
     same_fs w (move_item w src_path dest_dir).1).
Proof.
  split; [|split; [|split]].
  - intros w a b. unfold create_directory_item.
    pose proof (sys_mkdir_fail w (g_build_filename a b) 0x1ED) as H.
    destruct (sys_mkdir w (g_build_filename a b) 0x1ED) as [w' ret]. cbn [fst snd] in *.
    intros Hr. by apply H, eqb_false_ne.
  - intros w a b. apply create_file_item_false.
  - intros w a b. unfold rename_item.
    pose proof (sys_rename_fail w a (g_build_filename (g_path_get_dirname a) b)) as H.
    destruct (sys_rename w a _) as [w' ret]. cbn [fst snd] in *.
    intros Hr. by apply H, eqb_false_ne.
  - intros w a b. unfold move_item.
    pose proof (sys_rename_fail w a (g_build_filename b (g_path_get_basename a))) as H.
    destruct (sys_rename w a _) as [w' ret]. cbn [fst snd] in *.
    intros Hr. by apply H, eqb_false_ne.
Qed.

Lemma failed_call_changes_nothing_witness :
  same_fs sample_world (create_directory_item sample_world "proj/ro" "d").1 /\
  same_fs sample_world (create_file_item sample_world "taken" "e").1 /\
  same_fs sample_world (rename_item sample_world "proj/ro/f" "h").1 /\
  same_fs sample_world (move_item sample_world "root" "root/sub").1.
Proof.
  destruct failed_call_changes_nothing as (H1 & H2 & H3 & H4).
  split; [|split; [|split]].
  - apply H1. vm_compute. reflexivity.
  - apply H2. vm_compute. reflexivity.
  - apply H3. vm_compute. reflexivity.
  - apply H4. vm_compute. reflexivity.
Defined.

(** ** Moving an entry *)

(** Removing the entry [c] of [d] leaves every directory that is not at or
    below [d/c] a directory, with its mode and time. *)
Lemma lookup_delete_outside q d c r pm mt es :
  ~ (d ++ [c]) `prefix_of` q ->
  lookup q r = Some (Dir pm mt es) ->
  exists es', lookup q (update_dir d (ents_delete c) r) = Some (Dir pm mt es').
Proof.
  intros Hnp Hq. destruct (decide (q `prefix_of` d ++ [c])) as [Hpre|Hnpre].
  - apply prefix_snoc_inv in Hpre as [->|[s ->]]; [by destruct Hnp|].
    rewrite lookup_update_dir_above, Hq. destruct s; by eexists.
  - exists es. rewrite <- Hq. by apply only_at_delete.
Qed.

Lemma lookup_below_nondir p s r n :
  lookup p r = Some n -> is_dir_node n = false -> s <> [] -> lookup (p ++ s) r = None.
Proof.
  intros Hp Hn Hs. rewrite lookup_app, Hp. destruct s; [done|]. by destruct n.
Qed.

Lemma lookup_below_nonempty p s r m :
  lookup (p ++ s) r = Some m -> s <> [] ->
  exists pm mt ents, lookup p r = Some (Dir pm mt ents) /\ ents <> [].
Proof.
  rewrite lookup_app. destruct (lookup p r) as [n|]; [|done].
  destruct s as [|c s]; [done|]. intros H _. destruct n as [|pm mt ents|]; try done.
  exists pm, mt, ents. split; [done|]. intros ->. done.
Qed.

(** X6: moving.  When [move_item] succeeds, the node that [src_path]
    named (a final symbolic link not followed) is, unchanged and with all
    that is below it, the entry of the same name in the directory that
    [dest_dir] names; and unless that is the directory it was in, a
    directory with distinct names no longer has it. *)
Theorem move_item_moves w src_path dest_dir d1 c1 n p2 :
  namei (root w) (cwd w) false src_path = Some (d1, Some c1) ->
  lookup (d1 ++ [c1]) (root w) = Some n ->
  resolves w dest_dir p2 ->
  (move_item w src_path dest_dir).2 = true ->
  let w' := (move_item w src_path dest_dir).1 in
  lookup (p2 ++ [c1]) (root w') = Some n /\
  (forall pm mt es,
     lookup d1 (root w) = Some (Dir pm mt es) -> NoDup (map fst es) -> p2 <> d1 ->
     lookup (d1 ++ [c1]) (root w') = None).
Proof.
  intros Hsrc Hn Hdest. destruct (namei_name _ _ _ _ _ Hsrc) as (Hc1 & Hbase & _).
  unfold move_item. rewrite Hbase.
  pose proof (sys_rename_ok w src_path (g_build_filename dest_dir c1) d1 c1) as Hok.
  pose proof (fun d2 c2 => namei_build_resolves w dest_dir p2 c1 d2 c2 Hdest Hc1) as Hd2.
  unfold sys_rename in *. rewrite Hsrc in *.
  destruct (namei (root w) (cwd w) false (g_build_filename dest_dir c1))
    as [[d2 [c2|]]|]; [|discriminate..].
  destruct (Hd2 d2 c2 eq_refl) as [-> ->]. clear Hd2 Hdest Hsrc.
  specialize (Hok p2 c1 eq_refl eq_refl).
  destruct (match lookup (d1 ++ [c1]) (root w) with Some _ => _ | None => _ end)
    as [r' ret] eqn:Hcall.
  cbn [fst snd root log set_root] in *. intros Hret%Z.eqb_eq.
  destruct (Hok Hret) as (n' & pm1 & mt1 & es1 & pm2 & mt2 & es2 & Hn' & Hd1 & Hp2 & Hcase).
  clear Hok Hcall. rewrite Hn in Hn'. injection Hn' as <-.
  destruct Hcase as [[Heq ->]|(Hneq & Hpre & Htgt & ->)].
  { apply app_inj_tail in Heq as [-> _]. split; [done|]. intros pm mt es _ _ H. by destruct H. }
  assert (Hout : ~ (d1 ++ [c1]) `prefix_of` p2).
  { intros Hp. destruct (is_dir_node n) eqn:Hdir.
    - apply Hpre; [done|]. by apply prefix_app_r.
    - destruct Hp as [s ->]. destruct s as [|x s].
      + rewrite app_nil_r, Hn in Hp2. injection Hp2 as ->. done.
      + by rewrite (lookup_below_nondir _ (x :: s) _ n) in Hp2. }
  destruct (lookup_delete_outside p2 d1 c1 (root w) pm2 mt2 es2 Hout Hp2) as (es' & Hp2').
  split; [by eapply lookup_insert_new|].
  intros pm mt es Hd1' Hnd Hne. rewrite Hd1 in Hd1'. injection Hd1' as <- <- <-.
  assert (Hgone : lookup (d1 ++ [c1]) (update_dir d1 (ents_delete c1) (root w)) = None).
  { rewrite lookup_snoc, lookup_update_dir_at, Hd1. cbn.
    by apply ents_lookup_delete_nodup. }
  rewrite <- Hgone. apply only_at_insert.
  - intros Hp. apply prefix_snoc_inv in Hp as [Heq|[s ->]]; [by destruct Hneq|].
    rewrite <- !app_assoc in Hn.
    destruct (lookup_below_nonempty (p2 ++ [c1]) (s ++ [c1]) (root w) n)
      as (pm & mt & ents & Ht & Hents).
    { by rewrite <- !app_assoc. }
    { by destruct s. }
    rewrite Ht in Htgt. by destruct Htgt.
  - intros Hp. apply prefix_snoc_inv in Hp as [Heq|Hp]; [by destruct Hneq | by destruct Hout].
Qed.

Lemma move_item_moves_witness :
  let w' := (move_item sample_world "root/a.txt" "dst").1 in
  lookup (["home"; "user"; "dst"] ++ ["a.txt"]) (root w') = Some (File 0x1A4 0 (bytes "hello")) /\
  (forall pm mt es,
     lookup ["home"; "user"; "root"] (root sample_world) = Some (Dir pm mt es) ->
     NoDup (map fst es) -> ["home"; "user"; "dst"] <> ["home"; "user"; "root"] ->
     lookup (["home"; "user"; "root"] ++ ["a.txt"]) (root w') = None).
Proof.
  apply (move_item_moves sample_world "root/a.txt" "dst" ["home"; "user"; "root"] "a.txt"
           (File 0x1A4 0 (bytes "hello")) ["home"; "user"; "dst"]).
  - vm_compute. reflexivity.
  - reflexivity.
  - split; [done|]. eexists. split; [vm_compute; reflexivity | reflexivity].
  - vm_compute. reflexivity.
Defined.

(** ** Renaming onto a name that is taken *)

(** X7: renaming a file replaces what has the new name.  For an entry
    that is not a directory, in a directory with distinct names, and
    another name: [rename_item] fails if the directory cannot be written,
    if the new name is longer than NAME_MAX or if it carries a directory;
    when it succeeds, whether the new name was free or carried a file or a
    link, the new name has the renamed node, the old name is gone,
    whatever had the new name is lost, and the other entries are as they
    were. *)
Theorem rename_replaces_entry w old_path new_name d c pm mt es n :
  namei (root w) (cwd w) false old_path = Some (d, Some c) ->
  ends_with_sep old_path = false ->
  valid_name new_name = true ->
  c <> new_name ->
  lookup d (root w) = Some (Dir pm mt es) ->
  NoDup (map fst es) ->
  ents_lookup c es = Some n ->
  is_dir_node n = false ->
  let res := rename_item w old_path new_name in
  (writable pm = false \/ name_fits new_name = false \/
   (exists m, ents_lookup new_name es = Some m /\ is_dir_node m = true) ->
   res.2 = false) /\
  (res.2 = true ->
   lookup (d ++ [new_name]) (root res.1) = Some n /\
   lookup (d ++ [c]) (root res.1) = None /\
   (forall c', c' <> c -> c' <> new_name ->
               lookup (d ++ [c']) (root res.1) = lookup (d ++ [c']) (root w))).
Proof.
  intros Hold Hend Hnew Hne Hd Hnd Hn Hfile.
  unfold rename_item, sys_rename. rewrite Hold.
  destruct (namei (root w) (cwd w) false
              (g_build_filename (g_path_get_dirname old_path) new_name))
    as [[d2 [c2|]]|] eqn:Hnp; [|by cbn..].
  destruct (rename_paths _ _ _ _ _ _ _ _ Hnew Hold Hnp) as [-> [->|[Hend' _]]];
    [|congruence].
  rewrite !(lookup_snoc_dir _ _ _ _ _ _ Hd), Hn, Hd.
  rewrite bool_decide_eq_false_2 by (intros [_ [=]]%app_inj_tail; by destruct Hne).
  match goal with |- context [if ?b then _ else _] => destruct b eqn:Hchk end;
    [|by cbn].
  cbn [fst snd root log set_root Z.eqb].
  apply andb_true_iff in Hchk as [Hchk Hfit]. apply andb_true_iff in Hchk as [Hchk _].
  apply andb_true_iff in Hchk as [Hchk _]. apply andb_true_iff in Hchk as [Hchk Htgt].
  apply andb_true_iff in Hchk as [Hchk _]. apply andb_true_iff in Hchk as [Hw _].
  split.
  - intros [H|[H|(m & Hm & Hdir)]]; [congruence..|].
    rewrite Hm in Htgt. destruct m; try discriminate Hdir. by destruct n.
  - intros _. rewrite update_dir_compose.
    assert (Hd' : lookup d (update_dir d (fun es0 => ents_insert new_name n (ents_delete c es0))
                              (root w))
                  = Some (Dir pm mt (ents_insert new_name n (ents_delete c es)))).
    { by rewrite lookup_update_dir_at, Hd. }
    rewrite !(lookup_snoc_dir _ _ _ _ _ _ Hd'). clear Hd'.
    split; [|split].
    + by rewrite ents_lookup_insert, String.eqb_refl.
    + rewrite ents_lookup_insert, (proj2 (String.eqb_neq _ _) (not_eq_sym Hne)).
      by apply ents_lookup_delete_nodup.
    + intros c' H1 H2. rewrite (lookup_snoc_dir _ _ _ _ _ _ Hd).
      rewrite (lookup_snoc_dir _ d c' pm mt (ents_insert new_name n (ents_delete c es)))
        by (by rewrite lookup_update_dir_at, Hd).
      rewrite ents_lookup_insert, (proj2 (String.eqb_neq _ _) (not_eq_sym H2)).
      by apply ents_lookup_delete_ne.
Qed.

Lemma rename_replaces_entry_witness :
  let res := rename_item sample_world "/home/user/tmp/x" "cache" in
  (writable 0x1ED = false \/ name_fits "cache" = false \/
   (exists m, ents_lookup "cache"
                [("cache", Symlink "/srv"); ("x", File 0x1A4 0 (bytes "t"))] = Some m /\
              is_dir_node m = true) ->
   res.2 = false) /\
  (res.2 = true ->
   lookup (["home"; "user"; "tmp"] ++ ["cache"]) (root res.1)
     = Some (File 0x1A4 0 (bytes "t")) /\
   lookup (["home"; "user"; "tmp"] ++ ["x"]) (root res.1) = None /\
   (forall c', c' <> "x" -> c' <> "cache" ->
               lookup (["home"; "user"; "tmp"] ++ [c']) (root res.1)
               = lookup (["home"; "user"; "tmp"] ++ [c']) (root sample_world))).
Proof.
  apply (rename_replaces_entry sample_world "/home/user/tmp/x" "cache"
           ["home"; "user"; "tmp"] "x" 0x1ED 0
           [("cache", Symlink "/srv"); ("x", File 0x1A4 0 (bytes "t"))]).
  - vm_compute. reflexivity.
  - reflexivity.
  - reflexivity.
  - discriminate.
  - reflexivity.
  - apply (bool_decide_unpack _). vm_compute. reflexivity.
  - reflexivity.
  - reflexivity.
Defined.


(** ** Deleting a tree whose directories are writable *)

Lemma dirs_writable_dir pm mt ents :
  dirs_writable (Dir pm mt ents) = writable pm && dirs_writable_entries ents.
Proof.
  reflexivity.
Qed.

(** A removal in a writable directory succeeds, but for a directory that
    still has entries. *)
Lemma sys_remove_ok w fpath d c n pm mt es :
  at_node w fpath (d ++ [c]) ->
  fits fpath ->
  lookup (d ++ [c]) (root w) = Some n ->
  lookup d (root w) = Some (Dir pm mt es) ->
  writable pm = true ->
  (forall pm' mt' es', n = Dir pm' mt' es' -> es' = []) ->
  (sys_remove w fpath).2 = 0.
Proof.
  intros Hat Hfit Hn Hd Hw Hempty.
  destruct (namei_at_node _ _ _ Hat Hfit) as (d' & c' & [-> ->]%app_inj_tail & Hnamei).
  destruct Hat as (_ & Hend & _).
  unfold sys_remove. rewrite Hnamei, Hn, Hd, Hw. unfold slash_ok. rewrite Hend.
  destruct n as [| pm' mt' es' |]; [done | | done].
  by rewrite (Hempty pm' mt' es' eq_refl).
Qed.

Section DeleteOk.
Context (hops : nat).

Abbreviation walk_rm := (ftw_walk hops unlink_cb true true).

Lemma delete_children_ok fpath level p pm mt es :
Forall (fun e => forall fpath level w p d c pm mt es,
at_node w fpath p -> lookup p (root w) = Some e.2 -> wf_node e.2 = true ->
dirs_rx e.2 = true -> dirs_writable e.2 = true ->
Z.of_nat (String.length fpath + reach e.2) < PATH_MAX ->
p = d ++ [c] -> lookup d (root w) = Some (Dir pm mt es) -> writable pm = true ->
(walk_rm e.2 fpath level w).2 = 0) es ->
forall w,
at_node w fpath p ->
lookup p (root w) = Some (Dir pm mt es) ->
searchable pm = true ->
writable pm = true ->
wf_entries es = true ->
dirs_rx_entries es = true ->
dirs_writable_entries es = true ->
Z.of_nat (String.length fpath + reach_entries es) < PATH_MAX ->
(ftw_children walk_rm fpath level es w).2 = 0.
Proof.
induction 1 as [|[name m] es Hm Hes IH]; intros w Hat Hp Hx Hw Hwf Hrx Hdw Hfit; [done|].
cbn [snd] in Hm. apply wf_entries_cons in Hwf as (Hname & Hwfm & Hwfes).
cbn [dirs_writable_entries] in Hdw. apply andb_true_iff in Hdw as [Hdwm Hdwes].
cbn [dirs_rx_entries] in Hrx. apply andb_true_iff in Hrx as [Hrxm Hrxes].
cbn [reach_entries] in Hfit.
assert (Hatm : at_node w (ftw_join fpath name) (p ++ [name])).
{ by eapply at_node_child. }
assert (Hlm : lookup (p ++ [name]) (root w) = Some m).
{ rewrite lookup_snoc, Hp. simpl. by rewrite String.eqb_refl. }
assert (Hlen : (String.length (ftw_join fpath name) =
          String.length fpath + S (String.length name))%nat).
{ destruct Hat as (_ & Hend & _). rewrite ftw_join_eq by done.
by rewrite length_append. }
pose proof (Hm (ftw_join fpath name) (level + 1) w _ p name pm mt _
    Hatm Hlm Hwfm Hrxm Hdwm ltac:(lia) eq_refl Hp Hw) as Hz.
destruct (sem_node_all hops m (ftw_join fpath name) (level + 1) w _ Hatm Hlm Hwfm)
as ((Hcwd & _ & Hb) & Hok & _).
cbn [ftw_children].
destruct (walk_rm m (ftw_join fpath name) (level + 1) w) as [w1 r1] eqn:Hgo.
cbn [fst snd] in *. subst r1. cbn [Z.eqb].
specialize (Hok eq_refl p name eq_refl).
apply IH; [| |done..|lia].
- apply (at_node_stable w); [done | done | by eapply beside_up].
- rewrite Hok, lookup_update_dir_at, Hp. simpl. by rewrite String.eqb_refl.
Qed.

Lemma delete_node_ok n :
forall fpath level w p d c pm mt es,
at_node w fpath p -> lookup p (root w) = Some n -> wf_node n = true ->
dirs_rx n = true -> dirs_writable n = true ->
Z.of_nat (String.length fpath + reach n) < PATH_MAX ->
p = d ++ [c] -> lookup d (root w) = Some (Dir pm mt es) -> writable pm = true ->
(walk_rm n fpath level w).2 = 0.
Proof.
induction n as [pm0 mt0 data|pm0 mt0 ents IH|t] using node_ind';
intros fpath level w p d c pm mt es Hat Hp Hwf Hrx Hdw Hfit -> Hd Hw.
- rewrite ftw_walk_file. unfold unlink_cb.
apply (sys_remove_ok w fpath d c (File pm0 mt0 data) pm mt es); try done.
unfold fits. cbn [reach] in Hfit. lia.
- rewrite wf_node_dir in Hwf. rewrite dirs_writable_dir in Hdw.
apply andb_true_iff in Hdw as [Hw0 Hdw].
rewrite dirs_rx_dir in Hrx. apply andb_true_iff in Hrx as [[Hr0 Hx0]%andb_true_iff Hrx].
rewrite reach_dir in Hfit.
rewrite ftw_walk_dir_depth, Hr0, Hx0. cbn [negb]. cbv zeta.
pose proof (delete_children_ok fpath level (d ++ [c]) pm0 mt0 ents IH w Hat Hp Hx0 Hw0 Hwf
        Hrx Hdw Hfit) as Hz.
destruct (sem_children hops fpath level (d ++ [c]) pm0 mt0 ents
    (Forall_impl _ _ _ IH (fun e _ => sem_node_all hops e.2)) w Hat Hp Hx0 Hwf)
as ((Hcwd & _ & Hb) & Hok & _).
destruct (ftw_children walk_rm fpath level ents w) as [w1 r1] eqn:Hch.
cbn [fst snd] in *. subst r1. cbn [Z.eqb negb]. specialize (Hok eq_refl).
unfold unlink_cb.
apply (sys_remove_ok w1 fpath d c (Dir pm0 mt0 []) pm mt
 (ents_alter c (update_dir [] (fun _ => [])) es)).
+ by apply (at_node_stable w).
+ unfold fits. lia.
+ by rewrite Hok, lookup_update_dir_at, Hp.
+ by rewrite Hok, lookup_update_dir_above, Hd.
+ done.
+ by intros ? ? ? [= _ _ <-].
- rewrite ftw_walk_link_phys. unfold unlink_cb.
apply (sys_remove_ok w fpath d c (Symlink t) pm mt es); try done.
unfold fits. cbn [reach] in Hfit. lia.
Qed.

End DeleteOk.

(** X8: deleting succeeds where permissions allow it.  When [path] names
    a tree by a path that does not lead through the tree and is short
    enough for every path below it, the entries of the tree have valid
    names, every directory of the tree can be read, searched and written,
    and the directory that holds the tree can be written, [delete_item]
    returns TRUE, the name is gone, and nothing beside the tree has
    changed. *)
Theorem delete_succeeds_when_writable w path d c n pm mt es :
  path <> "" ->
  namei (root w) (cwd w) false (ftw_start path) = Some (d, Some c) ->
  lookup (d ++ [c]) (root w) = Some n ->
  lookup d (root w) = Some (Dir pm mt es) ->
  NoDup (map fst es) ->
  namei (update_dir d (ents_delete c) (root w)) (cwd w) false (ftw_start path)
    = Some (d, Some c) ->
  wf_node n = true ->
  dirs_rx n = true ->
  dirs_writable n = true ->
  writable pm = true ->
  Z.of_nat (String.length (ftw_start path) + reach n) < PATH_MAX ->
  let res := delete_item w path in
  res.2 = true /\
  lookup (d ++ [c]) (root res.1) = None /\
  only_at (d ++ [c]) (root w) (root res.1) /\
  beside (d ++ [c]) (root w) (root res.1).
Proof.
  intros Hne Hnamei Hn Hd Hnd Hbase Hwf Hrx Hdw Hw Hfit.
  pose proof (at_node_apart w path d c pm mt es Hne Hnamei Hd Hnd Hbase) as Hat.
  cbv zeta. rewrite (delete_item_eq w path (d, Some c) n Hne Hnamei) by exact Hn.
  cbn [fst snd].
  pose proof (delete_node_ok MAXSYMLINKS n (ftw_start path) 0 w _ d c pm mt es
                Hat Hn Hwf Hrx Hdw Hfit eq_refl Hd Hw) as Hz.
  destruct (sem_node_all MAXSYMLINKS n (ftw_start path) 0 w _ Hat Hn Hwf)
    as ((_ & Honly & Hb) & Hok & _).
  rewrite Hz. split; [reflexivity|]. split; [|done].
  rewrite (Hok Hz d c eq_refl). by eapply lookup_delete_gone.
Qed.

Lemma delete_succeeds_when_writable_witness :
  let res := delete_item sample_world "/home/user/root" in
  res.2 = true /\
  lookup (["home"; "user"] ++ ["root"]) (root res.1) = None /\
  only_at (["home"; "user"] ++ ["root"]) (root sample_world) (root res.1) /\
  beside (["home"; "user"] ++ ["root"]) (root sample_world) (root res.1).
Proof.
  apply (delete_succeeds_when_writable sample_world "/home/user/root" ["home"; "user"] "root"
           (Dir 0x1ED 0
              [("a.txt", File 0x1A4 0 (bytes "hello"));
               ("sub", Dir 0x1ED 0 [("b.txt", File 0x1A4 0 (bytes "world"))])])
           0x1ED 0 (match lookup ["home"; "user"] sample_root with
                    | Some m => entries_of m
                    | None => []
                    end)); try reflexivity; try discriminate.
  apply (bool_decide_unpack _). vm_compute. reflexivity.
Defined.

(** ** Deleting twice *)

Lemma delete_item_true w path :
  (delete_item w path).2 = true ->
  path <> "" /\
  exists l n, namei (root w) (cwd w) false (ftw_start path) = Some l /\
              loc_node (root w) l = Some n.
Proof.
  unfold delete_item, nftw.
  change (negb (has_flag (Z.lor FTW_DEPTH FTW_PHYS) FTW_PHYS)) with false.
  destruct (String.eqb_spec path "") as [|Hne]; [discriminate|].
  destruct (namei (root w) (cwd w) false (ftw_start path)) as [l|]; [|discriminate].
  destruct (loc_node (root w) l) as [n|] eqn:Hn; [|discriminate].
  intros _. split; [exact Hne|]. exists l, n. split; [reflexivity | exact Hn].
Qed.

Lemma delete_item_missing w path l :
  namei (root w) (cwd w) false (ftw_start path) = Some l ->
  loc_node (root w) l = None ->
  (delete_item w path).2 = false /\ root (delete_item w path).1 = root w.
Proof.
  intros Hl Hn. unfold delete_item, nftw.
  change (negb (has_flag (Z.lor FTW_DEPTH FTW_PHYS) FTW_PHYS)) with false.
  destruct (String.eqb path ""); [done|]. by rewrite Hl, Hn.
Qed.

Lemma delete_item_unnamed w path :
  namei (root w) (cwd w) false (ftw_start path) = None ->
  (delete_item w path).2 = false /\ root (delete_item w path).1 = root w.
Proof.
  intros Hl. unfold delete_item, nftw.
  change (negb (has_flag (Z.lor FTW_DEPTH FTW_PHYS) FTW_PHYS)) with false.
  destruct (String.eqb path ""); [done|]. by rewrite Hl.
Qed.

(** X9: a deleted entry stays deleted.  After a successful [delete_item]
    of a tree named directly, in a directory with distinct names, the path
    names nothing, and deleting it again fails and leaves the tree as it
    is. *)
Theorem delete_is_final w path d c n pm mt es :
  direct_path w path (d ++ [c]) = true ->
  lookup (d ++ [c]) (root w) = Some n ->
  wf_node n = true ->
  lookup d (root w) = Some (Dir pm mt es) ->
  NoDup (map fst es) ->
  (delete_item w path).2 = true ->
  let w1 := (delete_item w path).1 in
  lookup (d ++ [c]) (root w1) = None /\
  (delete_item w1 path).2 = false /\
  root (delete_item w1 path).1 = root w1.
Proof.
  intros Hdp Hn Hwf Hd Hnd Htrue.
  destruct (delete_item_true _ _ Htrue) as (Hne & l & n' & Hnamei & Hn').
  destruct (at_node_start w path _ l Hdp Hnamei) as (_ & Hat & d' & c' & Heq & ->).
  apply app_inj_tail in Heq as [<- <-]. unfold loc_node in Hn'. cbn [loc_path] in Hn'.
  rewrite Hn in Hn'. injection Hn' as <-. revert Htrue.
  rewrite (delete_item_eq w path (d, Some c) n Hne Hnamei) by exact Hn.
  cbn [fst snd].
  destruct (sem_node_all MAXSYMLINKS n (ftw_start path) 0 w _ Hat Hn Hwf)
    as ((Hcwd & _ & Hb) & Hok & _).
  destruct (ftw_walk MAXSYMLINKS unlink_cb true true n (ftw_start path) 0 w) as [w1 r1].
  cbn [fst snd] in *. intros Hz%Z.eqb_eq. specialize (Hok Hz d c eq_refl).
  assert (Hgone : lookup (d ++ [c]) (root w1) = None).
  { rewrite Hok. by eapply lookup_delete_gone. }
  split; [exact Hgone|].
  assert (Hat1 : at_node w1 (ftw_start path) (d ++ [c])) by (by apply (at_node_stable w)).
  destruct (namei (root w1) (cwd w1) false (ftw_start path)) as [l1|] eqn:Hn1;
    [|by apply delete_item_unnamed].
  apply (delete_item_missing w1 path l1 Hn1).
  destruct (at_node_walk _ _ _ Hat1) as (d' & c' & [<- <-]%app_inj_tail & Hw1).
  apply namei_some in Hn1 as (_ & _ & Hn1). unfold start_dir in Hw1.
  rewrite Hw1 in Hn1. injection Hn1 as <-. exact Hgone.
Qed.

Lemma delete_is_final_witness :
  let w1 := (delete_item sample_world "tmp").1 in
  lookup (["home"; "user"] ++ ["tmp"]) (root w1) = None /\
  (delete_item w1 "tmp").2 = false /\
  root (delete_item w1 "tmp").1 = root w1.
Proof.
  apply (delete_is_final sample_world "tmp" ["home"; "user"] "tmp"
           (Dir 0x1ED 0 [("cache", Symlink "/srv"); ("x", File 0x1A4 0 (bytes "t"))])
           0x1ED 0 (match lookup ["home"; "user"] sample_root with
                    | Some m => entries_of m
                    | None => []
                    end)).
  - vm_compute. reflexivity.
  - reflexivity.
  - reflexivity.
  - reflexivity.
  - apply (bool_decide_unpack _). vm_compute. reflexivity.
  - vm_compute. reflexivity.
Defined.


(** ** Copying the bytes of a file *)

Lemma parent_path_snoc (d : list string) c : parent_path (d ++ [c]) = d.
Proof. apply removelast_last. Qed.

(** Two files are never one below the other. *)
Lemma file_apart r ps d c pm mt data m :
  lookup ps r = Some (File pm mt data) ->
  lookup (d ++ [c]) r = Some m -> is_dir_node m = false ->
  ps <> d ++ [c] ->
  ~ (d ++ [c]) `prefix_of` ps /\ ~ ps `prefix_of` (d ++ [c]).
Proof.
  intros Hps Hpd Hm Hne. split.
  - intros [s ->]. destruct s as [|x s]; [by rewrite app_nil_r in Hne|].
    by rewrite (lookup_below_nondir _ (x :: s) _ m) in Hps.
  - intros [s Hs]. destruct s as [|x s]; [by rewrite app_nil_r in Hs|].
    rewrite Hs in Hpd. by rewrite (lookup_below_nondir _ (x :: s) _ (File pm mt data)) in Hpd.
Qed.

Lemma file_apart_new r ps d c pm mt data pmd mtd esd :
  lookup ps r = Some (File pm mt data) ->
  lookup d r = Some (Dir pmd mtd esd) ->
  lookup (d ++ [c]) r = None ->
  ~ (d ++ [c]) `prefix_of` ps /\ ~ ps `prefix_of` (d ++ [c]).
Proof.
  intros Hps Hd Hpd. split.
  - intros [s ->]. by rewrite lookup_app, Hpd in Hps.
  - intros Hp. apply prefix_snoc_inv in Hp as [->|[s ->]]; [by rewrite Hps in Hpd|].
    destruct s as [|x s]; [rewrite app_nil_r in Hd; by rewrite Hps in Hd|].
    by rewrite (lookup_below_nondir _ (x :: s) _ (File pm mt data)) in Hd.
Qed.

Lemma ents_insert_insert c a b es :
  ents_insert c b (ents_insert c a es) = ents_insert c b es.
Proof.
  induction es as [|[k m] es IH]; cbn [ents_insert].
  - by rewrite String.eqb_refl.
  - destruct (String.eqb k c) eqn:E; cbn [ents_insert]; rewrite E; [done | by rewrite IH].
Qed.

Lemma ents_insert_same c n es : ents_lookup c es = Some n -> ents_insert c n es = es.
Proof.
  induction es as [|[k m] es IH]; cbn [ents_lookup ents_insert]; [done|].
  destruct (String.eqb k c); [by intros [= ->] | by intros ->%IH].
Qed.

Lemma update_dir_insert_same d c n :
  forall r, lookup (d ++ [c]) r = Some n -> update_dir d (ents_insert c n) r = r.
Proof.
  induction d as [|x d IH]; intros r; cbn [app lookup].
  - destruct r as [|pm mt es|]; try done.
    destruct (ents_lookup c es) as [m|] eqn:E; [|done]. intros [= ->].
    cbn [update_dir]. by rewrite ents_insert_same.
  - destruct r as [|pm mt es|]; try done.
    destruct (ents_lookup x es) as [m|] eqn:E; [|done]. intros H.
    cbn [update_dir]. f_equal. apply ents_alter_id. intros m' Hm'.
    rewrite E in Hm'. injection Hm' as <-. by apply IH.
Qed.

Lemma update_dir_insert_insert d c a b r :
  update_dir d (ents_insert c b) (update_dir d (ents_insert c a) r)
  = update_dir d (ents_insert c b) r.
Proof.
  rewrite update_dir_compose. apply update_dir_ext. intros es. apply ents_insert_insert.
Qed.

(** The state of the loop of [copy_file_content] after [off] bytes: the
    destination holds the first [off] bytes of the source. *)
Lemma copy_loop_spec fuel :
  forall w ps pms mts data d c pmd esd pmf mtf mtd off,
    lookup ps (root w) = Some (File pms mts data) ->
    lookup d (root w) = Some (Dir pmd mtd esd) ->
    lookup (d ++ [c]) (root w) = Some (File pmf mtf (take off data)) ->
    ps <> d ++ [c] ->
    (off <= length data)%nat ->
    Z.of_nat (length data - off) + 8192 <= 8192 * Z.of_nat fuel ->
    exists w',
      copy_loop fuel w (mk_fd ps off false) (mk_fd (d ++ [c]) off true)
        = Some (w', bool_decide (length data - off <= disk_free w)%nat) /\
      cwd w' = cwd w /\ clock w' = clock w /\ umask w' = umask w /\
      only_at (d ++ [c]) (root w) (root w') /\
      ((length data - off <= disk_free w)%nat ->
       disk_free w' = (disk_free w - (length data - off))%nat /\
       exists mtf', root w' = update_dir d (ents_insert c (File pmf mtf' data)) (root w) /\
                    (off < length data -> mtf' = clock w)%nat /\
                    (off = length data -> mtf' = mtf)).
Proof.
  induction fuel as [|fuel IH];
    intros w ps pms mts data d c pmd esd pmf mtf mtd off Hps Hd Hpd Hne Hoff Hfuel; [lia|].
  cbn [copy_loop]. unfold sys_read. cbn [fd_path fd_off fd_wr]. rewrite Hps.
  set (chunk := take (Z.to_nat 8192) (drop off data)).
  assert (Hlen : length chunk = Nat.min (Z.to_nat 8192) (length data - off)).
  { unfold chunk. by rewrite length_take, length_drop. }
  destruct (Z.ltb_spec 0 (Z.of_nat (length chunk))) as [Hpos|Hzero].
  2:{ assert (Hend : off = length data) by lia.
      exists w. rewrite Hend, Nat.sub_diag.
      replace (length chunk) with 0%nat by lia. cbn [Z.of_nat Z.eqb].
      rewrite bool_decide_eq_true_2 by lia.
      split; [reflexivity|]. split; [reflexivity|]. split; [reflexivity|].
      split; [reflexivity|].
      split; [apply only_at_refl|]. intros _. split; [lia|].
      exists mtf. rewrite Hend, firstn_all in Hpd.
      split; [by rewrite update_dir_insert_same|]. split; [lia|done]. }
  unfold sys_write. cbn [fd_path fd_off fd_wr]. rewrite Hpd.
  rewrite length_take, (Nat.min_l off) by exact Hoff.
  rewrite Nat.sub_diag, Nat.add_0_l.
  set (k := Nat.min (length chunk) (disk_free w)).
  destruct (Nat.eqb_spec k 0) as [Hk0|Hk0].
  { (* no room at all *)
    assert (Hc0 : (length chunk =? 0)%nat = false) by (apply Nat.eqb_neq; lia).
    rewrite Hc0. cbn [andb negb].
    replace (-1 =? Z.of_nat (length chunk)) with false by (symmetry; apply Z.eqb_neq; lia).
    cbn [negb]. exists w. rewrite bool_decide_eq_false_2 by lia.
    split; [reflexivity|]. split; [reflexivity|]. split; [reflexivity|].
    split; [reflexivity|].
    split; [apply only_at_refl|]. lia. }
  cbn [andb]. rewrite parent_path_snoc, last_snoc. cbn [default].
  rewrite take_take, Nat.min_id.
  rewrite (drop_ge (take off data)) by (rewrite length_take; lia).
  cbn [replicate]. rewrite app_nil_r, app_nil_l.
  set (w1 := set_disk_free _ _).
  destruct (Z.eqb_spec (Z.of_nat k) (Z.of_nat (length chunk))) as [Hfull|Hshort]; cbn [negb].
  2:{ exists w1. rewrite bool_decide_eq_false_2 by lia.
      split; [reflexivity|]. split; [reflexivity|]. split; [reflexivity|].
      split; [reflexivity|].
      split; [apply only_at_insert|]. lia. }
  assert (Hk : k = length chunk) by lia.
  assert (Htake : take k chunk = chunk) by (rewrite Hk; apply firstn_all).
  assert (Hdata' : take off data ++ take k chunk = take (off + k) data).
  { rewrite Htake, Hk, Hlen. unfold chunk. rewrite take_take_drop.
    destruct (Nat.min_spec (Z.to_nat 8192) (length data - off)) as [[_ ->]|[Hlt ->]]; [done|].
    rewrite !take_ge; [done | lia | lia]. }
  destruct (file_apart (root w) ps d c pms mts data _ Hps Hpd eq_refl Hne) as [Hn1 Hn2].
  assert (Hroot1 : root w1 = update_dir d (ents_insert c (File pmf (clock w)
                                                           (take (off + k) data))) (root w)).
  { unfold w1. cbn [root set_disk_free set_root]. by rewrite Hdata'. }
  destruct (IH w1 ps pms mts data d c pmd (ents_insert c (File pmf (clock w)
                                                           (take (off + k) data)) esd)
              pmf (clock w) mtd (off + k)%nat)
    as (w' & Hloop & Hcwd & Hclock & Humask & Honly & Hfin).
  - rewrite Hroot1. rewrite <- Hps. by apply only_at_insert.
  - rewrite Hroot1. by rewrite lookup_update_dir_at, Hd.
  - rewrite Hroot1. by eapply lookup_insert_new.
  - done.
  - lia.
  - lia.
  - exists w'. rewrite Hk. rewrite Hk in Hloop. rewrite Hloop.
    split.
    { f_equal. f_equal. unfold w1. cbn [disk_free set_disk_free].
      rewrite length_app, !length_take.
      apply bool_decide_ext. unfold k in *. lia. }
    split; [done|]. split; [done|]. split; [done|].
    split.
    { eapply only_at_trans; [|exact Honly]. rewrite Hroot1. apply only_at_insert. }
    intros Hroom.
    assert (Hroom1 : (length data - (off + k) <= disk_free w1)%nat).
    { unfold w1. cbn [disk_free set_disk_free]. rewrite length_app, !length_take.
      unfold k in *. lia. }
    destruct (Hfin Hroom1) as (Hfree & mtf' & Hlk & Hmt1 & Hmt2).
    split.
    { rewrite Hfree. unfold w1. cbn [disk_free set_disk_free].
      rewrite length_app, !length_take. unfold k in *. lia. }
    exists mtf'. split; [by rewrite Hlk, Hroot1, update_dir_insert_insert|]. split; [|lia].
    intros _. destruct (decide (off + k < length data)%nat) as [Hlt|Hge].
    + by apply Hmt1.
    + apply Hmt2. lia.
Qed.

Lemma namei_resolves w path p :
  resolves w path p ->
  fits path ->
  exists l, namei (root w) (cwd w) true path = Some l /\ loc_path l = p.
Proof.
  intros (Hne & l & Hwalk & Hp) Hfit. exists l. split; [|exact Hp].
  by rewrite namei_start.
Qed.

(** The directory of a name that a path leads to can be searched. *)
Lemma namei_search r cwd0 s d c :
  namei r cwd0 false s = Some (d, Some c) -> may_search r d = true.
Proof.
  intros (_ & _ & Hw)%namei_some. revert Hw.
  destruct (split_path s) as [|c0 comps] using rev_ind.
  - rewrite walk_nil. discriminate.
  - clear IHcomps. rewrite walk_snoc.
    destruct (walk MAXSYMLINKS r true _ comps) as [l|]; [|discriminate].
    destruct (dir_of r l) as [d'|]; [|discriminate].
    intros Hs. pose proof (step_some _ _ _ _ Hs) as Hm.
    by apply step_some_name in Hs as (-> & _).
Qed.

(** Opening an existing regular file for reading. *)
Lemma sys_open_rdonly_file w src ps pms mts data :
  resolves w src ps ->
  fits src ->
  ends_with_sep src = false ->
  lookup ps (root w) = Some (File pms mts data) ->
  readable pms = true ->
  sys_open w src O_RDONLY 0
    = (log (Ev SysOpen src (observe w src) 0) w, Some (mk_fd ps 0 false)).
Proof.
  intros Hres Hfit Hend Hps Hr.
  destruct (namei_resolves _ _ _ Hres Hfit) as (l & Hn & <-). unfold sys_open.
  change (has_flag O_RDONLY O_CREAT) with false.
  change (has_flag O_RDONLY O_TRUNC) with false.
  change (Z.land O_RDONLY O_ACCMODE =? O_RDONLY) with true.
  change (Z.land O_RDONLY O_ACCMODE =? O_WRONLY) with false.
  cbn [andb negb orb]. rewrite Hend, Hn, Hps, Hr. reflexivity.
Qed.

Lemma creat_trunc_flags :
  let flags := Z.lor (Z.lor O_WRONLY O_CREAT) O_TRUNC in
  has_flag flags O_CREAT = true /\ has_flag flags O_EXCL = false /\
  has_flag flags O_TRUNC = true /\ (Z.land flags O_ACCMODE =? O_RDONLY) = false /\
  (Z.land flags O_ACCMODE =? O_WRONLY) = true.
Proof. by vm_compute. Qed.

(** Opening a new file for writing creates it, empty. *)
Lemma sys_open_create w dst d c pmd mtd esd :
  namei (root w) (cwd w) true dst = Some (d, Some c) ->
  ends_with_sep dst = false ->
  lookup d (root w) = Some (Dir pmd mtd esd) ->
  writable pmd = true ->
  name_fits c = true ->
  ents_lookup c esd = None ->
  sys_open w dst (Z.lor (Z.lor O_WRONLY O_CREAT) O_TRUNC) 0x1A4
    = (log (Ev SysOpen dst (observe w dst) 0)
         (set_root (update_dir d (ents_insert c (File (creat_mode w 0x1A4) (clock w) []))
                      (root w)) w),
       Some (mk_fd (d ++ [c]) 0 true)).
Proof.
  intros Hn Hend Hd Hw Hnf Hc. unfold sys_open.
  destruct creat_trunc_flags as (-> & -> & -> & -> & ->).
  cbn [andb negb orb]. rewrite Hend, Hn. cbn [loc_path].
  rewrite (lookup_snoc_dir _ _ _ _ _ _ Hd), Hc, Hd, Hw, Hnf. reflexivity.
Qed.



(** ** Copying a file onto itself *)

Lemma resolves_namei w path l :
  namei (root w) (cwd w) true path = Some l -> resolves w path (loc_path l) /\ fits path.
Proof.
  intros (Hne & Hfit & Hw)%namei_some. split; [|exact Hfit].
  split; [exact Hne|]. by exists l.
Qed.

(** [stat] of a node that is named without following a last link. *)
Lemma stat_at_named w path d c n :
  namei (root w) (cwd w) false path = Some (d, Some c) ->
  lookup (d ++ [c]) (root w) = Some n ->
  is_link n = false ->
  slash_ok path n = true ->
  namei (root w) (cwd w) true path = Some (d, Some c) /\
  stat_at w true path = Some (stat_of n).
Proof.
  intros Hn Hl Hnl Hs.
  assert (Hf : namei (root w) (cwd w) true path = Some (d, Some c)).
  { destruct (namei_some _ _ _ _ _ Hn) as (Hne & Hfit & Hw).
    rewrite namei_walk by assumption.
    apply (walk_nofollow_follow _ _ _ _ _ _ n Hw Hl). intros t ->. discriminate. }
  split; [exact Hf|]. unfold stat_at.
  destruct (ends_with_sep path) eqn:He.
  - rewrite orb_true_r, Hf. unfold loc_node. cbn [loc_path]. by rewrite Hl, Hs.
  - cbn [orb]. rewrite Hf. unfold loc_node. cbn [loc_path]. by rewrite Hl, Hs.
Qed.

(** A file copied onto itself: the second [open] truncates it, and the
    loop finds nothing to read. *)
Lemma copy_item_same_file st_garbage w src_path dest_dir fuel d c pm mt data :
  namei (root w) (cwd w) false src_path = Some (d, Some c) ->
  ends_with_sep src_path = false ->
  lookup (d ++ [c]) (root w) = Some (File pm mt data) ->
  readable pm = true ->
  writable pm = true ->
  resolves w dest_dir d ->
  fits (g_build_filename dest_dir c) ->
  (2 <= fuel)%nat ->
  exists w',
    copy_item st_garbage fuel w src_path dest_dir = Some (w', true) /\
    root w' = update_dir d (ents_insert c (File pm (clock w) [])) (root w) /\
    cwd w' = cwd w /\ clock w' = clock w /\
    (exists pmd mtd esd, lookup d (root w) = Some (Dir pmd mtd esd)).
Proof.
  intros Hsrc Hend Hfile Hr Hw Hdest Hfit Hfuel.
  destruct fuel as [|[|fuel]]; [lia | lia |]. clear Hfuel.
  destruct (namei_name _ _ _ _ _ Hsrc) as (Hc & Hbase & _).
  destruct (stat_at_named w src_path d c _ Hsrc Hfile eq_refl) as [Hsrc' Hstat].
  { unfold slash_ok. by rewrite Hend. }
  assert (Hd : exists pmd mtd esd, lookup d (root w) = Some (Dir pmd mtd esd)).
  { rewrite lookup_snoc in Hfile. destruct (lookup d (root w)) as [[| pmd mtd esd |]|];
      try discriminate. by exists pmd, mtd, esd. }
  destruct Hd as (pmd & mtd & esd & Hd).
  assert (Hx : searchable pmd = true).
  { rewrite <- (may_search_dir _ _ _ _ _ Hd). by eapply namei_search. }
  assert (Hdst : namei (root w) (cwd w) true (g_build_filename dest_dir c) = Some (d, Some c)).
  { eapply (stat_at_named w _ d c _ (namei_build_child w dest_dir d pmd mtd esd c
                                        Hdest Hd Hx Hc Hfit) Hfile eq_refl).
    unfold slash_ok. by rewrite (ends_with_sep_build _ _ Hc). }
  cbn [copy_item]. rewrite Hbase, sys_stat_spec, Hstat. cbn [stat_or_garbage].
  rewrite S_ISDIR_stat_of. cbn [is_dir_node].
  unfold copy_file_content. set (w1 := log _ w).
  destruct (resolves_namei w1 src_path (d, Some c) Hsrc') as [Hres1 Hfit1].
  rewrite (sys_open_rdonly_file w1 src_path (d ++ [c]) pm mt data Hres1 Hfit1 Hend Hfile Hr).
  set (w2 := log _ w1).
  unfold sys_open. destruct creat_trunc_flags as (-> & -> & -> & -> & ->).
  cbn [andb negb orb]. rewrite (ends_with_sep_build _ _ Hc).
  change (namei (root w2) (cwd w2) true (g_build_filename dest_dir c))
    with (namei (root w) (cwd w) true (g_build_filename dest_dir c)).
  rewrite Hdst. cbn [loc_path].
  change (root w2) with (root w). rewrite Hfile, Hw. cbn [negb].
  rewrite parent_path_snoc, last_snoc. cbn [default orb id]. cbv beta iota zeta.
  cbn [copy_loop]. unfold sys_read. cbn [fd_path fd_off root log set_root set_disk_free].
  change (clock w2) with (clock w).
  rewrite (lookup_insert_new _ _ _ _ pmd mtd esd Hd).
  rewrite drop_nil, take_nil. cbn [length Z.of_nat Z.ltb Z.compare Z.eqb].
  eexists. split; [reflexivity|]. cbn [root cwd clock log set_root set_disk_free].
  split; [reflexivity|]. split; [reflexivity|]. split; [reflexivity|].
  by exists pmd, mtd, esd.
Qed.


(** X11: pasting a copied file into the directory it is in empties it.
    When [src_path] names a regular file that can be read and written,
    and [dest_dir] the directory that holds it, by paths that are not too
    long, [copy_item] opens the file as its own destination, which
    truncates it, finds nothing to read, and returns TRUE: the file is
    left with no bytes. *)
Theorem copy_into_own_directory_empties st_garbage w src_path dest_dir fuel d c pm mt data :
  namei (root w) (cwd w) false src_path = Some (d, Some c) ->
  ends_with_sep src_path = false ->
  lookup (d ++ [c]) (root w) = Some (File pm mt data) ->
  readable pm = true ->
  writable pm = true ->
  resolves w dest_dir d ->
  fits (g_build_filename dest_dir c) ->
  (2 <= fuel)%nat ->
  exists w',
    copy_item st_garbage fuel w src_path dest_dir = Some (w', true) /\
    lookup (d ++ [c]) (root w') = Some (File pm (clock w) []).
Proof.
  intros Hsrc Hend Hfile Hr Hw Hdest Hfit Hfuel.
  destruct (copy_item_same_file st_garbage w src_path dest_dir fuel d c pm mt data
              Hsrc Hend Hfile Hr Hw Hdest Hfit Hfuel)
    as (w' & Hcopy & Hroot & _ & _ & pmd & mtd & esd & Hd).
  exists w'. split; [exact Hcopy|]. rewrite Hroot. by eapply lookup_insert_new.
Qed.

Lemma copy_into_own_directory_empties_witness :
  exists w',
    copy_item no_garbage 2 sample_world "root/a.txt" "/home/user/root" = Some (w', true) /\
    lookup (["home"; "user"; "root"] ++ ["a.txt"]) (root w')
      = Some (File 0x1A4 (clock sample_world) []).
Proof.
  apply (copy_into_own_directory_empties no_garbage sample_world "root/a.txt" "/home/user/root"
           2 ["home"; "user"; "root"] "a.txt" 0x1A4 0 (bytes "hello")).
  - vm_compute. reflexivity.
  - reflexivity.
  - reflexivity.
  - reflexivity.
  - reflexivity.
  - split; [done|]. eexists. split; [vm_compute; reflexivity | reflexivity].
  - vm_compute. reflexivity.
  - lia.
Defined.

(** ** The result of copying a directory *)

Lemma copy_loop_children copy src_path dest_path names :
  forall w acc,
    readdir_loop (copy_step copy src_path dest_path) names (w, acc)
    = match copy_children copy src_path dest_path names w with
      | Some (w', oks) => Some (w', acc && forallb id oks)
      | None => None
      end.
Proof.
  induction names as [|d_name names IH]; intros w acc; cbn [readdir_loop copy_children].
  - by rewrite andb_true_r.
  - unfold copy_step at 1. destruct (is_dot_or_dotdot d_name); [apply IH|].
    destruct (copy w (g_build_filename src_path d_name) dest_path) as [[w' ok]|]; [|done].
    rewrite IH. destruct (copy_children copy src_path dest_path names w') as [[w'' oks]|]; [|done].
    f_equal. f_equal. cbn [forallb id]. by destruct ok, acc.
Qed.

Lemma copy_children_length copy src_path dest_path names :
  forall w w' oks,
    copy_children copy src_path dest_path names w = Some (w', oks) ->
    length oks = length (real_names names).
Proof.
  induction names as [|d_name names IH]; intros w w' oks; cbn [copy_children].
  - by intros [= _ <-].
  - unfold real_names. cbn [List.filter]. fold (real_names names).
    destruct (is_dot_or_dotdot d_name); cbn [negb]; [apply IH|].
    destruct (copy w (g_build_filename src_path d_name) dest_path) as [[w1 ok]|]; [|done].
    destruct (copy_children copy src_path dest_path names w1) as [[w2 oks2]|] eqn:H; [|done].
    intros [= _ <-]. cbn [length]. f_equal. by eapply IH.
Qed.

(** X12: the result of copying a directory.  When [stat] reports a
    directory and the directory can be read, [copy_item] attempts every
    entry of the directory, whatever [mkdir] and the earlier attempts
    returned, and its result is TRUE exactly when every attempt returned
    TRUE. *)
Theorem copy_item_directory_result st_garbage fuel w src_path dest_dir st names :
  let dest_path := g_build_filename dest_dir (g_path_get_basename src_path) in
  let w1 := (sys_stat w src_path).1 in
  let w2 := (sys_mkdir w1 dest_path (st_mode st)).1 in
  let w3 := (sys_opendir w2 src_path).1 in
  (sys_stat w src_path).2 = Some st ->
  S_ISDIR (st_mode st) = true ->
  (sys_opendir w2 src_path).2 = Some names ->
  copy_item st_garbage (S fuel) w src_path dest_dir
  = match copy_children (copy_item st_garbage fuel) src_path dest_path names w3 with
    | Some (w', oks) => Some (w', forallb id oks)
    | None => None
    end /\
  (forall w' oks,
     copy_children (copy_item st_garbage fuel) src_path dest_path names w3 = Some (w', oks) ->
     length oks = length (real_names names)).
Proof.
  intros dest_path w1 w2 w3 Hst Hdir Hnames. split.
  - cbn [copy_item]. fold dest_path.
    destruct (sys_stat w src_path) as [w1' r] eqn:Hs. cbn [fst snd] in *.
    subst r w1. cbn [stat_or_garbage]. rewrite Hdir.
    destruct (sys_mkdir w1' dest_path (st_mode st)) as [w2' ret] eqn:Hm. cbn [fst] in *.
    subst w2. destruct (sys_opendir w2' src_path) as [w3' d] eqn:Ho. cbn [fst snd] in *.
    subst d w3. rewrite copy_loop_children. reflexivity.
  - intros w' oks. apply copy_children_length.
Qed.

Lemma copy_item_directory_result_witness :
  let dest_path := g_build_filename "dst" (g_path_get_basename "proj") in
  let st := stat_of (Dir 0x1ED 0 []) in
  let w1 := (sys_stat sample_world "proj").1 in
  let w2 := (sys_mkdir w1 dest_path (st_mode st)).1 in
  let w3 := (sys_opendir w2 "proj").1 in
  copy_item no_garbage (S 3) sample_world "proj" "dst"
  = match copy_children (copy_item no_garbage 3) "proj" dest_path [".";  ".."; "ro"; "g"] w3 with
    | Some (w', oks) => Some (w', forallb id oks)
    | None => None
    end /\
  (forall w' oks,
     copy_children (copy_item no_garbage 3) "proj" dest_path [".";  ".."; "ro"; "g"] w3
       = Some (w', oks) ->
     length oks = length (real_names [".";  ".."; "ro"; "g"])).
Proof.
  apply (copy_item_directory_result no_garbage 3 sample_world "proj" "dst"
           (stat_of (Dir 0x1ED 0 [])) [".";  ".."; "ro"; "g"]).
  - vm_compute. reflexivity.
  - reflexivity.
  - vm_compute. reflexivity.
Defined.

(** X13: a directory copied to nowhere.  [copy_item] does not look at what
    [mkdir] returns: when [src_path] names an empty directory and
    [dest_dir] leads nowhere, it creates nothing, changes nothing, and
    returns TRUE. *)
Theorem copy_empty_directory_reports_success st_garbage w src_path dest_dir fuel d c pm mt :
  namei (root w) (cwd w) false src_path = Some (d, Some c) ->
  lookup (d ++ [c]) (root w) = Some (Dir pm mt []) ->
  dest_dir <> "" ->
  (forall p, ~ resolves w dest_dir p) ->
  (1 <= fuel)%nat ->
  exists w',
    copy_item st_garbage fuel w src_path dest_dir = Some (w', true) /\ same_fs w w'.
Proof.
  intros Hsrc Hdir Hne Hdest Hfuel. destruct fuel as [|fuel]; [lia|]. clear Hfuel.
  destruct (namei_name _ _ _ _ _ Hsrc) as (Hc & Hbase & _).
  destruct (stat_at_named w src_path d c _ Hsrc Hdir eq_refl) as [Hsrc' Hstat].
  { unfold slash_ok. apply orb_true_r. }
  assert (Hmk : namei (root w) (cwd w) false (g_build_filename dest_dir c) = None).
  { destruct (namei (root w) (cwd w) false (g_build_filename dest_dir c)) as [l|] eqn:Hl;
      [|reflexivity].
    apply namei_snoc in Hl as (l0 & d0 & Hl0 & _); [|assumption..].
    destruct (Hdest (loc_path l0)). split; [exact Hne|]. by exists l0. }
  cbn [copy_item]. rewrite Hbase, sys_stat_spec, Hstat. cbn [stat_or_garbage].
  rewrite S_ISDIR_stat_of. cbn [is_dir_node].
  set (w1 := log _ w). unfold sys_mkdir.
  change (namei (root w1) (cwd w1) false (g_build_filename dest_dir c))
    with (namei (root w) (cwd w) false (g_build_filename dest_dir c)).
  rewrite Hmk. set (w2 := log _ (set_root (root w1) w1)). unfold sys_opendir.
  change (namei (root w2) (cwd w2) true src_path)
    with (namei (root w) (cwd w) true src_path).
  rewrite Hsrc'. unfold loc_node. cbn [loc_path]. change (root w2) with (root w).
  rewrite Hdir. destruct (readable pm); cbn [map readdir_loop].
  - unfold copy_step. change (is_dot_or_dotdot ".") with true.
    change (is_dot_or_dotdot "..") with true. cbv iota.
    eexists. split; [reflexivity|]. by repeat split.
  - eexists. split; [reflexivity|]. by repeat split.
Qed.

Lemma copy_empty_directory_reports_success_witness :
  exists w',
    copy_item no_garbage 1 sample_world "e" "/no/such/place" = Some (w', true) /\
    same_fs sample_world w'.
Proof.
  apply (copy_empty_directory_reports_success no_garbage sample_world "e" "/no/such/place" 1
           ["home"; "user"] "e" 0x1ED 0).
  - vm_compute. reflexivity.
  - reflexivity.
  - discriminate.
  - intros p (_ & l & Hl & _). vm_compute in Hl. discriminate Hl.
  - lia.
Defined.

(** ** C3: the result of copying a directory *)

(** The top-level directory cannot be made, and [copy_item] reports
    success: [mkdir] returns -1 and the result is TRUE. *)
Lemma copy_ignores_mkdir_counterexample :
  exists w',
    copy_item no_garbage 1 sample_world "e" "/no/such/place" = Some (w', true) /\
    new_events sample_world w'
    = [Ev SysStat "e" EmptyDir 0;
       Ev SysMkdir "/no/such/place/e" Absent (-1);
       Ev SysOpendir "e" EmptyDir 0] /\
    stat_at w' true "/no/such/place/e" = None.
Proof.
  eexists. split; [vm_compute; reflexivity|]. split; vm_compute; reflexivity.
Qed.

(** C3, as the code has it: when [stat] reports a directory, [copy_item]
    calls [mkdir] for the top-level destination directory and does not
    look at what it returns.  The calls it makes itself are that [stat],
    that [mkdir] and one [opendir] of the source, in this order, and then:
    if the source cannot be opened nothing more is attempted and the
    result is TRUE; otherwise every entry other than "." and ".." is
    attempted in turn, whatever the earlier attempts returned, and the
    result is TRUE exactly when every attempt returned TRUE. *)
Theorem copy_item_result_of_children st_garbage fuel w src_path dest_dir st :
  let dest_path := g_build_filename dest_dir (g_path_get_basename src_path) in
  let made := sys_mkdir (sys_stat w src_path).1 dest_path (st_mode st) in
  let opened := sys_opendir made.1 src_path in
  (sys_stat w src_path).2 = Some st ->
  S_ISDIR (st_mode st) = true ->
  map ev_sig (new_events w opened.1)
  = [(src_path, observe w src_path);
     (dest_path, observe w dest_path);
     (src_path, observe made.1 src_path)] /\
  map ev_call (new_events w opened.1) = [SysStat; SysMkdir; SysOpendir] /\
  map ev_ret (new_events w opened.1) = [0; made.2; ret_of opened.2] /\
  match opened.2 with
  | None => copy_item st_garbage (S fuel) w src_path dest_dir = Some (opened.1, true)
  | Some names =>
      let r :=
        copy_children (copy_item st_garbage fuel) src_path dest_path names opened.1 in
      copy_item st_garbage (S fuel) w src_path dest_dir
      = match r with
        | Some (w', oks) => Some (w', forallb id oks)
        | None => None
        end /\
      match r with
      | Some (_, oks) => length oks = length (real_names names)
      | None => True
      end
  end.
Proof.
  intros dest_path made opened Hst Hdir.
  assert (Hmade : trace made.1
                  = trace w ++ [Ev SysStat src_path (observe w src_path) 0;
                                Ev SysMkdir dest_path (observe w dest_path) made.2]).
  { subst made. rewrite sys_stat_spec in *. cbn [fst snd] in *. rewrite Hst.
    unfold sys_mkdir. set (w1 := log _ w).
    destruct (match namei (root w1) (cwd w1) false dest_path with
              | Some (d, Some c) => _ | _ => _ end) as [r' ret].
    cbn [fst snd log trace set_root ret_of].
    change (observe w1 dest_path) with (observe w dest_path).
    unfold w1. cbn [log trace ret_of]. rewrite <- app_assoc. reflexivity. }
  assert (Htrace : trace opened.1
                   = trace w ++ [Ev SysStat src_path (observe w src_path) 0;
                                 Ev SysMkdir dest_path (observe w dest_path) made.2;
                                 Ev SysOpendir src_path (observe made.1 src_path)
                                   (ret_of opened.2)]).
  { unfold opened, sys_opendir. cbn [fst snd log trace]. rewrite Hmade, <- ?app_assoc.
    reflexivity. }
  rewrite (new_events_app _ _ _ Htrace). cbn [map ev_sig ev_call ev_ret ev_path ev_target].
  split; [reflexivity|]. split; [reflexivity|]. split; [reflexivity|].
  clear Hmade Htrace. cbn [copy_item]. fold dest_path.
  destruct (sys_stat w src_path) as [w1 r] eqn:Hs. cbn [fst snd] in *. subst r.
  cbn [stat_or_garbage]. rewrite Hdir. subst opened made.
  destruct (sys_mkdir w1 dest_path (st_mode st)) as [w2 ret]. cbn [fst snd].
  destruct (sys_opendir w2 src_path) as [w3 [names|]]; cbn [fst snd]; [|reflexivity].
  cbv zeta. rewrite copy_loop_children. split; [reflexivity|].
  destruct (copy_children _ _ _ names w3) as [[w' oks]|] eqn:Hc; [|exact I].
  by eapply copy_children_length.
Qed.

Lemma copy_item_result_of_children_witness :
  let st := stat_of (Dir 0x1ED 0 []) in
  let dest_path := g_build_filename "dst" (g_path_get_basename "proj") in
  let made := sys_mkdir (sys_stat sample_world "proj").1 dest_path (st_mode st) in
  let opened := sys_opendir made.1 "proj" in
  map ev_sig (new_events sample_world opened.1)
  = [("proj", observe sample_world "proj");
     (dest_path, observe sample_world dest_path);
     ("proj", observe made.1 "proj")] /\
  map ev_call (new_events sample_world opened.1) = [SysStat; SysMkdir; SysOpendir] /\
  map ev_ret (new_events sample_world opened.1) = [0; made.2; ret_of opened.2] /\
  match opened.2 with
  | None => copy_item no_garbage (S 3) sample_world "proj" "dst" = Some (opened.1, true)
  | Some names =>
      let r := copy_children (copy_item no_garbage 3) "proj" dest_path names opened.1 in
      copy_item no_garbage (S 3) sample_world "proj" "dst"
      = match r with
        | Some (w', oks) => Some (w', forallb id oks)
        | None => None
        end /\
      match r with
      | Some (_, oks) => length oks = length (real_names names)
      | None => True
      end
  end.
Proof.
  apply (copy_item_result_of_children no_garbage 3 sample_world "proj" "dst"
           (stat_of (Dir 0x1ED 0 []))).
  - vm_compute. reflexivity.
  - reflexivity.
Defined.

(** ** A source that cannot be examined *)

(** What [stat] cannot examine, [open] cannot open for reading. *)
Lemma sys_open_rdonly_fail w src :
  stat_at w true src = None ->
  sys_open w src O_RDONLY 0 = (log (Ev SysOpen src (observe w src) (-1)) w, None).
Proof.
  unfold stat_at, sys_open.
  change (has_flag O_RDONLY O_CREAT) with false.
  change (has_flag O_RDONLY O_TRUNC) with false.
  change (Z.land O_RDONLY O_ACCMODE =? O_RDONLY) with true.
  change (Z.land O_RDONLY O_ACCMODE =? O_WRONLY) with false.
  cbn [andb negb orb].
  destruct (namei (root w) (cwd w) true src) as [l|]; [|reflexivity].
  unfold loc_node, slash_ok.
  destruct (lookup (loc_path l) (root w)) as [[pm mt data|pm mt es|t]|].
  - destruct (ends_with_sep src); [reflexivity | discriminate].
  - rewrite orb_true_r. discriminate.
  - reflexivity.
  - intros _. destruct l as [d [c|]]; [|reflexivity].
    by destruct (lookup d (root w)) as [[| |]|].
Qed.

(** X23: the result of [stat] is not checked.  When [stat] fails on
    [src_path], [copy_item] goes by what the buffer happened to hold: if
    that does not look like a directory it tries to copy a file, cannot
    open it, and returns FALSE with nothing changed; if it looks like a
    directory, [mkdir] is called on the destination with the mode of the
    buffer, and with the source still unreadable the result is TRUE. *)
Theorem copy_item_unchecked_stat st_garbage fuel w src_path dest_dir :
  stat_at w true src_path = None ->
  (2 <= fuel)%nat ->
  let dest_path := g_build_filename dest_dir (g_path_get_basename src_path) in
  let mode := st_mode (st_garbage src_path) in
  (S_ISDIR mode = false ->
   exists w', copy_item st_garbage fuel w src_path dest_dir = Some (w', false) /\
              same_fs w w') /\
  (S_ISDIR mode = true ->
   let w2 := (sys_mkdir (sys_stat w src_path).1 dest_path mode).1 in
   (sys_opendir w2 src_path).2 = None ->
   exists w', copy_item st_garbage fuel w src_path dest_dir = Some (w', true) /\
              same_fs w2 w').
Proof.
  intros Hstat Hfuel dest_path mode. destruct fuel as [|[|fuel]]; [lia | lia |].
  split.
  - intros Hdir. cbn [copy_item]. rewrite sys_stat_spec, Hstat. cbn [stat_or_garbage].
    fold mode. rewrite Hdir. unfold copy_file_content.
    rewrite sys_open_rdonly_fail by exact Hstat.
    eexists. split; [reflexivity|]. by repeat split.
  - intros Hdir w2 Hopen. subst w2. rewrite sys_stat_spec in Hopen. cbn [fst] in Hopen.
    cbn [copy_item]. rewrite sys_stat_spec, Hstat. cbn [stat_or_garbage fst].
    fold mode dest_path. rewrite Hdir. rewrite Hstat in Hopen.
    set (w1 := log _ w) in *.
    destruct (sys_mkdir w1 dest_path mode) as [w2 ret]. cbn [fst] in Hopen.
    destruct (sys_opendir w2 src_path) as [w3 names] eqn:Ho. cbn [snd] in Hopen. subst names.
    exists w3. split; [reflexivity|]. cbn [fst].
    unfold sys_opendir in Ho. injection Ho as <- Hr. apply same_fs_log.
Qed.

Lemma copy_item_unchecked_stat_witness :
  (let dest_path := g_build_filename "dst" (g_path_get_basename "gone") in
   let mode := st_mode (no_garbage "gone") in
   (S_ISDIR mode = false ->
    exists w', copy_item no_garbage 2 sample_world "gone" "dst" = Some (w', false) /\
               same_fs sample_world w') /\
   (S_ISDIR mode = true ->
    let w2 := (sys_mkdir (sys_stat sample_world "gone").1 dest_path mode).1 in
    (sys_opendir w2 "gone").2 = None ->
    exists w', copy_item no_garbage 2 sample_world "gone" "dst" = Some (w', true) /\
               same_fs w2 w')) /\
  (let dest_path := g_build_filename "dst" (g_path_get_basename "gone") in
   let mode := st_mode (dir_garbage "gone") in
   (S_ISDIR mode = false ->
    exists w', copy_item dir_garbage 2 sample_world "gone" "dst" = Some (w', false) /\
               same_fs sample_world w') /\
   (S_ISDIR mode = true ->
    let w2 := (sys_mkdir (sys_stat sample_world "gone").1 dest_path mode).1 in
    (sys_opendir w2 "gone").2 = None ->
    exists w', copy_item dir_garbage 2 sample_world "gone" "dst" = Some (w', true) /\
               same_fs w2 w')).
Proof.
  split.
  - apply (copy_item_unchecked_stat no_garbage 2 sample_world "gone" "dst");
      [vm_compute; reflexivity | lia].
  - apply (copy_item_unchecked_stat dir_garbage 2 sample_world "gone" "dst");
      [vm_compute; reflexivity | lia].
Defined.


(** ** The entries of an archive *)

Lemma append_inv_head (a x y : string) : a +:+ x = a +:+ y -> x = y.
Proof. induction a as [|ch a IH]; simpl; [done|]. intros [= H]. by apply IH. Qed.

(** A name without separator is determined by what it starts. *)
Lemma name_prefix_inj c c' x y :
  has_sep c = false -> has_sep c' = false ->
  (x = "" \/ exists x', x = String "/" x') ->
  (y = "" \/ exists y', y = String "/" y') ->
  c +:+ x = c' +:+ y -> c = c'.
Proof.
  revert c'. induction c as [|ch c IH]; intros c' Hc Hc' Hx Hy; simpl.
  - destruct c' as [|ch' c']; [done|]. simpl. simpl in Hc'.
    apply orb_false_iff in Hc' as [Hch' _].
    destruct Hx as [->|[x' ->]]; [done|]. intros [= <- _]. done.
  - simpl in Hc. apply orb_false_iff in Hc as [Hch Hc].
    destruct c' as [|ch' c']; simpl.
    + destruct Hy as [->|[y' ->]]; [done|]. intros [= -> _]. done.
    + simpl in Hc'. apply orb_false_iff in Hc' as [_ Hc'].
      intros [= <- H]. f_equal. by apply (IH c').
Qed.

Lemma under_inj parent c c' name :
  has_sep c = false -> has_sep c' = false ->
  under parent c name -> under parent c' name -> c = c'.
Proof.
  intros Hc Hc' [->|[y ->]] [H|[y' H]]; apply append_inv_head in H.
  - by rewrite <- (append_nil_r c), <- (append_nil_r c'), H, !append_nil_r.
  - apply (name_prefix_inj c c' "" (String "/" y') Hc Hc'); [by left | by right; eexists|].
    by rewrite append_nil_r.
  - apply (name_prefix_inj c c' (String "/" y) "" Hc Hc'); [by right; eexists | by left|].
    by rewrite append_nil_r.
  - apply (name_prefix_inj c c' (String "/" y) (String "/" y') Hc Hc');
      [by right; eexists | by right; eexists | done].
Qed.

Lemma spec_entries_dir fs zp pm mt ents :
  spec_entries fs zp (Dir pm mt ents)
  = ZipDir (zp +:+ "/") :: spec_entries_entries fs (zp +:+ "/") ents.
Proof.
  cbn [spec_entries]. f_equal.
  induction ents as [|[k m] ents IH]; [done|]. cbn [spec_entries_entries]. by rewrite IH.
Qed.

(** Every entry made for the child [c] is at or below [parent ++ c]. *)
Lemma spec_entries_under n :
  forall fs parent c e, e ∈ spec_entries fs (parent +:+ c) n -> under parent c (zip_entry_name e).
Proof.
  induction n as [pm mt data|pm mt ents IH|t] using node_ind'; intros fs parent c e.
  - intros ->%list_elem_of_singleton. by left.
  - rewrite spec_entries_dir. intros [->|Hin]%elem_of_cons.
    + right. exists "". cbn [zip_entry_name]. by rewrite append_assoc.
    + right. induction IH as [|[k m] ents Hm _ IHe]; cbn [spec_entries_entries] in Hin.
      * by apply elem_of_nil in Hin.
      * apply elem_of_app in Hin as [Hin|Hin]; [|by apply IHe].
        cbn [snd] in Hm. destruct (Hm _ _ _ _ Hin) as [->|[y ->]].
        -- exists k. by rewrite !append_assoc.
        -- exists (k +:+ String "/" y). by rewrite !append_assoc.
  - intros ->%list_elem_of_singleton. by left.
Qed.

Lemma zip_name_locate_fresh zip name :
  (forall e, e ∈ zip -> zip_entry_name e <> name) -> zip_name_locate zip name = false.
Proof.
  unfold zip_name_locate. induction zip as [|e zip IH]; intros H; cbn [existsb]; [done|].
  rewrite (proj2 (String.eqb_neq _ _) (H e (list_elem_of_here _ _))). cbn [orb].
  apply IH. intros e' He'. apply H. by apply list_elem_of_further.
Qed.

Lemma height_dir pm mt ents : height (Dir pm mt ents) = S (height_entries ents).
Proof. reflexivity. Qed.

Lemma unique_names_dir pm mt ents :
  unique_names (Dir pm mt ents)
  = bool_decide (NoDup (map fst ents)) && unique_names_entries ents.
Proof. reflexivity. Qed.

(** A joined path is not longer than its parts and a separator. *)
Lemma length_build a c :
  valid_name c = true ->
  (String.length (g_build_filename a c) <= String.length a + S (String.length c))%nat.
Proof.
  intros (Hne & Hsep & _)%valid_name_inv. rewrite g_build_filename_eq.
  destruct (String.eqb a ""); [lia|].
  rewrite (proj2 (String.eqb_neq _ _) Hne).
  rewrite (skip_seps_no_sep c Hsep), (rstrip_no_sep c Hsep), (trailing_seps_no_sep c Hsep).
  pose proof (f_equal String.length (leading_skip a)) as Ha.
  pose proof (f_equal String.length (rstrip_trailing (skip_seps a))) as Hb.
  rewrite length_append in Ha, Hb. rewrite !length_append.
  destruct (String.eqb (rstrip (skip_seps a)) "" || String.eqb c ""); simpl; lia.
Qed.

Lemma sys_stat_child w path p pm mt ents c m :
  resolves w path p ->
  lookup p (root w) = Some (Dir pm mt ents) ->
  searchable pm = true ->
  valid_name c = true ->
  fits (g_build_filename path c) ->
  ents_lookup c ents = Some m ->
  is_link m = false ->
  (sys_stat w (g_build_filename path c)).2 = Some (stat_of m) /\
  same_fs w (sys_stat w (g_build_filename path c)).1 /\
  resolves (sys_stat w (g_build_filename path c)).1 (g_build_filename path c) (p ++ [c]).
Proof.
  intros Hres Hp Hx Hc Hfit Hm Hnl.
  destruct (resolves_child w path p pm mt ents c m Hres Hp Hx Hc Hm) as [Hr Hst].
  { intros t ->. discriminate. }
  rewrite sys_stat_spec. cbn [fst snd]. split; [exact (Hst Hfit)|].
  split; [apply same_fs_log|]. eapply resolves_same_fs; [apply same_fs_log | exact Hr].
Qed.

(** After the entries of the child [c], the archive is still fresh for its
    later siblings. *)
Lemma fresh_for_next zip parent c m es fs :
  fresh_for zip parent ((c, m) :: es) ->
  NoDup (map fst ((c, m) :: es)) ->
  Forall (fun e => valid_name e.1 = true) ((c, m) :: es) ->
  fresh_for (zip ++ spec_entries fs (parent +:+ c) m) parent es.
Proof.
  intros Hfresh [Hc Hnd]%NoDup_cons Hval e c' [He|He]%elem_of_app Hc'.
  - apply Hfresh; [done|]. cbn. by apply list_elem_of_further.
  - intros Hu. pose proof (spec_entries_under m fs parent c e He) as Hu'.
    apply Forall_cons in Hval as [Hvc Hval]. cbn [fst] in Hvc.
    apply list_elem_of_fmap in Hc' as ([k n] & -> & Hk).
    pose proof (proj1 (Forall_forall _ _) Hval _ Hk) as Hvk. cbn [fst] in *.
    apply valid_name_inv in Hvc as (_ & Hs1 & _). apply valid_name_inv in Hvk as (_ & Hs2 & _).
    pose proof (under_inj parent c k _ Hs1 Hs2 Hu' Hu) as ->.
    apply Hc. apply list_elem_of_fmap. by exists (k, n).
Qed.

(** Below a new directory entry the archive is fresh. *)
Lemma fresh_for_below zip parent c m es es' :
  fresh_for zip parent ((c, m) :: es) ->
  Forall (fun e => valid_name e.1 = true) es' ->
  fresh_for (zip ++ [ZipDir ((parent +:+ c) +:+ "/")]) ((parent +:+ c) +:+ "/") es'.
Proof.
  intros Hfresh Hval e c' He Hc'.
  apply list_elem_of_fmap in Hc' as ([k n] & -> & Hk).
  pose proof (proj1 (Forall_forall _ _) Hval _ Hk) as Hvk. cbn [fst] in *.
  apply valid_name_inv in Hvk as (Hne & _).
  apply elem_of_app in He as [He | ->%list_elem_of_singleton].
  - intros Hu. apply (Hfresh e c He); [cbn; apply list_elem_of_here|].
    right. destruct Hu as [->|[y ->]].
    + exists k. by rewrite !append_assoc.
    + exists (k +:+ String "/" y). by rewrite !append_assoc.
  - cbn [zip_entry_name]. intros [H|[y H]].
    + rewrite <- (append_nil_r ((parent +:+ c) +:+ "/")) in H at 1.
      apply append_inv_head in H. by destruct Hne.
    + rewrite <- (append_nil_r ((parent +:+ c) +:+ "/")) in H at 1.
      apply append_inv_head in H. by destruct k.
Qed.

Lemma wf_entries_valid es : wf_entries es = true -> Forall (fun e => valid_name e.1 = true) es.
Proof.
  induction es as [|[k m] es IH]; [done|].
  intros (Hk & _ & Hes)%wf_entries_cons. constructor; [done | by apply IH].
Qed.

Lemma append_nonempty_r (x y : string) : y <> "" -> x +:+ y <> "".
Proof. destruct x; [done|]. by intros _. Qed.

Section Zip.
Context (st_garbage : string -> stat_buf).

Abbreviation add_zip := (add_to_zip_recursive st_garbage).

(** What [add_to_zip_recursive] is to do for a directory. *)
Lemma zip_children fuel fs parent p pm mt es_full :
NoDup (map fst es_full) ->
forall es,
(forall e, e ∈ es -> e ∈ es_full) ->
Forall (fun e =>
forall pm' mt' es', e.2 = Dir pm' mt' es' ->
forall fs parent p w zip,
  resolves w fs p -> lookup p (root w) = Some e.2 ->
  wf_node e.2 = true -> no_links e.2 = true -> unique_names e.2 = true ->
  dirs_rx e.2 = true ->
  Z.of_nat (String.length fs + reach e.2) < PATH_MAX ->
  (height e.2 <= fuel)%nat ->
  fresh_for zip parent es' ->
  exists w', add_zip fuel w zip fs parent
             = Some (w', zip ++ spec_entries_entries fs parent es') /\
             same_fs w w') es ->
wf_entries es = true -> no_links_entries es = true -> unique_names_entries es = true ->
dirs_rx_entries es = true ->
searchable pm = true ->
Z.of_nat (String.length fs + reach_entries es) < PATH_MAX ->
NoDup (map fst es) ->
(height_entries es <= fuel)%nat ->
forall w zip,
resolves w fs p -> lookup p (root w) = Some (Dir pm mt es_full) ->
fresh_for zip parent es ->
exists w',
readdir_loop (zip_step st_garbage (add_zip fuel) fs parent) (map fst es) (w, zip)
= Some (w', zip ++ spec_entries_entries fs parent es) /\
same_fs w w'.
Proof.
intros Hndf. induction es as [|[c m] es IHes];
intros Hsub IH Hwf Hnl Hun Hrx Hx Hfit Hnd Hh w zip Hres Hp Hfresh.
{ exists w. cbn. by rewrite app_nil_r. }
pose proof (wf_entries_valid _ Hwf) as Hval.
apply wf_entries_cons in Hwf as (Hc & Hwfm & Hwfes).
cbn [no_links_entries] in Hnl. apply andb_true_iff in Hnl as [Hnlm Hnles].
cbn [unique_names_entries] in Hun. apply andb_true_iff in Hun as [Hunm Hunes].
cbn [dirs_rx_entries] in Hrx. apply andb_true_iff in Hrx as [Hrxm Hrxes].
cbn [reach_entries] in Hfit.
pose proof (length_build fs c Hc) as Hlen.
assert (Hfitc : fits (g_build_filename fs c)) by (unfold fits; lia).
cbn [height_entries] in Hh.
apply Forall_cons in IH as [IHm IH]. cbn [snd] in IHm.
assert (Hlk : ents_lookup c es_full = Some m).
{ apply ents_lookup_nodup; [done|]. apply Hsub, list_elem_of_here. }
assert (Hml : is_link m = false) by (by destruct m).
destruct (sys_stat_child w fs p pm mt es_full c m Hres Hp Hx Hc Hfitc Hlk Hml)
as (Hst & Hfs1 & Hres1).
cbn [map fst readdir_loop]. unfold zip_step at 1.
pose proof (valid_name_inv c Hc) as (Hcne & _ & Hd1 & Hd2).
unfold is_dot_or_dotdot. rewrite Hd1, Hd2. cbn [orb].
destruct (sys_stat w (g_build_filename fs c)) as [w1 r] eqn:Hs. cbn [fst snd] in *. subst r.
cbn [stat_or_garbage]. rewrite S_ISDIR_stat_of. unfold g_strconcat.
assert (Hp1 : lookup p (root w1) = Some (Dir pm mt es_full)).
{ destruct Hfs1 as (<- & _). exact Hp. }
assert (Hresp1 : resolves w1 fs p) by (by eapply resolves_same_fs).
assert (Hcont : forall w2 (zip2 : zip_t),
same_fs w1 w2 ->
zip2 = zip ++ spec_entries (g_build_filename fs c) (parent +:+ c) m ->
exists w',
  readdir_loop (zip_step st_garbage (add_zip fuel) fs parent) (map fst es) (w2, zip2)
  = Some (w', zip ++ spec_entries_entries fs parent ((c, m) :: es)) /\
  same_fs w w').
{ intros w2 zip2 Hfs2 ->.
destruct (IHes (fun e He => Hsub e (list_elem_of_further _ _ _ He)) IH Hwfes Hnles Hunes
    Hrxes Hx ltac:(lia) (proj2 (proj1 (NoDup_cons _ _) Hnd)) ltac:(lia) w2
    (zip ++ spec_entries (g_build_filename fs c) (parent +:+ c) m))
as (w' & Hloop & Hfs').
- by eapply resolves_same_fs.
- destruct Hfs2 as (<- & _). exact Hp1.
- by apply (fresh_for_next zip parent c m es).
- exists w'. rewrite Hloop. cbn [spec_entries_entries]. rewrite app_assoc.
split; [reflexivity|]. eapply same_fs_trans; [exact Hfs1|].
eapply same_fs_trans; [exact Hfs2 | exact Hfs']. }
destruct m as [pmf mtf data|pmd mtd esd|t]; [| |discriminate].
- cbn [is_dir_node]. unfold zip_source_file, zip_file_add.
rewrite (proj2 (String.eqb_neq _ _) (append_nonempty_r parent c Hcne)).
rewrite zip_name_locate_fresh.
2:{ intros e He Heq. apply (Hfresh e c He); [cbn; apply list_elem_of_here|]. by left. }
cbn [orb]. apply Hcont; [apply same_fs_refl | reflexivity].
- cbn [is_dir_node]. unfold zip_dir_add.
rewrite (ends_with_sep_app_name parent c Hc).
rewrite (proj2 (String.eqb_neq _ _) (append_nonempty_r parent c Hcne)).
rewrite zip_name_locate_fresh.
2:{ intros e He Heq. apply (Hfresh e c He); [cbn; apply list_elem_of_here|].
right. exists "". by rewrite Heq, append_assoc. }
cbn [orb].
rewrite wf_node_dir in Hwfm.
destruct (IHm pmd mtd esd eq_refl (g_build_filename fs c) ((parent +:+ c) +:+ "/")
    (p ++ [c]) w1 (zip ++ [ZipDir ((parent +:+ c) +:+ "/")]))
as (w2 & Hadd & Hfs2).
+ exact Hres1.
+ destruct Hfs1 as (<- & _). by rewrite (lookup_snoc_dir _ _ _ _ _ _ Hp).
+ by rewrite wf_node_dir.
+ exact Hnlm.
+ exact Hunm.
+ exact Hrxm.
+ lia.
+ lia.
+ apply (fresh_for_below zip parent c (Dir pmd mtd esd) es esd Hfresh).
by apply wf_entries_valid.
+ rewrite Hadd. apply Hcont; [exact Hfs2|].
rewrite spec_entries_dir, <- app_assoc. reflexivity.
Qed.

Lemma zip_node n :
forall fuel pm' mt' es',
n = Dir pm' mt' es' ->
forall fs parent p w zip,
resolves w fs p -> lookup p (root w) = Some n ->
wf_node n = true -> no_links n = true -> unique_names n = true ->
dirs_rx n = true ->
Z.of_nat (String.length fs + reach n) < PATH_MAX ->
(height n <= fuel)%nat ->
fresh_for zip parent es' ->
exists w', add_zip fuel w zip fs parent
 = Some (w', zip ++ spec_entries_entries fs parent es') /\
 same_fs w w'.
Proof.
induction n as [pm mt data|pm mt ents IH|t] using node_ind';
intros fuel pm' mt' es' Heq; [discriminate| |discriminate].
injection Heq as <- <- <-.
intros fs parent p w zip Hres Hp Hwf Hnl Hun Hrx Hfit Hh Hfresh.
rewrite height_dir in Hh. destruct fuel as [|fuel]; [lia|].
rewrite wf_node_dir in Hwf. rewrite no_links_dir in Hnl.
rewrite unique_names_dir in Hun.
apply andb_true_iff in Hun as [Hnd%bool_decide_eq_true Hun].
rewrite dirs_rx_dir in Hrx. apply andb_true_iff in Hrx as [[Hr0 Hx0]%andb_true_iff Hrx].
rewrite reach_dir in Hfit.
cbn [add_to_zip_recursive].
destruct (sys_opendir_resolves w fs p _ Hres ltac:(unfold fits; lia) Hp) as [Hfs0 Hd].
rewrite Hr0 in Hd.
destruct (sys_opendir w fs) as [w0 d]. cbn [fst snd] in *. subst d.
cbn [readdir_loop]. unfold zip_step at 1 2.
change (is_dot_or_dotdot ".") with true. change (is_dot_or_dotdot "..") with true.
cbv iota.
destruct (zip_children fuel fs parent p pm mt ents Hnd ents (fun e He => He)
  (Forall_impl _ _ _ IH (fun e He => He fuel)) Hwf Hnl Hun Hrx Hx0 Hfit Hnd
  ltac:(lia) w0 zip)
as (w' & Hloop & Hfs').
- by eapply resolves_same_fs.
- destruct Hfs0 as (<- & _). exact Hp.
- exact Hfresh.
- exists w'. split; [exact Hloop|]. by eapply same_fs_trans.
Qed.

End Zip.

Lemma spec_entries_names n :
  forall fs zp, map zip_entry_name (spec_entries fs zp n) = spec_names zp n.
Proof.
  induction n as [pm mt data|pm mt ents IH|t] using node_ind'; intros fs zp; [done| |done].
  cbn [spec_entries spec_names map zip_entry_name]. f_equal.
  induction IH as [|[k m] ents Hm _ IHe]; [done|].
  rewrite map_app. cbn [snd] in Hm. by rewrite Hm, IHe.
Qed.

(** ** C4: the entries of an archive *)




(** ** A directory that cannot be opened *)




(** ** Copying a tree *)

Lemma resolves_ext w w' path p :
  resolves w path p -> cwd w' = cwd w -> ext (root w) (root w') -> resolves w' path p.
Proof.
  intros (Hne & l & Hwalk & Hp) Hcwd Hext. split; [exact Hne|]. exists l.
  split; [|exact Hp]. unfold start_dir in *. rewrite Hcwd. by apply (walk_ext _ _ _ Hext).
Qed.

Lemma ents_alter_insert c h x es :
  ents_alter c h (ents_insert c x es) = ents_insert c (h x) es.
Proof.
  induction es as [|[k m] es IH]; cbn [ents_insert ents_alter].
  - by rewrite String.eqb_refl.
  - destruct (String.eqb k c) eqn:E; cbn [ents_alter]; rewrite E; [done | by rewrite IH].
Qed.

(** An update below a node that has just been inserted is an update of
    what is inserted. *)
Lemma update_dir_below_insert pd cs g x r :
  update_dir (pd ++ [cs]) g (update_dir pd (ents_insert cs x) r)
  = update_dir pd (ents_insert cs (update_dir [] g x)) r.
Proof.
  rewrite (update_dir_app pd [cs]), update_dir_compose.
  apply update_dir_ext. intros es. apply ents_alter_insert.
Qed.

(** *** The mode of a copy *)

Lemma testbit_ACCESSPERMS i : 0 <= i -> Z.testbit ACCESSPERMS i = (i <? 9).
Proof. intros Hi. change ACCESSPERMS with (Z.ones 9). by apply Z.testbit_ones_nonneg. Qed.

Lemma testbit_ALLPERMS i : 0 <= i -> Z.testbit ALLPERMS i = (i <? 12).
Proof. intros Hi. change ALLPERMS with (Z.ones 12). by apply Z.testbit_ones_nonneg. Qed.

Lemma testbit_S_IFDIR i : Z.testbit S_IFDIR i = (14 =? i).
Proof. change S_IFDIR with (2 ^ 14). by apply Z.pow2_bits_eqb. Qed.

Lemma testbit_S_ISVTX i : Z.testbit S_ISVTX i = (9 =? i).
Proof. change S_ISVTX with (2 ^ 9). by apply Z.pow2_bits_eqb. Qed.

Lemma testbit_S_ISGID i : Z.testbit S_ISGID i = (10 =? i).
Proof. change S_ISGID with (2 ^ 10). by apply Z.pow2_bits_eqb. Qed.

(** The access bits of a directory made with the [st_mode] of another are
    those of the other that the umask leaves. *)
Lemma mkdir_mode_bit w ppm pm i :
  0 <= i < 9 ->
  Z.testbit (mkdir_mode w ppm (Z.lor S_IFDIR (Z.land pm ALLPERMS))) i
  = Z.testbit pm i && negb (Z.testbit (umask w) i).
Proof.
  intros Hi. unfold mkdir_mode.
  rewrite !Z.lor_spec, !Z.land_spec, !Z.lor_spec, !Z.land_spec, Z.lnot_spec by lia.
  rewrite testbit_ACCESSPERMS, testbit_ALLPERMS, testbit_S_IFDIR, testbit_S_ISVTX,
    testbit_S_ISGID by lia.
  destruct (Z.ltb_spec i 9), (Z.ltb_spec i 12), (Z.eqb_spec 14 i), (Z.eqb_spec 9 i),
    (Z.eqb_spec 10 i); try lia.
  destruct (Z.testbit pm i), (Z.testbit (umask w) i), (Z.testbit ppm i); reflexivity.
Qed.

Lemma mkdir_mode_access w ppm pm :
  Z.land (mkdir_mode w ppm (Z.lor S_IFDIR (Z.land pm ALLPERMS))) ACCESSPERMS
  = Z.land (Z.land pm ACCESSPERMS) (Z.lnot (umask w)).
Proof.
  apply Z.bits_inj'. intros i Hi.
  rewrite !Z.land_spec, Z.lnot_spec, testbit_ACCESSPERMS by lia.
  destruct (Z.ltb_spec i 9) as [Hlt|Hge].
  - rewrite mkdir_mode_bit by lia.
    destruct (Z.testbit pm i), (Z.testbit (umask w) i); reflexivity.
  - by rewrite !andb_false_r.
Qed.

Lemma mkdir_mode_wx w ppm pm :
  umask_ok w = true -> writable pm = true -> searchable pm = true ->
  writable (mkdir_mode w ppm (Z.lor S_IFDIR (Z.land pm ALLPERMS))) = true /\
  searchable (mkdir_mode w ppm (Z.lor S_IFDIR (Z.land pm ALLPERMS))) = true.
Proof.
  unfold umask_ok, writable, searchable.
  intros [Hu7 Hu6]%andb_true_iff Hw Hx. rewrite !mkdir_mode_bit by lia.
  by rewrite Hw, Hx, Hu7, Hu6.
Qed.

(** *** What a copy is *)

Lemma copyable_dir pm mt ents :
  copyable (Dir pm mt ents)
  = readable pm && writable pm && searchable pm && copyable_entries ents.
Proof. reflexivity. Qed.

Lemma copy_of_dir w ppm pm mt ents :
  copy_of w ppm (Dir pm mt ents)
  = Dir (mkdir_mode w ppm (Z.lor S_IFDIR (Z.land pm ALLPERMS))) (clock w)
        (map (fun e => (e.1, copy_of w (mkdir_mode w ppm (Z.lor S_IFDIR (Z.land pm ALLPERMS)))
                                e.2)) ents).
Proof. reflexivity. Qed.

Lemma map_fst_copy w ppm (es : list (string * node)) :
  map fst (map (fun e => (e.1, copy_of w ppm e.2)) es) = map fst es.
Proof. rewrite map_map. by apply map_ext. Qed.

Lemma copyable_no_links n : copyable n = true -> no_links n = true.
Proof.
  induction n as [pm mt data|pm mt ents IH|tg] using node_ind'; [done| |done].
  rewrite copyable_dir, no_links_dir. intros [_ Hes]%andb_true_iff. revert Hes.
  induction IH as [|[k m] ents Hm _ IHe]; [done|].
  cbn [copyable_entries no_links_entries].
  intros [[_ H1]%andb_true_iff H2]%andb_true_iff.
  cbn [snd] in Hm. by rewrite Hm, IHe.
Qed.

Lemma no_links_copy_of w n : forall ppm, no_links n = true -> no_links (copy_of w ppm n) = true.
Proof.
  induction n as [pm mt data|pm mt ents IH|tg] using node_ind'; intros ppm; [done| |done].
  rewrite copy_of_dir, !no_links_dir.
  generalize (mkdir_mode w ppm (Z.lor S_IFDIR (Z.land pm ALLPERMS))). intros pm'.
  induction IH as [|[k m] ents Hm _ IHe]; [done|].
  cbn [no_links_entries map fst snd]. intros [H1 H2]%andb_true_iff.
  cbn [snd] in Hm. by rewrite Hm, IHe.
Qed.

(** A copy depends on the world by its umask and its clock only. *)
Lemma copy_of_same w w' n :
  umask w = umask w' -> clock w = clock w' ->
  forall ppm, copy_of w ppm n = copy_of w' ppm n.
Proof.
  intros Hu Hk.
  induction n as [pm mt data|pm mt ents IH|tg] using node_ind'; intros ppm; [| |done].
  - cbn [copy_of]. unfold creat_mode. by rewrite Hu, Hk.
  - rewrite !copy_of_dir.
    assert (Hm : forall a b, mkdir_mode w a b = mkdir_mode w' a b).
    { intros a b. unfold mkdir_mode. by rewrite Hu. }
    rewrite Hm, Hk. f_equal.
    generalize (mkdir_mode w' ppm (Z.lor S_IFDIR (Z.land pm ALLPERMS))). intros pm'.
    induction IH as [|[k m] ents Hm' _ IHe]; [done|].
    cbn [map fst snd]. cbn [snd] in Hm'. by rewrite Hm', IHe.
Qed.

Lemma ents_lookup_map_copy w ppm c es :
  ents_lookup c (map (fun e => (e.1, copy_of w ppm e.2)) es)
  = copy_of w ppm <$> ents_lookup c es.
Proof.
  induction es as [|[k m] es IH]; [done|]. cbn [map fst snd ents_lookup].
  destruct (String.eqb k c); [done | exact IH].
Qed.

Lemma copyable_entries_lookup c es m :
  copyable_entries es = true -> ents_lookup c es = Some m -> copyable m = true.
Proof.
  induction es as [|[k m0] es IH]; [done|]. cbn [copyable_entries ents_lookup].
  intros [[_ H1]%andb_true_iff H2]%andb_true_iff.
  destruct (String.eqb k c); [by intros [= <-] | by apply IH].
Qed.

(** Every node of a tree has its copy at the same place in the copy of
    the tree. *)
Lemma lookup_copy_of w n :
  forall ppm q m,
    copyable n = true ->
    lookup q n = Some m ->
    exists m', lookup q (copy_of w ppm n) = Some m' /\ copied w m m'.
Proof.
  induction n as [pm mt data|pm mt ents IH|tg] using node_ind'; intros ppm q m Hcp Hq.
  - destruct q; [|done]. injection Hq as <-. eexists. split; [reflexivity|].
    by exists (clock w).
  - destruct q as [|c q].
    + injection Hq as <-. rewrite copy_of_dir. eexists. split; [reflexivity|].
      eexists _, _, _. split; [reflexivity|]. split; [apply mkdir_mode_access|].
      intros c. rewrite ents_lookup_map_copy. by destruct (ents_lookup c ents).
    + rewrite copy_of_dir. cbn [lookup] in *. rewrite ents_lookup_map_copy.
      destruct (ents_lookup c ents) as [m0|] eqn:Hc; [|done]. cbn [fmap option_fmap option_map].
      rewrite copyable_dir in Hcp. apply andb_true_iff in Hcp as [_ Hcp].
      pose proof (copyable_entries_lookup c ents m0 Hcp Hc) as Hm0.
      assert (Hin : exists k, (k, m0) ∈ ents).
      { clear -Hc. induction ents as [|[k m1] ents IHe]; [done|]. cbn [ents_lookup] in Hc.
        destruct (String.eqb k c).
        - injection Hc as ->. exists k. apply list_elem_of_here.
        - destruct (IHe Hc) as [k' Hk']. exists k'. by apply list_elem_of_further. }
      destruct Hin as [k Hin].
      apply (proj1 (Forall_forall _ _) IH (k, m0) Hin); assumption.
  - done.
Qed.

Lemma tree_bytes_dir pm mt ents : tree_bytes (Dir pm mt ents) = tree_bytes_entries ents.
Proof. reflexivity. Qed.

Lemma copy_cost_dir pm mt ents : copy_cost (Dir pm mt ents) = S (copy_cost_entries ents).
Proof. reflexivity. Qed.

Lemma ents_lookup_none c es : c ∉ map fst es -> ents_lookup c es = None.
Proof.
  induction es as [|[k m] es IH]; [done|]. cbn [map fst ents_lookup].
  intros [Hk Hes]%not_elem_of_cons.
  rewrite (proj2 (String.eqb_neq _ _) (not_eq_sym Hk)). by apply IH.
Qed.

(** Copying the bytes of a file to a new file, when there is room. *)
Lemma copy_file_content_new w src dst fuel ps pms mts data d c pmd mtd esd :
  resolves w src ps ->
  fits src ->
  ends_with_sep src = false ->
  lookup ps (root w) = Some (File pms mts data) ->
  readable pms = true ->
  namei (root w) (cwd w) true dst = Some (d, Some c) ->
  ends_with_sep dst = false ->
  lookup d (root w) = Some (Dir pmd mtd esd) ->
  writable pmd = true ->
  name_fits c = true ->
  ents_lookup c esd = None ->
  Z.of_nat (length data) + 8192 <= 8192 * Z.of_nat fuel ->
  (length data <= disk_free w)%nat ->
  exists w',
    copy_file_content fuel w src dst = Some (w', true) /\
    root w' = update_dir d (ents_insert c (File (creat_mode w 0x1A4) (clock w) data)) (root w) /\
    cwd w' = cwd w /\ clock w' = clock w /\ umask w' = umask w /\
    disk_free w' = (disk_free w - length data)%nat.
Proof.
  intros Hsrc Hfit Hends Hps Hr Hdst Hendd Hd Hw Hnf Hc Hfuel Hroom. unfold copy_file_content.
  rewrite (sys_open_rdonly_file w src ps pms mts data Hsrc Hfit Hends Hps Hr).
  set (w1 := log _ w).
  rewrite (sys_open_create w1 dst d c pmd mtd esd Hdst Hendd Hd Hw Hnf Hc).
  set (w2 := log _ _). clear Hsrc Hdst.
  assert (Hnone : lookup (d ++ [c]) (root w) = None).
  { by rewrite (lookup_snoc_dir _ _ _ _ _ _ Hd). }
  destruct (file_apart_new (root w) ps d c pms mts data pmd mtd esd Hps Hd Hnone) as [Hn1 Hn2].
  assert (Hne : ps <> d ++ [c]) by (intros ->; by rewrite Hps in Hnone).
  set (pmf := creat_mode w 0x1A4).
  assert (Hroot2 : root w2 = update_dir d (ents_insert c (File pmf (clock w) [])) (root w))
    by reflexivity.
  destruct (copy_loop_spec fuel w2 ps pms mts data d c pmd
              (ents_insert c (File pmf (clock w) []) esd) pmf (clock w) mtd 0%nat)
    as (w' & Hloop & Hcwd & Hclock & Humask & Honly & Hfin).
  - rewrite Hroot2, <- Hps. by apply only_at_insert.
  - by rewrite Hroot2, lookup_update_dir_at, Hd.
  - rewrite Hroot2. by eapply lookup_insert_new.
  - exact Hne.
  - lia.
  - rewrite Nat.sub_0_r. exact Hfuel.
  - rewrite Nat.sub_0_r in Hloop, Hfin. exists w'.
    rewrite Hloop. rewrite bool_decide_eq_true_2 by exact Hroom.
    split; [reflexivity|].
    destruct (Hfin Hroom) as (Hfree & mtf' & Hlk & Hmt1 & Hmt2).
    assert (Hmt : mtf' = clock w).
    { destruct (decide (0 < length data)%nat) as [Hpos|Hz]; [by apply Hmt1 | apply Hmt2; lia]. }
    split; [by rewrite Hlk, Hroot2, update_dir_insert_insert, Hmt|].
    split; [exact Hcwd|]. split; [exact Hclock|]. split; [exact Humask | exact Hfree].
Qed.

Lemma copy_ok_file st_garbage pm mt data : copy_ok st_garbage (File pm mt data).
Proof.
  intros fuel w src dest_dir ds cs pd pmd mtd esd Hsrc Hend Hn Hdest Hpd Hw Hx Hcs Hnf Hout
    _ _ Hcp _ Hfs Hfd Hroom Hfuel.
  cbn [tree_bytes reach] in *. cbn [copy_cost] in Hfuel. cbn [copyable] in Hcp.
  destruct fuel as [|fuel]; [lia|].
  destruct (namei_name _ _ _ _ _ Hsrc) as (Hc & Hbase & _).
  destruct (stat_at_named w src ds cs _ Hsrc Hn eq_refl) as [Hsrc' Hstat].
  { unfold slash_ok. by rewrite Hend. }
  assert (Hnone : lookup (pd ++ [cs]) (root w) = None).
  { by rewrite (lookup_snoc_dir _ _ _ _ _ _ Hpd). }
  assert (Hfitd : fits (g_build_filename dest_dir cs)) by (unfold fits; lia).
  assert (Hdst : namei (root w) (cwd w) true (g_build_filename dest_dir cs) = Some (pd, Some cs)).
  { pose proof (namei_build_child w dest_dir pd pmd mtd esd cs Hdest Hpd Hx Hc Hfitd) as Hf.
    destruct (namei_some _ _ _ _ _ Hf) as (Hne & Hlen & Hwk).
    rewrite namei_walk by assumption. apply walk_nolink; [exact Hwk|].
    unfold link_at. by rewrite Hnone. }
  cbn [copy_item]. rewrite Hbase, sys_stat_spec, Hstat. cbn [stat_or_garbage].
  rewrite S_ISDIR_stat_of. cbn [is_dir_node]. set (w1 := log _ w).
  destruct (resolves_namei w1 src (ds, Some cs) Hsrc') as [Hres1 Hfit1].
  destruct (copy_file_content_new w1 src (g_build_filename dest_dir cs) fuel (ds ++ [cs])
              pm mt data pd cs pmd mtd esd)
    as (w' & Hcopy & Hroot & Hcwd & Hclock & Humask & Hfree).
  - exact Hres1.
  - exact Hfit1.
  - exact Hend.
  - exact Hn.
  - exact Hcp.
  - exact Hdst.
  - by apply ends_with_sep_build.
  - exact Hpd.
  - exact Hw.
  - exact Hnf.
  - exact Hcs.
  - pose proof (Z.mul_div_le (Z.of_nat (length data)) 8192 ltac:(lia)).
    pose proof (Z.mod_pos_bound (Z.of_nat (length data)) 8192 ltac:(lia)).
    pose proof (Z.div_mod (Z.of_nat (length data)) 8192 ltac:(lia)).
    pose proof (Z.div_pos (Z.of_nat (length data)) 8192 ltac:(lia) ltac:(lia)).
    lia.
  - exact Hroom.
  - exists w'. by rewrite Hcopy.
Qed.

Section CopyTree.
Context (st_garbage : string -> stat_buf).

(** The loop of [copy_item] over the entries of a directory: [es_done]
have been copied, [es_rest] are to be. *)
Lemma copy_entries fuel src dest_dir ps pd cs pm mt ents pmd mtd esd w0 :
(forall w, cwd w = cwd w0 -> ext (root w0) (root w) -> resolves w src ps) ->
(forall w, cwd w = cwd w0 -> ext (root w0) (root w) -> resolves w dest_dir pd) ->
lookup ps (root w0) = Some (Dir pm mt ents) ->
lookup pd (root w0) = Some (Dir pmd mtd esd) ->
searchable pmd = true ->
ents_lookup cs esd = None ->
valid_name cs = true ->
~ ps `prefix_of` pd ->
writable pm = true ->
searchable pm = true ->
umask_ok w0 = true ->
NoDup (map fst ents) ->
forall es_rest es_done,
ents = es_done ++ es_rest ->
Forall (fun e => copy_ok st_garbage e.2) es_rest ->
wf_entries es_rest = true -> unique_names_entries es_rest = true ->
copyable_entries es_rest = true ->
no_links_entries es_done = true ->
Z.of_nat (String.length src + reach_entries es_rest) < PATH_MAX ->
Z.of_nat (String.length (g_build_filename dest_dir cs) + reach_entries es_rest) < PATH_MAX ->
(copy_cost_entries es_rest <= fuel)%nat ->
forall w,
cwd w = cwd w0 -> clock w = clock w0 -> umask w = umask w0 ->
root w = update_dir pd (ents_insert cs (copy_of w0 pmd (Dir pm mt es_done))) (root w0) ->
(tree_bytes_entries es_rest <= disk_free w)%nat ->
exists w',
readdir_loop (copy_step (copy_item st_garbage fuel) src (g_build_filename dest_dir cs))
(map fst es_rest) (w, true) = Some (w', true) /\
cwd w' = cwd w0 /\ clock w' = clock w0 /\ umask w' = umask w0 /\
root w' = update_dir pd (ents_insert cs (copy_of w0 pmd (Dir pm mt ents))) (root w0) /\
disk_free w' = (disk_free w - tree_bytes_entries es_rest)%nat.
Proof.
intros Hrsrc Hrdest Hps Hpd Hxd Hcs Hvcs Hout Hwpm Hxpm Hum Hnd.
set (r0 := root w0) in *.
set (pmx := mkdir_mode w0 pmd (Z.lor S_IFDIR (Z.land pm ALLPERMS))).
destruct (mkdir_mode_wx w0 pmd pm Hum Hwpm Hxpm) as [Hwx Hxx]. fold pmx in Hwx, Hxx.
assert (Hnone : lookup (pd ++ [cs]) r0 = None).
{ by rewrite (lookup_snoc_dir _ _ _ _ _ _ Hpd). }
assert (Hfr1 : ~ (pd ++ [cs]) `prefix_of` ps).
{ intros [s ->]. by rewrite lookup_app, Hnone in Hps. }
assert (Hfr2 : ~ ps `prefix_of` (pd ++ [cs])).
{ intros [->|Hp]%prefix_snoc_inv; [by rewrite Hps in Hnone | by destruct Hout]. }
induction es_rest as [|[c m] es_rest IH];
intros es_done Hents Hall Hwf Hun Hcp Hnld Hfs Hfd Hfuel w Hcwd Hclock Humask Hroot Hroom.
{ exists w. rewrite app_nil_r in Hents. subst ents. cbn [map readdir_loop tree_bytes_entries].
split; [reflexivity|]. split; [exact Hcwd|]. split; [exact Hclock|]. split; [exact Humask|].
split; [exact Hroot | lia]. }
apply Forall_cons in Hall as [Hm Hall]. cbn [snd] in Hm.
apply wf_entries_cons in Hwf as (Hc & Hwfm & Hwfes).
cbn [unique_names_entries] in Hun. apply andb_true_iff in Hun as [Hunm Hunes].
cbn [copyable_entries] in Hcp.
apply andb_true_iff in Hcp as [[Hnfc Hcpm]%andb_true_iff Hcpes].
cbn [copy_cost_entries] in Hfuel. cbn [tree_bytes_entries] in Hroom.
cbn [reach_entries] in Hfs, Hfd.
pose proof (length_build src c Hc) as Hlens.
pose proof (length_build (g_build_filename dest_dir cs) c Hc) as Hlend.
set (x := copy_of w0 pmd (Dir pm mt es_done)) in *.
assert (Hx : x = Dir pmx (clock w0) (map (fun e => (e.1, copy_of w0 pmx e.2)) es_done)).
{ unfold x. by rewrite copy_of_dir. }
assert (Hnlx : no_links x = true).
{ apply no_links_copy_of. by rewrite no_links_dir. }
assert (Hext : ext r0 (root w)).
{ rewrite Hroot. by apply (ext_insert_fresh r0 pd cs x pmd mtd esd). }
pose proof (Hrsrc w Hcwd Hext) as Hsrcw. pose proof (Hrdest w Hcwd Hext) as Hdestw.
assert (Hpsw : lookup ps (root w) = Some (Dir pm mt ents)).
{ rewrite Hroot, <- Hps. by apply only_at_insert. }
assert (Hpdw : lookup pd (root w) = Some (Dir pmd mtd (ents_insert cs x esd))).
{ by rewrite Hroot, lookup_update_dir_at, Hpd. }
assert (Hxw : lookup (pd ++ [cs]) (root w) = Some x).
{ rewrite Hroot. by eapply lookup_insert_new. }
assert (Hin : (c, m) ∈ ents).
{ rewrite Hents. apply elem_of_app. right. apply list_elem_of_here. }
assert (Hlk : ents_lookup c ents = Some m) by (by apply ents_lookup_nodup).
assert (Hcnew : c ∉ map fst es_done).
{ rewrite Hents, map_app in Hnd. apply NoDup_app in Hnd as (_ & Hdis & _).
intros Hc'. apply (Hdis c Hc'). cbn. apply list_elem_of_here. }
assert (Humw : umask_ok w = true) by (unfold umask_ok in *; by rewrite Humask).
destruct (Hm fuel w (g_build_filename src c) (g_build_filename dest_dir cs) ps c
  (pd ++ [cs]) pmx (clock w0)
  (map (fun e => (e.1, copy_of w0 pmx e.2)) es_done))
as (w1 & Hcopy & Hroot1 & Hcwd1 & Hclock1 & Humask1 & Hfree1).
- apply (namei_build_child w src ps pm mt ents c); try assumption. unfold fits. lia.
- by apply ends_with_sep_build.
- by rewrite (lookup_snoc_dir _ _ _ _ _ _ Hpsw).
- destruct (resolves_child w dest_dir pd pmd mtd (ents_insert cs x esd) cs x Hdestw Hpdw Hxd Hvcs)
as [Hr _]; [|by intros tg; rewrite Hx|exact Hr].
by rewrite ents_lookup_insert, String.eqb_refl.
- by rewrite Hxw, Hx.
- exact Hwx.
- exact Hxx.
- apply ents_lookup_none. by rewrite map_fst_copy.
- exact Hnfc.
- intros [Heq|Hp]%prefix_snoc_inv.
+ apply app_inj_tail in Heq as [-> _]. apply Hout. done.
+ apply Hout. etrans; [|exact Hp]. by apply prefix_app_r.
- exact Hwfm.
- exact Hunm.
- exact Hcpm.
- exact Humw.
- lia.
- lia.
- lia.
- lia.
- cbn [map fst readdir_loop]. unfold copy_step at 1.
pose proof (valid_name_inv c Hc) as (_ & _ & Hd1 & Hd2).
unfold is_dot_or_dotdot. rewrite Hd1, Hd2. cbn [orb]. rewrite Hcopy. cbn [negb].
destruct (IH (es_done ++ [(c, m)])) with (w := w1)
as (w' & Hloop & Hcwd' & Hclock' & Humask' & Hroot' & Hfree').
+ by rewrite <- app_assoc.
+ exact Hall.
+ exact Hwfes.
+ exact Hunes.
+ exact Hcpes.
+ pose proof (copyable_no_links m Hcpm) as Hnlm.
clear -Hnld Hnlm. induction es_done as [|[k n] es IHd]; cbn [app no_links_entries] in *.
* by rewrite Hnlm.
* apply andb_true_iff in Hnld as [-> H]. by apply IHd.
+ lia.
+ lia.
+ lia.
+ by rewrite Hcwd1.
+ by rewrite Hclock1.
+ by rewrite Humask1.
+ rewrite Hroot1, Hroot, update_dir_below_insert. do 2 f_equal.
rewrite Hx, !copy_of_dir. fold pmx. cbn [update_dir]. f_equal.
rewrite ents_insert_fresh by (apply ents_lookup_none; by rewrite map_fst_copy).
rewrite map_app. cbn [map fst snd]. do 3 f_equal.
by apply copy_of_same.
+ lia.
+ exists w'. split; [exact Hloop|]. split; [exact Hcwd'|]. split; [exact Hclock'|].
split; [exact Humask'|]. split; [exact Hroot'|]. cbn [tree_bytes_entries]. lia.
Qed.

Lemma copy_ok_all n : copy_ok st_garbage n.
Proof.
induction n as [pm mt data|pm mt ents IH|tg] using node_ind'.
- apply copy_ok_file.
- intros fuel w src dest_dir ds cs pd pmd mtd esd Hsrc Hend Hn Hdest Hpd Hw Hx Hcs Hnf Hout
Hwf Hun Hcp Hum Hfs Hfd Hroom Hfuel.
rewrite copy_cost_dir in Hfuel. destruct fuel as [|fuel]; [lia|].
rewrite tree_bytes_dir in *. rewrite wf_node_dir in Hwf. rewrite reach_dir in Hfs, Hfd.
rewrite unique_names_dir in Hun.
apply andb_true_iff in Hun as [Hnd%bool_decide_eq_true Hun].
rewrite copyable_dir in Hcp.
apply andb_true_iff in Hcp as [[[Hrpm Hwpm]%andb_true_iff Hxpm]%andb_true_iff Hcp].
destruct (namei_name _ _ _ _ _ Hsrc) as (Hvcs & Hbase & _).
destruct (stat_at_named w src ds cs _ Hsrc Hn eq_refl) as [Hsrc' Hstat].
{ unfold slash_ok. apply orb_true_r. }
destruct (resolves_namei w src (ds, Some cs) Hsrc') as [Hrsrc Hfitsrc].
cbn [loc_path] in Hrsrc.
assert (Hnone : lookup (pd ++ [cs]) (root w) = None).
{ by rewrite (lookup_snoc_dir _ _ _ _ _ _ Hpd). }
assert (Hfr1 : ~ (pd ++ [cs]) `prefix_of` (ds ++ [cs])).
{ intros [s Hs]. by rewrite Hs, lookup_app, Hnone in Hn. }
assert (Hfr2 : ~ (ds ++ [cs]) `prefix_of` (pd ++ [cs])).
{ intros [Heq|Hp]%prefix_snoc_inv; [by rewrite <- Heq, Hn in Hnone | by destruct Hout]. }
assert (Hfitd : fits (g_build_filename dest_dir cs)) by (unfold fits; lia).
cbn [copy_item]. rewrite Hbase, sys_stat_spec, Hstat. cbn [stat_or_garbage].
rewrite S_ISDIR_stat_of. cbn [is_dir_node stat_of st_mode].
set (w1 := log _ w). unfold sys_mkdir.
change (namei (root w1) (cwd w1) false (g_build_filename dest_dir cs))
with (namei (root w) (cwd w) false (g_build_filename dest_dir cs)).
rewrite (namei_build_child w dest_dir pd pmd mtd esd cs Hdest Hpd Hx Hvcs Hfitd).
change (root w1) with (root w). rewrite Hnone, Hpd, Hw, Hnf. cbn [andb].
set (pmx := mkdir_mode w1 pmd (Z.lor S_IFDIR (Z.land pm ALLPERMS))).
set (x0 := Dir pmx (clock w1) []).
set (w2 := log _ (set_root _ w1)).
assert (Hroot2 : root w2 = update_dir pd (ents_insert cs x0) (root w)) by reflexivity.
assert (Hext2 : ext (root w) (root w2)).
{ rewrite Hroot2. by apply (ext_insert_fresh (root w) pd cs x0 pmd mtd esd). }
assert (Hps2 : lookup (ds ++ [cs]) (root w2) = Some (Dir pm mt ents)).
{ rewrite Hroot2, <- Hn. by apply only_at_insert. }
destruct (sys_opendir_resolves w2 src (ds ++ [cs]) _
    (resolves_ext w w2 src _ Hrsrc eq_refl Hext2) Hfitsrc Hps2) as [Hfs3 Hd].
rewrite Hrpm in Hd.
destruct (sys_opendir w2 src) as [w3 names]. cbn [fst snd] in *. subst names.
cbn [readdir_loop]. unfold copy_step at 1 2.
change (is_dot_or_dotdot ".") with true. change (is_dot_or_dotdot "..") with true.
cbv iota.
destruct Hfs3 as (Hr3 & Hc3 & Hf3 & Hk3 & Hu3 & Hp3).
destruct (copy_entries fuel src dest_dir (ds ++ [cs]) pd cs pm mt ents pmd mtd esd w
    (fun w' Hc He => resolves_ext w w' src _ Hrsrc Hc He)
    (fun w' Hc He => resolves_ext w w' dest_dir _ Hdest Hc He)
    Hn Hpd Hx Hcs Hvcs Hout Hwpm Hxpm Hum Hnd ents [] eq_refl IH Hwf Hun Hcp eq_refl
    Hfs Hfd ltac:(lia) w3)
as (w' & Hloop & Hcwd' & Hclock' & Humask' & Hroot' & Hfree').
+ by rewrite <- Hc3.
+ by rewrite <- Hk3.
+ by rewrite <- Hu3.
+ by rewrite <- Hr3, Hroot2.
+ rewrite <- Hf3. exact Hroom.
+ exists w'. split; [exact Hloop|]. split; [exact Hroot'|]. split; [exact Hcwd'|].
split; [exact Hclock'|]. split; [exact Humask'|]. rewrite Hfree', <- Hf3. reflexivity.
- intros fuel w src dest_dir ds cs pd pmd mtd esd _ _ _ _ _ _ _ _ _ _ _ _ Hcp. discriminate Hcp.
Qed.

End CopyTree.

(** ** C5: the copy of a tree *)





(** ** The user interface *)

(** *** The favourites *)

Lemma strstr_here delimiter s :
  starts delimiter s = true ->
  strstr s delimiter = Some ("", string_drop (String.length delimiter) s).
Proof. intros H. destruct s; cbn [strstr]; by rewrite H. Qed.

Lemma strstr_skip c s delimiter :
  starts delimiter (String c s) = false ->
  strstr (String c s) delimiter
  = match strstr s delimiter with
    | Some (piece, rest) => Some (String c piece, rest)
    | None => None
    end.
Proof. intros H. cbn [strstr]. by rewrite H. Qed.

(** A label without ";" in front of ";" and a rest is split from the rest,
    whatever the rest holds. *)
Lemma g_strsplit_label label rest :
  label <> "" ->
  (forall piece tail, strstr label ";" <> Some (piece, tail)) ->
  g_strsplit (label +:+ String ";" rest) ";" 2 = [label; rest].
Proof.
  intros Hne Hno. unfold g_strsplit. change (String.eqb ";" "") with false. cbv iota.
  destruct label as [|c label]; [done|]. cbn [String.append String.eqb String.length].
  cbn [g_strsplit_loop]. change (2 - 1 =? 0) with false. cbv iota.
  assert (Hfind : forall l, (forall piece tail, strstr l ";" <> Some (piece, tail)) ->
            strstr (l +:+ String ";" rest) ";" = Some (l, rest)).
  { clear. induction l as [|x l IH]; intros Hno.
    - cbn [String.append]. by rewrite strstr_here by reflexivity.
    - cbn [String.append].
      assert (Hx : starts ";" (String x (l +:+ String ";" rest)) = false).
      { cbn [starts]. destruct (Ascii.eqb ";" x) eqn:E; [|done].
        exfalso. apply (Hno "" l). cbn [strstr starts]. by rewrite E. }
      rewrite strstr_skip by exact Hx. rewrite IH; [done|].
      intros piece tail H. apply (Hno (String x piece) tail).
      assert (Hx' : starts ";" (String x l) = false).
      { cbn [starts] in *. by destruct (Ascii.eqb ";" x). }
      rewrite strstr_skip by exact Hx'. by rewrite H. }
  change (String c (label +:+ String ";" rest)) with (String c label +:+ String ";" rest).
  rewrite (Hfind _ Hno). destruct (String.length _); reflexivity.
Qed.

Section UiProofs.
Context (strftime_localtime strmode : Z -> string).
Context (st_garbage : string -> stat_buf).

Abbreviation refresh := (refresh_view strftime_localtime strmode).
Abbreviation listing := (get_directory_contents strftime_localtime strmode).

(** X17: the favourites.  Each button carries "label;path" and a click
takes the path back out with [g_strsplit (data, ";", 2)]: whatever the
home directory is called, also with ";" in its name, the four buttons
lead to the home directory and to its [Desktop], [Documents] and
[Downloads]. *)
Theorem favourites_lead_home home :
Forall2 (fun data dir =>
 forall a w,
   on_favourite_clicked strftime_localtime strmode data (a, w)
   = Some (refresh (set_current_path dir a, w)))
(get_favourite_locations home)
[home; home +:+ "/Desktop"; home +:+ "/Documents"; home +:+ "/Downloads"].
Proof.
assert (H : forall label dir a w,
label <> "" ->
(forall piece tail, strstr label ";" <> Some (piece, tail)) ->
on_favourite_clicked strftime_localtime strmode (label +:+ String ";" dir) (a, w)
= Some (refresh (set_current_path dir a, w))).
{ intros label dir a w Hne Hno. unfold on_favourite_clicked.
by rewrite g_strsplit_label. }
unfold get_favourite_locations.
apply List.Forall2_cons.
{ intros a w. apply (H "🏠 Home" home); [discriminate | by vm_compute]. }
apply List.Forall2_cons.
{ intros a w. apply (H "🖥️ Desktop" (home +:+ "/Desktop")); [discriminate | by vm_compute]. }
apply List.Forall2_cons.
{ intros a w. apply (H "📄 Documents" (home +:+ "/Documents")); [discriminate | by vm_compute]. }
apply List.Forall2_cons.
{ intros a w. apply (H "📥 Downloads" (home +:+ "/Downloads")); [discriminate | by vm_compute]. }
apply List.Forall2_nil.
Qed.

(** *** Refreshing the view *)

Lemma listing_same_fs w path : same_fs w (listing w path).1.
Proof.
unfold get_directory_contents, sys_opendir. cbv zeta.
set (r := match namei (root w) (cwd w) true path with Some _ => _ | None => _ end).
set (w0 := log _ w). destruct r as [names|]; [|apply same_fs_log].
destruct (listing_fold_spec strftime_localtime strmode path names w0 []) as (w' & Hfs & ->).
eapply same_fs_trans; [apply same_fs_log | exact Hfs].
Qed.

Lemma listing_fs w w' path : same_fs w w' -> (listing w path).2 = (listing w' path).2.
Proof.
intros Hfs. rewrite !get_directory_contents_spec.
assert (Ho : (sys_opendir w path).2 = (sys_opendir w' path).2).
{ unfold sys_opendir. cbn [snd]. destruct Hfs as (-> & -> & _). reflexivity. }
rewrite Ho. destruct (sys_opendir w' path).2 as [names|]; [|done].
apply map_ext. intros d. unfold info_of. rewrite (stat_at_same_fs w w') by exact Hfs.
destruct Hfs as (_ & _ & _ & _ & _ & ->). reflexivity.
Qed.

Lemma refresh_spec a w :
refresh (a, w)
= (mk_app_state (current_path a) (clipboard_path a) (clipboard_op a) (current_path a)
 (map store_row_of (listing w (current_path a)).2) None,
 (listing w (current_path a)).1).
Proof. unfold refresh_view. by destruct (listing w (current_path a)). Qed.

(** The path of the row of the entry [i] of the directory in view. *)
Lemma selected_entry a0 w cur p pm mt es i c m :
resolves w cur p ->
fits cur ->
lookup p (root w) = Some (Dir pm mt es) ->
readable pm = true ->
Forall (fun e => valid_name e.1 = true) es ->
es !! i = Some (c, m) ->
store (refresh (set_current_path cur a0, w)).1 !! i
= Some (store_row_of (info_of strftime_localtime strmode w cur c)).
Proof.
intros Hres Hfit Hp Hr Hval Hi. rewrite refresh_spec.
cbn [fst store current_path set_current_path].
rewrite (listing_names _ _ w cur p pm mt es Hres Hfit Hp Hr Hval).
rewrite !list_lookup_fmap, Hi. reflexivity.
Qed.

(** *** Cut and paste *)

(** X18: a cut item can be pasted once.  After Cut on a selected row,
Paste calls [move_item] on its path and the directory in view, and
empties the clipboard whatever [move_item] returned: a second Paste
does nothing at all, not even refresh the view. *)
Theorem cut_then_paste_once fuel a w path :
get_selected_path a = Some path ->
exists a2 w2,
on_paste strftime_localtime strmode st_garbage fuel (on_cut (a, w)) = Some (a2, w2) /\
same_fs (move_item w path (current_path a)).1 w2 /\
clipboard_path a2 = None /\ clipboard_op a2 = None /\
on_paste strftime_localtime strmode st_garbage fuel (a2, w2) = Some (a2, w2).
Proof.
intros Hsel. unfold on_cut, on_paste at 1.
cbn [clipboard_path clipboard_op set_clipboard current_path]. rewrite Hsel.
change (g_strcmp0_eq (Some "move") "copy") with false.
change (g_strcmp0_eq (Some "move") "move") with true. cbv iota.
destruct (move_item w path (current_path a)) as [w1 ok]. rewrite refresh_spec.
cbn [fst snd clipboard_path clipboard_op set_clipboard current_path].
eexists _, _. split; [reflexivity|]. split; [apply listing_same_fs|].
split; [reflexivity|]. split; [reflexivity|]. reflexivity.
Qed.

(** *** Copy and paste in place *)

(** X19: Copy and Paste without leaving the directory empties the file.
With a directory in view that can be read and searched and whose
entries have distinct valid names, selecting the row of a regular file
that can be read and written, Copy and then Paste makes [copy_item]
copy the file onto itself: the file is left with no bytes.  (The paths
of the directory and of the file are shorter than PATH_MAX.) *)
Theorem copy_paste_in_place_empties fuel a0 w cur d pmd mtd es i c pm mt data :
resolves w cur d ->
fits cur ->
lookup d (root w) = Some (Dir pmd mtd es) ->
readable pmd = true ->
searchable pmd = true ->
Forall (fun e => valid_name e.1 = true) es ->
NoDup (map fst es) ->
es !! i = Some (c, File pm mt data) ->
fits (g_build_filename cur c) ->
readable pm = true ->
writable pm = true ->
(2 <= fuel)%nat ->
let s1 := refresh (set_current_path cur a0, w) in
let s2 := on_copy (select i s1.1, s1.2) in
exists s3,
on_paste strftime_localtime strmode st_garbage fuel s2 = Some s3 /\
lookup (d ++ [c]) (root s3.2) = Some (File pm (clock w) []).
Proof.
intros Hres Hfit Hd Hrd Hxd Hval Hnd Hi Hfitc Hr Hw Hfuel s1 s2.
pose proof (selected_entry a0 w cur d pmd mtd es i c _ Hres Hfit Hd Hrd Hval Hi) as Hrow.
fold s1 in Hrow. subst s2. unfold on_copy, on_paste.
cbn [clipboard_path clipboard_op set_clipboard current_path select].
unfold get_selected_path. cbn [selection store select]. rewrite Hrow.
unfold store_row_of at 1. cbn [col_path]. rewrite info_of_path.
change (g_strcmp0_eq (Some "copy") "copy") with true. cbv iota.
unfold s1. rewrite refresh_spec. cbn [fst snd current_path set_current_path].
set (w1 := (listing w cur).1).
pose proof (listing_same_fs w cur) as Hfs1. fold w1 in Hfs1.
assert (Hc : valid_name c = true).
{ apply (proj1 (Forall_forall _ _) Hval (c, File pm mt data)).
by eapply list_elem_of_lookup_2. }
assert (Hlk : ents_lookup c es = Some (File pm mt data)).
{ apply ents_lookup_nodup; [done|]. by eapply list_elem_of_lookup_2. }
pose proof (resolves_same_fs w w1 cur d Hfs1 Hres) as Hres1.
destruct Hfs1 as (Hr1 & Hc1 & Hf1 & Hk1 & Hu1 & Hp1).
destruct (copy_item_same_file st_garbage w1 (g_build_filename cur c) cur fuel d c pm mt data)
as (w' & Hcopy & Hroot & _ & _ & pmd' & mtd' & esd' & Hd').
- apply (namei_build_child w1 cur d pmd mtd es c); try assumption.
by rewrite <- Hr1.
- by apply ends_with_sep_build.
- by rewrite <- Hr1, (lookup_snoc_dir _ _ _ _ _ _ Hd).
- exact Hr.
- exact Hw.
- exact Hres1.
- exact Hfitc.
- exact Hfuel.
- rewrite Hcopy, refresh_spec. eexists. split; [reflexivity|].
cbn [snd current_path set_clipboard select].
destruct (listing_same_fs w' cur) as (<- & _). rewrite Hroot, <- Hk1.
by eapply lookup_insert_new.
Qed.

(** *** New File *)

Lemma create_file_item_fs w w' parent_dir file_name :
same_fs w w' ->
root (create_file_item w parent_dir file_name).1
= root (create_file_item w' parent_dir file_name).1.
Proof.
intros (Hr & Hc & _ & Hk & Hu & _). rewrite !create_file_item_eq. cbv zeta.
unfold creat_mode. rewrite <- Hr, <- Hc, <- Hk, <- Hu.
destruct (namei (root w) (cwd w) _ (g_build_filename parent_dir file_name))
as [[d [c|]]|]; [|done..].
destruct (lookup (d ++ [c]) (root w)); [done|].
destruct (lookup d (root w)) as [[| pm mt es |]|]; [done| |done..].
by destruct (_ && _).
Qed.

Lemma create_file_item_keeps w parent_dir file_name :
cwd (create_file_item w parent_dir file_name).1 = cwd w /\
disk_free (create_file_item w parent_dir file_name).1 = disk_free w /\
clock (create_file_item w parent_dir file_name).1 = clock w /\
umask (create_file_item w parent_dir file_name).1 = umask w /\
decimal_point (create_file_item w parent_dir file_name).1 = decimal_point w.
Proof.
rewrite create_file_item_eq. cbv zeta.
destruct (namei (root w) (cwd w) _ (g_build_filename parent_dir file_name))
as [[d [c|]]|]; [|done..].
destruct (lookup (d ++ [c]) (root w)); [done|].
destruct (lookup d (root w)) as [[| pm mt es |]|]; [done| |done..].
by destruct (_ && _).
Qed.

(** X20: New File works once.  The name is always "untitled file.txt"
and the creation is exclusive: whatever the first New File did, a
second one in the same directory changes nothing in the tree, and the
view shows the same rows. *)
Theorem new_file_only_once a w :
let s1 := on_create_file strftime_localtime strmode (a, w) in
let s2 := on_create_file strftime_localtime strmode s1 in
root s2.2 = root s1.2 /\ store s2.1 = store s1.1.
Proof.
unfold on_create_file. rewrite !refresh_spec. cbn [fst snd current_path store].
set (cur := current_path a). set (name := "untitled file.txt").
set (w1 := (create_file_item w cur name).1).
set (w1' := (listing w1 cur).1).
set (w2 := (create_file_item w1' cur name).1).
pose proof (listing_same_fs w1 cur) as Hfs1. fold w1' in Hfs1.
assert (Hroot : root w2 = root w1).
{ destruct (create_file_item w cur name).2 eqn:Hok.
- destruct (create_file_item_inv w cur name Hok)
as (d & c & pm & mt & es & Hn & Hd & Hc & _ & _ & Hcwd & Hr).
fold w1 in Hcwd, Hr.
destruct (create_file_item_taken w1' cur name (d, Some c)
      (File (creat_mode w 0x1A4) (clock w) [])) as [_ Htaken].
+ destruct Hfs1 as (<- & <- & _). rewrite Hcwd, Hr.
apply (namei_ext (root w)); [|exact Hn].
by apply (ext_insert_fresh (root w) d c _ pm mt es).
+ unfold loc_node. cbn [loc_path]. destruct Hfs1 as (<- & _). rewrite Hr.
by eapply lookup_insert_new.
+ fold w2 in Htaken. rewrite Htaken. by destruct Hfs1 as (<- & _).
- pose proof (create_file_item_false w cur name Hok) as Hfs. fold w1 in Hfs.
unfold w2. rewrite <- (create_file_item_fs w w1' cur name).
+ reflexivity.
+ by eapply same_fs_trans. }
split.
- destruct (listing_same_fs w2 cur) as (<- & _). destruct Hfs1 as (<- & _). exact Hroot.
- f_equal. symmetry. apply listing_fs.
destruct (create_file_item_keeps w1' cur name) as (Hc2 & Hf2 & Hk2 & Hu2 & Hp2).
fold w2 in Hc2, Hf2, Hk2, Hu2, Hp2.
destruct Hfs1 as (Hr1 & Hc1 & Hf1 & Hk1 & Hu1 & Hp1).
repeat split; congruence.
Qed.

(** *** Entering a directory *)

(** X21: a double click on a directory enters it.  With a directory in
view that can be read and searched and whose entries have distinct
valid names, activating the row of an entry that is a directory makes
the path of that row the current path and the text of the path entry,
clears the selection and changes nothing in the file system; and when
that directory can be read and searched too, the view shows its entries
(distinct valid names, no symbolic link), a row for each, in order.
(All paths involved are shorter than PATH_MAX.) *)
Theorem enter_directory a0 w cur p pm mt es i c pm' mt' es' :
resolves w cur p ->
fits cur ->
lookup p (root w) = Some (Dir pm mt es) ->
readable pm = true ->
searchable pm = true ->
Forall (fun e => valid_name e.1 = true) es ->
NoDup (map fst es) ->
es !! i = Some (c, Dir pm' mt' es') ->
fits (g_build_filename cur c) ->
let s1 := refresh (set_current_path cur a0, w) in
exists s2,
on_row_activated strftime_localtime strmode i s1 = Entered s2 /\
current_path s2.1 = g_build_filename cur c /\
path_entry s2.1 = g_build_filename cur c /\
selection s2.1 = None /\
same_fs w s2.2 /\
(readable pm' = true -> searchable pm' = true ->
 Forall (fun e => valid_name e.1 = true) es' ->
 NoDup (map fst es') ->
 Forall (fun e => is_link e.2 = false) es' ->
 Forall (fun e => fits (g_build_filename (g_build_filename cur c) e.1)) es' ->
 store s2.1
 = map (fun e => store_row_of
           (row_of (decimal_point w) strftime_localtime strmode
              (g_build_filename cur c) e)) es').
Proof.
intros Hres Hfit Hp Hr Hx Hval Hnd Hi Hfitc s1.
pose proof (selected_entry a0 w cur p pm mt es i c _ Hres Hfit Hp Hr Hval Hi) as Hrow.
fold s1 in Hrow.
assert (Hc : valid_name c = true).
{ apply (proj1 (Forall_forall _ _) Hval (c, Dir pm' mt' es')).
by eapply list_elem_of_lookup_2. }
assert (Hlk : ents_lookup c es = Some (Dir pm' mt' es')).
{ apply ents_lookup_nodup; [done|]. by eapply list_elem_of_lookup_2. }
rewrite (info_of_entry _ _ w cur p pm mt es c _ Hres Hp Hx Hc Hlk eq_refl Hfitc) in Hrow.
unfold on_row_activated. destruct s1 as [a1 w1] eqn:Hs1. cbn [fst] in Hrow. rewrite Hrow.
unfold store_row_of at 1, row_of at 1. cbn [col_is_dir col_path FileInfo.is_dir
FileInfo.path is_dir_node fst snd].
rewrite refresh_spec. cbn [current_path set_current_path].
eexists. split; [reflexivity|]. cbn [fst snd current_path path_entry selection store].
split; [reflexivity|]. split; [reflexivity|]. split; [reflexivity|].
assert (Hfs1 : same_fs w w1).
{ unfold s1 in Hs1. rewrite refresh_spec in Hs1. injection Hs1 as _ <-.
apply listing_same_fs. }
split; [eapply same_fs_trans; [exact Hfs1 | apply listing_same_fs]|].
intros Hr' Hx' Hval' Hnd' Hnl' Hfit'.
destruct (resolves_child w cur p pm mt es c _ Hres Hp Hx Hc Hlk) as [Hres' _]; [by intros t|].
assert (Hres1 : resolves w1 (g_build_filename cur c) (p ++ [c])) by (by eapply resolves_same_fs).
assert (Hp1 : lookup (p ++ [c]) (root w1) = Some (Dir pm' mt' es')).
{ destruct Hfs1 as (<- & _). by rewrite (lookup_snoc_dir _ _ _ _ _ _ Hp). }
assert (Hpt : decimal_point w1 = decimal_point w).
{ by destruct Hfs1 as (_ & _ & _ & _ & _ & <-). }
rewrite (listing_names _ _ w1 _ _ pm' mt' es' Hres1 Hfitc Hp1 Hr' Hval'), !map_map.
apply map_ext_in. intros [k m] Hin%list_elem_of_In. f_equal.
pose proof (proj1 (Forall_forall _ _) Hval' _ Hin) as Hk.
pose proof (proj1 (Forall_forall _ _) Hnl' _ Hin) as Hm.
pose proof (proj1 (Forall_forall _ _) Hfit' _ Hin) as Hf. cbn [fst snd] in *.
rewrite <- Hpt.
apply (info_of_entry _ _ w1 _ _ pm' mt' es' k m Hres1 Hp1 Hx' Hk); [|exact Hm|exact Hf].
by apply ents_lookup_nodup.
Qed.

(** *** Dialogs *)

Lemma listing_calls w path :
Forall (fun e => ev_call e = SysOpendir \/ ev_call e = SysStat)
(new_events w (listing w path).1).
Proof.
unfold get_directory_contents, sys_opendir. cbv zeta.
set (r := match namei (root w) (cwd w) true path with Some _ => _ | None => _ end).
set (w0 := log _ w).
destruct r as [names|].
- destruct (listing_fold_spec strftime_localtime strmode path names w0 [])
as (w' & Hfs & Hfold).
destruct (listing_fold_trace strftime_localtime strmode path names w0 [])
as (evs & Ht & Hc & _).
rewrite Hfold in *. cbn [fst snd app] in *.
rewrite (new_events_app w w' (Ev SysOpendir path (observe w path) 0 :: evs)).
2:{ rewrite Ht. unfold w0. rewrite log_trace, <- app_assoc. done. }
constructor; [by left|]. apply Forall_forall. intros e He. right.
assert (Hin : ev_call e ∈ map ev_call evs) by (apply list_elem_of_fmap; by exists e).
rewrite Hc in Hin. by apply list_elem_of_fmap in Hin as (x & -> & _).
- cbn [fst]. rewrite (new_events_app w w0 [Ev SysOpendir path (observe w path) (-1)]) by done.
constructor; [by left | constructor].
Qed.

Lemma new_events_refl w : new_events w w = [].
Proof. unfold new_events. apply drop_all. Qed.

(** X22: Cancel means cancel.  When the Rename or the New Folder dialog
is dismissed, or the Delete question answered No, the handler does
nothing at all (Rename and Delete without a selection) or only
refreshes the view: the file system is as it was, and the only calls
made that take a path name are the [opendir] and the [stat]s of that
listing, no [rename], [remove], [mkdir] or [open]. *)
Theorem cancelled_dialogs_change_nothing a w :
Forall (fun s' =>
  (s' = (a, w) \/ s' = refresh (a, w)) /\
  same_fs w s'.2 /\
  Forall (fun e => ev_call e = SysOpendir \/ ev_call e = SysStat)
         (new_events w s'.2))
[on_rename strftime_localtime strmode None (a, w);
 on_delete strftime_localtime strmode false (a, w);
 on_create_folder strftime_localtime strmode None (a, w)].
Proof.
assert (Hsame : (fun s' : app_state * world =>
  (s' = (a, w) \/ s' = refresh (a, w)) /\
  same_fs w s'.2 /\
  Forall (fun e => ev_call e = SysOpendir \/ ev_call e = SysStat)
         (new_events w s'.2)) (a, w)).
{ split; [by left|]. split; [apply same_fs_refl|]. cbn [snd]. by rewrite new_events_refl. }
assert (Hrefresh : (fun s' : app_state * world =>
  (s' = (a, w) \/ s' = refresh (a, w)) /\
  same_fs w s'.2 /\
  Forall (fun e => ev_call e = SysOpendir \/ ev_call e = SysStat)
         (new_events w s'.2)) (refresh (a, w))).
{ split; [by right|]. rewrite refresh_spec. cbn [snd].
split; [apply listing_same_fs | apply listing_calls]. }
unfold on_rename, on_delete, on_create_folder.
destruct (get_selected_path a) as [path|];
(constructor; [assumption|]); (constructor; [assumption|]); (constructor; [assumption|]);
constructor.
Qed.

End UiProofs.

Lemma cut_then_paste_once_witness :
  let a := select 0 (refresh_view no_time no_time
                       (mk_app_state "/home/user/root" None None "" [] None,
                        sample_world)).1 in
  exists a2 w2,
    on_paste no_time no_time no_garbage 1 (on_cut (a, sample_world)) = Some (a2, w2) /\
    same_fs (move_item sample_world "/home/user/root/a.txt" (current_path a)).1 w2 /\
    clipboard_path a2 = None /\ clipboard_op a2 = None /\
    on_paste no_time no_time no_garbage 1 (a2, w2) = Some (a2, w2).
Proof.
  apply (cut_then_paste_once no_time no_time no_garbage 1
           (select 0 (refresh_view no_time no_time
                        (mk_app_state "/home/user/root" None None "" [] None,
                         sample_world)).1)
           sample_world "/home/user/root/a.txt").
  vm_compute. reflexivity.
Defined.

Lemma copy_paste_in_place_empties_witness :
  let s1 := refresh_view no_time no_time
              (set_current_path "/home/user/root" (mk_app_state "" None None "" [] None),
               sample_world) in
  let s2 := on_copy (select 0 s1.1, s1.2) in
  exists s3,
    on_paste no_time no_time no_garbage 2 s2 = Some s3 /\
    lookup (["home"; "user"; "root"] ++ ["a.txt"]) (root s3.2)
    = Some (File 0x1A4 (clock sample_world) []).
Proof.
  apply (copy_paste_in_place_empties no_time no_time no_garbage 2
           (mk_app_state "" None None "" [] None) sample_world "/home/user/root"
           ["home"; "user"; "root"] 0x1ED 0
           [("a.txt", File 0x1A4 0 (bytes "hello"));
            ("sub", Dir 0x1ED 0 [("b.txt", File 0x1A4 0 (bytes "world"))])]
           0 "a.txt" 0x1A4 0 (bytes "hello")).
  - split; [done|]. eexists. split; [vm_compute; reflexivity | reflexivity].
  - reflexivity.
  - reflexivity.
  - reflexivity.
  - reflexivity.
  - repeat constructor.
  - apply (bool_decide_unpack _). vm_compute. reflexivity.
  - reflexivity.
  - vm_compute. reflexivity.
  - reflexivity.
  - reflexivity.
  - lia.
Defined.

Lemma enter_directory_witness :
  let s1 := refresh_view no_time no_time
              (set_current_path "/home/user/root" (mk_app_state "" None None "" [] None),
               sample_world) in
  let es' := [("b.txt", File 0x1A4 0 (bytes "world"))] in
  exists s2,
    on_row_activated no_time no_time 1 s1 = Entered s2 /\
    current_path s2.1 = g_build_filename "/home/user/root" "sub" /\
    path_entry s2.1 = g_build_filename "/home/user/root" "sub" /\
    selection s2.1 = None /\
    same_fs sample_world s2.2 /\
    (readable 0x1ED = true -> searchable 0x1ED = true ->
     Forall (fun e => valid_name e.1 = true) es' ->
     NoDup (map fst es') ->
     Forall (fun e => is_link e.2 = false) es' ->
     Forall (fun e => fits (g_build_filename (g_build_filename "/home/user/root" "sub") e.1))
       es' ->
     store s2.1
     = map (fun e => store_row_of
                       (row_of (decimal_point sample_world) no_time no_time
                          (g_build_filename "/home/user/root" "sub") e)) es').
Proof.
  apply (enter_directory no_time no_time
           (mk_app_state "" None None "" [] None) sample_world "/home/user/root"
           ["home"; "user"; "root"] 0x1ED 0
           [("a.txt", File 0x1A4 0 (bytes "hello"));
            ("sub", Dir 0x1ED 0 [("b.txt", File 0x1A4 0 (bytes "world"))])]
           1 "sub" 0x1ED 0).
  - split; [done|]. eexists. split; [vm_compute; reflexivity | reflexivity].
  - reflexivity.
  - reflexivity.
  - reflexivity.
  - reflexivity.
  - repeat constructor.
  - apply (bool_decide_unpack _). vm_compute. reflexivity.
  - reflexivity.
  - vm_compute. reflexivity.
Defined.
